(** * Telegram-Auto-Regger: the activation ledger, the phone-number state
      machine and the identity generators, embedded from the Python source.

    Sources embedded here:
    - [auto_reger/sms_api.py]: [_load_activations], [_save_activations],
      [save_activation_to_json], [remove_activation_from_json],
      [can_set_status_8], [SmsApi.__init__], [SmsApi.verification_number],
      [SmsApi.check_verif_status];
    - [telegram_regger.py]: [setup_cech], [activation_admin],
      [phone_number_send], [check_2fa],
      [create_tdata_with_telegram_desktop], [register_telegram_account] and
      the registration loop of [main];
    - [auto_reger/adb.py]: [generate_samsung_imei],
      [generate_boottime_sequence], [generate_number], [get_device_info],
      [generate_samsung_mac], [generate_android_id],
      [generate_stable_secret], [generate_mac_address];
    - [auto_reger/utils.py]: [load_names], [generate_random_string],
      [get_device_config]. *)

From Stdlib Require Import ZArith List String Ascii Bool Lia.
From stdpp Require Import base option list gmap strings pretty.

Open Scope string_scope.
Open Scope Z_scope.

(* ===================================================================== *)
(** ** Python values                                                     *)
(* ===================================================================== *)

(** The scalars that the JSON payloads of this program carry.  A float is
    kept as its [repr] text: the program never computes with one, it only
    tests truthiness and converts with [str]. *)
Inductive pyval : Type :=
| PNone
| PBool (b : bool)
| PInt (z : Z)
| PFloat (repr : string)
| PStr (s : string).

(** [bool(v)] *)
Definition truthy (v : pyval) : bool :=
  match v with
  | PNone => false
  | PBool b => b
  | PInt z => negb (z =? 0)
  | PFloat r => negb (String.eqb r "0.0" || String.eqb r "-0.0")
  | PStr s => negb (String.eqb s "")
  end.

(** [str(v)] *)
Definition py_str (v : pyval) : string :=
  match v with
  | PNone => "None"
  | PBool true => "True"
  | PBool false => "False"
  | PInt z => pretty z
  | PFloat r => r
  | PStr s => s
  end.

(** A JSON object / Python [dict] with string keys. *)
Abbreviation pydict := (gmap string pyval).

(** [d.get(k)]: [None] when the key is absent. *)
Definition dict_get (d : pydict) (k : string) : pyval :=
  default PNone (d !! k).

(* ===================================================================== *)
(** ** Time                                                              *)
(* ===================================================================== *)

(** A naive [datetime] is the number of microseconds since [datetime.min]
    (0001-01-01T00:00:00), a [timedelta] a number of microseconds; what
    [timedelta.total_seconds()] returns is that number divided by [10**6]. *)
Definition datetime := Z.
Definition usec_per_sec : Z := 1000000.

(** What [datetime.fromisoformat] yields on a text it accepts: a naive
    value, or an aware one when the text carries a UTC offset (the instant
    is then kept in UTC). *)
Inductive iso_datetime : Type :=
| Naive (t : datetime)
| Aware (t : datetime).

(* ===================================================================== *)
(** ** The activation ledger ([activations.json])                        *)
(* ===================================================================== *)

Module Ledger.

(** Contents of [ACTIVATIONS_FILE]: [None] when the file does not exist or
    does not hold a JSON list, otherwise the list of rows. *)
Definition file := option (list pydict).

(** [_load_activations] *)
Definition _load_activations (f : file) : list pydict :=
  match f with
  | None => []
  | Some data => data
  end.

(** [_save_activations]: the file is replaced by the dumped list (the
    write is taken to succeed; the code logs and swallows a failure). *)
Definition _save_activations (data : list pydict) (f : file) : file :=
  Some data.

Section WithIso.

(** [datetime.isoformat] and [datetime.fromisoformat] ([None]: the text is
    rejected with [ValueError]) belong to the Python library. *)
Variable isoformat : datetime -> string.
Variable fromisoformat : string -> option iso_datetime.

(** [save_activation_to_json]; [now] is the reading of [datetime.utcnow()]. *)
Definition save_activation_to_json (now : datetime)
    (activation_id phone_number : pyval) (f : file) : file :=
  let data := _load_activations f in
  let row : pydict :=
    <["activation_id" := PStr (py_str activation_id)]>
    (<["phone_number" := PStr (py_str phone_number)]>
    (<["created_at" := PStr (isoformat now)]> ∅)) in
  _save_activations (data ++ [row]) f.

(** The test of the comprehension and of the scan:
    [str(row.get("activation_id")) != str(activation_id)]. *)
Definition row_differs (activation_id : pyval) (row : pydict) : bool :=
  negb (String.eqb (py_str (dict_get row "activation_id"))
                   (py_str activation_id)).

(** [remove_activation_from_json] *)
Definition remove_activation_from_json (activation_id : pyval) (f : file)
    : file :=
  let data := _load_activations f in
  let data := List.filter (row_differs activation_id) data in
  _save_activations data f.

(** Outcome of [can_set_status_8]: a boolean, or a [TypeError], which the
    function does not catch (it catches [ValueError] only): [fromisoformat]
    raises it on a truthy [created_at] that is not a string, and so does
    the subtraction of an aware value from the naive [utcnow()]. *)
Inductive verdict : Type :=
| Verdict (b : bool)
| RaisesTypeError.

(** The body of the [for] loop once a row matches. *)
Definition judge_row (now : datetime) (min_age_seconds : Z) (row : pydict)
    : verdict :=
  let created_at := dict_get row "created_at" in
  if negb (truthy created_at) then Verdict true
  else match created_at with
       | PStr s =>
           match fromisoformat s with
           | None => Verdict true
           | Some (Naive created_dt) =>
               (* age = (utcnow() - created_dt).total_seconds();
                  age >= min_age_seconds, counted in microseconds: the
                  float [age] compares with an integer number of seconds
                  as the exact quotient does *)
               Verdict (min_age_seconds * usec_per_sec <=? now - created_dt)
           | Some (Aware _) => RaisesTypeError
           end
       | _ => RaisesTypeError
       end.

Fixpoint scan_rows (now : datetime) (min_age_seconds : Z)
    (activation_id : pyval) (data : list pydict) : verdict :=
  match data with
  | [] => Verdict false
  | row :: rest =>
      if row_differs activation_id row
      then scan_rows now min_age_seconds activation_id rest
      else judge_row now min_age_seconds row
  end.

(** [can_set_status_8] *)
Definition can_set_status_8 (now : datetime) (activation_id : pyval)
    (min_age_seconds : Z) (f : file) : verdict :=
  scan_rows now min_age_seconds activation_id (_load_activations f).

Definition default_min_age_seconds : Z := 120.

(** An id is recorded when some row of the ledger carries it. *)
Definition recorded (activation_id : pyval) (f : file) : bool :=
  negb (forallb (row_differs activation_id) (_load_activations f)).

(** The first row carrying the id: the one [can_set_status_8] judges. *)
Definition first_row (activation_id : pyval) (f : file) : option pydict :=
  List.find (fun row => negb (row_differs activation_id row))
            (_load_activations f).

End WithIso.
End Ledger.


(* ===================================================================== *)
(** ** Strings as Python uses them                                       *)
(* ===================================================================== *)

(** [sub in text] *)
Fixpoint contains (sub text : string) : bool :=
  String.prefix sub text ||
  match text with
  | EmptyString => false
  | String _ rest => contains sub rest
  end.

(** [text.startswith(p)] *)
Definition startswith (text p : string) : bool := String.prefix p text.

(** [text.partition(":")[2]]: what follows the first colon, the empty
    string when there is none. *)
Fixpoint after_colon (text : string) : string :=
  match text with
  | EmptyString => EmptyString
  | String c rest => if Ascii.eqb c ":" then rest else after_colon rest
  end.

(** The white space that [str.strip()] removes, within ASCII. *)
Definition is_space (c : ascii) : bool :=
  let n := nat_of_ascii c in
  (Nat.eqb n 32 || (Nat.leb 9 n && Nat.leb n 13)
   || (Nat.leb 28 n && Nat.leb n 31))%bool.

Fixpoint lstrip (text : string) : string :=
  match text with
  | EmptyString => EmptyString
  | String c rest => if is_space c then lstrip rest else text
  end.

Fixpoint rstrip (text : string) : string :=
  match text with
  | EmptyString => EmptyString
  | String c rest =>
      match rstrip rest with
      | EmptyString => if is_space c then EmptyString else String c EmptyString
      | kept => String c kept
      end
  end.

Definition strip (text : string) : string := rstrip (lstrip text).

(* ===================================================================== *)
(** ** The world the scripts act on                                      *)
(* ===================================================================== *)

(** Exceptions, by the classes the handlers of this program tell apart;
    each carries [str(e)]. *)
Inductive exn : Type :=
| TypeError (msg : string)
| ValueError (msg : string)
| KeyError (msg : string)
| AttributeError (msg : string)
| OtherError (msg : string).

Definition exn_str (e : exn) : string :=
  match e with
  | TypeError m | ValueError m | KeyError m | AttributeError m
  | OtherError m => m
  end.

Definition is_TypeError (e : exn) : bool :=
  match e with TypeError _ => true | _ => false end.

(** What [getStatusV2] hands back: a dict or a plain value. *)
Inductive status_val : Type :=
| StDict (d : pydict)
| StVal (v : pyval).

(** Calls that leave the process, in the order [calls] records them. *)
Inductive event : Type :=
| EGetCountryId (country : string)
| EGetNumberV2 (service : string) (country_id : Z) (max_price : option pyval)
| ESetStatus (activation_id : pyval) (status : Z)
| EGetStatusV2 (activation_id : pyval) (by_keyword : bool)
| EInputPhoneNumber (number : pyval)
| ESleep (seconds : Z)
| ERandint (lo hi : Z)
| EChoice (len : nat).

(** How a call into a library or a device ends. *)
Inductive reply (A : Type) : Type :=
| Returns (a : A)
| Throws (e : exn).
Arguments Returns {A} a.
Arguments Throws {A} e.

(** The surroundings: the provider, the device, the random source and the
    passing of time.  Each answer may depend on every call made so far,
    the one being answered first in the list. *)
Record Env : Type := mkEnv {
  get_country_id : list event -> reply Z;
  getNumberV2 : list event -> reply pydict;
  setStatus : list event -> reply unit;
  getStatusV2 : list event -> reply status_val;
  input_phone_number : list event -> reply unit;
  randint : list event -> Z;
  choice : list event -> nat;
  (** microseconds a call takes, beyond a requested sleep *)
  elapsed : list event -> N
}.

(** [cech.json] *)
Inductive json_file : Type :=
| Absent
| Corrupt
| Holds (d : pydict).

Record World : Type := mkWorld {
  activations : Ledger.file;
  cech : json_file;
  NEED_CHANGE_LOCATION : bool;
  clock : datetime;
  (** most recent call first *)
  calls : list event
}.

Definition set_activations (f : Ledger.file) (w : World) : World :=
  mkWorld f (cech w) (NEED_CHANGE_LOCATION w) (clock w) (calls w).
Definition set_cech (c : json_file) (w : World) : World :=
  mkWorld (activations w) c (NEED_CHANGE_LOCATION w) (clock w) (calls w).
Definition set_NEED_CHANGE_LOCATION (b : bool) (w : World) : World :=
  mkWorld (activations w) (cech w) b (clock w) (calls w).

(** Result of a computation: a value, an exception on its way up, or a
    loop that has used up the iterations it was given. *)
Inductive res (A : Type) : Type :=
| Ok (a : A)
| Raise (e : exn)
| OutOfFuel.
Arguments Ok {A} a.
Arguments Raise {A} e.
Arguments OutOfFuel {A}.

Definition M (A : Type) : Type := World -> res A * World.

Definition ret {A} (a : A) : M A := fun w => (Ok a, w).
Definition raise {A} (e : exn) : M A := fun w => (Raise e, w).
Definition out_of_fuel {A} : M A := fun w => (OutOfFuel, w).

Definition bind {A B} (m : M A) (k : A -> M B) : M B :=
  fun w =>
    match m w with
    | (Ok a, w') => k a w'
    | (Raise e, w') => (Raise e, w')
    | (OutOfFuel, w') => (OutOfFuel, w')
    end.

(** [try: m except Exception as e: handler(e)] *)
Definition try_except {A} (m : M A) (handler : exn -> M A) : M A :=
  fun w =>
    match m w with
    | (Raise e, w') => handler e w'
    | other => other
    end.

Notation "'do' x <- m ; k" := (bind m (fun x => k))
  (at level 10, x name, m at level 100, k at level 200,
   format "'[v' 'do'  x  <-  m ; '/' k ']'").
Notation "'run' m ; k" := (bind m (fun _ => k))
  (at level 10, m at level 100, k at level 200,
   format "'[v' 'run'  m ; '/' k ']'").

Definition get_world : M World := fun w => (Ok w, w).
Definition modify (f : World -> World) : M unit := fun w => (Ok tt, f w).

(** An outside call: it is recorded, time passes, the surroundings answer. *)
Definition call {A} (env : Env) (ev : event)
    (answer : Env -> list event -> reply A) : M A :=
  fun w =>
    let h := ev :: calls w in
    let slept := match ev with
                 | ESleep s => s * usec_per_sec
                 | _ => 0
                 end in
    let w' := mkWorld (activations w) (cech w) (NEED_CHANGE_LOCATION w)
                      (clock w + slept + Z.of_N (elapsed env h)) h in
    match answer env h with
    | Returns a => (Ok a, w')
    | Throws e => (Raise e, w')
    end.

(** A draw from the random source, recorded like a call. *)
Definition draw {A} (env : Env) (ev : event)
    (answer : Env -> list event -> A) : M A :=
  call env ev (fun e h => Returns (answer e h)).

(* ===================================================================== *)
(** ** [sms_api.py] and [telegram_regger.py]                             *)
(* ===================================================================== *)

(** The fields of an [SmsApi] object that the scripts read. *)
Record SmsApi : Type := mkSmsApi {
  service_name : string;
  api_url : string
}.

Definition CECH_PATH : string := "./cech.json".

(** Outcome of one pass through the inner [while new_number] loop of
    [phone_number_send]. *)
Inductive bought : Type :=
| Again                                  (* [continue] *)
| Bought (activation_id phone_number number_price : pyval)
| GiveUp.                                (* [return False] *)

(** What [phone_number_send] returns. *)
Inductive send_result : Type :=
| SentFalse
| Sent (activation_id phone_number number_price : pyval)
| SentNone.                              (* falling off the outer loop *)

(** What the code-waiting step of [register_telegram_account] yields. *)
Inductive code_step : Type :=
| CodeReceived (code : pyval)
| ReturnFalse.

Module Regger.
Section Scripts.

Variable isoformat : datetime -> string.
Variable fromisoformat : string -> option iso_datetime.
Variable env : Env.
Variable COUNTRY : string.
Variable MAX_PRICE : pyval.

(** [time.sleep(seconds)] *)
Definition sleep (seconds : Z) : M unit :=
  call env (ESleep seconds) (fun _ _ => Returns tt).

(** [can_set_status_8(activation_id)], read off the current ledger and
    clock, with the default [min_age_seconds]. *)
Definition can_set_status_8 (activation_id : pyval) : M bool :=
  fun w =>
    match Ledger.can_set_status_8 fromisoformat (clock w) activation_id
            Ledger.default_min_age_seconds (activations w) with
    | Ledger.Verdict b => (Ok b, w)
    | Ledger.RaisesTypeError => (Raise (TypeError "fromisoformat"), w)
    end.

Definition save_activation_to_json (activation_id phone_number : pyval)
    : M unit :=
  fun w =>
    (Ok tt, set_activations
              (Ledger.save_activation_to_json isoformat (clock w)
                 activation_id phone_number (activations w)) w).

Definition remove_activation_from_json (activation_id : pyval) : M unit :=
  modify (fun w =>
    set_activations
      (Ledger.remove_activation_from_json activation_id (activations w)) w).

(** [setup_cech] *)
Definition setup_cech : M pydict :=
  fun w =>
    match cech w with
    | Holds d => (Ok d, w)
    | Corrupt => (Raise (ValueError "cech.json"), w)
    | Absent => (Ok ∅, set_cech (Holds ∅) w)
    end.

(** [write_json(obj, CECH_PATH)] *)
Definition write_cech (obj : pydict) : M unit := modify (set_cech (Holds obj)).

(** [activation_admin] *)
Definition activation_admin (sms_obj : SmsApi) (last_names : list string)
    (phone_number activation_id : pyval) : M string :=
  do r <- draw env (ERandint 0 100) randint;
  run modify (set_NEED_CHANGE_LOCATION (r <? 30));
  do random_last_name <-
    (match last_names with
     | [] => ret "Unknown"
     | _ => do i <- draw env (EChoice (length last_names)) choice;
            ret (nth (i mod length last_names)%nat last_names "")
     end);
  do cech_data <- setup_cech;
  let cech_data := <["last_name" := PStr random_last_name]> cech_data in
  let cech_data := <["phone_number" := phone_number]> cech_data in
  do cech_data <-
    try_except
      (do eligible <- can_set_status_8 activation_id;
       if eligible then
         run call env (ESetStatus activation_id 8) setStatus;
         run remove_activation_from_json activation_id;
         ret (<["reason" := PStr "No code received or error"]>
              (<["activation_status" := PStr "canceled"]> cech_data))
       else
         ret (<["reason" := PStr "Too early to cancel status"]>
              (<["activation_status" := PStr "not_canceled"]> cech_data)))
      (fun e =>
         ret (<["reason" := PStr (exn_str e)]>
              (<["activation_status" := PStr "error"]> cech_data)));
  run write_cech cech_data;
  ret CECH_PATH.

(** The key fix-ups at the end of [verification_number]. *)
Definition normalise (resp : pydict) : pydict :=
  let resp :=
    match resp !! "phoneNumber", resp !! "number" with
    | None, Some n => <["phoneNumber" := n]> resp
    | _, _ => resp
    end in
  match resp !! "activationId", resp !! "id" with
  | None, Some i => <["activationId" := i]> resp
  | _, _ => resp
  end.

(** [SmsApi.verification_number] *)
Definition verification_number (sms_obj : SmsApi) (service country : string)
    (max_price : option pyval) : M pydict :=
  do country_id <- call env (EGetCountryId country) get_country_id;
  do got <-
    try_except
      (do resp <- call env (EGetNumberV2 service country_id max_price)
                    getNumberV2;
       ret (inl resp))
      (fun e => ret (inr ({["error" := PStr (exn_str e)]} : pydict)));
  match got with
  | inr failure => ret failure
  | inl resp => ret (normalise resp)
  end.

(** [phone_number.startswith(p)] *)
Definition py_startswith (phone_number : pyval) (p : string) : M bool :=
  match phone_number with
  | PStr s => ret (startswith s p)
  | _ => raise (AttributeError "startswith")
  end.

(** [num_data['error']] *)
Definition subscript_error (num_data : pydict) : M pyval :=
  match num_data !! "error" with
  | Some v => ret v
  | None => raise (KeyError "'error'")
  end.

(** The [max_price] that [phone_number_send] passes on. *)
Definition max_price_for (sms_obj : SmsApi) : option pyval :=
  if negb (contains "grizzly" (api_url sms_obj)) then Some MAX_PRICE
  else None.

(** One pass through the body of [while new_number]. *)
Definition request_number (sms_obj : SmsApi) : M bought :=
  let max_price := max_price_for sms_obj in
  do num_data <- verification_number sms_obj "tg" COUNTRY max_price;
  let phone_number := dict_get num_data "phoneNumber" in
  let activation_id := dict_get num_data "activationId" in
  let number_price := dict_get num_data "activationCost" in
  if negb (truthy phone_number) then
    do err <- subscript_error num_data;
    if truthy err then ret Again else ret GiveUp
  else
    do wrong_uk <-
      (if String.eqb COUNTRY "United Kingdom"
       then do ok <- py_startswith phone_number "+44"; ret (negb ok)
       else ret false);
    if wrong_uk then
      run activation_admin sms_obj [] phone_number activation_id;
      ret Again
    else
      do wrong_us <-
        (if String.eqb COUNTRY "USA"
         then do ok <- py_startswith phone_number "+1"; ret (negb ok)
         else ret false);
      if wrong_us then
        run activation_admin sms_obj [] phone_number activation_id;
        ret Again
      else ret (Bought activation_id phone_number number_price).

(** The inner loop [while new_number]; [fuel] bounds its passes. *)
Fixpoint buy_number (fuel : nat) (sms_obj : SmsApi) : M bought :=
  match fuel with
  | O => out_of_fuel
  | S fuel' =>
      do b <- request_number sms_obj;
      match b with
      | Again => buy_number fuel' sms_obj
      | done => ret done
      end
  end.

(** The [try] block of [phone_number_send]. *)
Definition send_attempt (fuel : nat) (sms_obj : SmsApi) : M send_result :=
  do b <- buy_number fuel sms_obj;
  match b with
  | Bought activation_id phone_number number_price =>
      run call env (EInputPhoneNumber phone_number) input_phone_number;
      run save_activation_to_json activation_id phone_number;
      ret (Sent activation_id phone_number number_price)
  | GiveUp => ret SentFalse
  | Again => ret SentFalse      (* not reached: the loop goes on instead *)
  end.

(** The outer loop [while attempt < 5]; [rounds] bounds its passes and
    [fuel] those of each inner loop. *)
Fixpoint send_loop (rounds fuel : nat) (sms_obj : SmsApi) (attempt : Z)
    : M send_result :=
  if negb (attempt <? 5) then ret SentNone
  else
    match rounds with
    | O => out_of_fuel
    | S rounds' =>
        let attempt := attempt + 1 in
        try_except (send_attempt fuel sms_obj)
          (fun e =>
             if 5 <=? attempt then ret SentFalse
             else send_loop rounds' fuel sms_obj attempt)
    end.

(** [phone_number_send] *)
Definition phone_number_send (fuel : nat) (sms_obj : SmsApi) : M send_result :=
  send_loop 5 fuel sms_obj 0.

(** [bool(status)] *)
Definition status_truthy (status : status_val) : bool :=
  match status with
  | StDict d => negb (bool_decide (d = ∅))
  | StVal v => truthy v
  end.

(** [a or b] *)
Definition py_or (a b : pyval) : pyval := if truthy a then a else b.

(** The normalisation of the status formats in [check_verif_status]. *)
Definition extract_code (status : status_val) : pyval :=
  match status with
  | StDict d =>
      py_or (dict_get d "smsCode")
            (py_or (dict_get d "code") (dict_get d "codeNumber"))
  | StVal v =>
      let text := py_str v in
      if contains "STATUS_OK" text && contains ":" text
      then PStr (strip (after_colon text))
      else PNone
  end.

(** The [while time.time() < deadline] loop: [Some code] when it returns
    from inside, [None] when the deadline ends it. *)
Fixpoint poll (fuel : nat) (activation_id : pyval) (deadline : datetime)
    (poll_interval : Z) : M (option pyval) :=
  do w <- get_world;
  if negb (clock w <? deadline) then ret None
  else
    match fuel with
    | O => out_of_fuel
    | S fuel' =>
        do got <-
          try_except
            (do st <- call env (EGetStatusV2 activation_id true) getStatusV2;
             ret (Some st))
            (fun e =>
               if is_TypeError e then
                 do st <- call env (EGetStatusV2 activation_id false)
                            getStatusV2;
                 ret (Some st)
               else
                 run sleep poll_interval;
                 ret None);
        match got with
        | None => poll fuel' activation_id deadline poll_interval
        | Some status =>
            if negb (status_truthy status) then
              run sleep poll_interval;
              poll fuel' activation_id deadline poll_interval
            else
              let code := extract_code status in
              if truthy code then
                run try_except
                      (call env (ESetStatus activation_id 6) setStatus)
                      (fun _ => ret tt);
                ret (Some code)
              else
                run sleep poll_interval;
                poll fuel' activation_id deadline poll_interval
        end
    end.

(** [SmsApi.check_verif_status] *)
Definition check_verif_status (fuel : nat) (activation_id : pyval)
    (timeout poll_interval : Z) : M pyval :=
  do w <- get_world;
  let deadline := clock w + timeout * usec_per_sec in
  do got <- poll fuel activation_id deadline poll_interval;
  match got with
  | Some code => ret code
  | None =>
      run try_except (call env (ESetStatus activation_id 8) setStatus)
            (fun _ => ret tt);
      ret (PStr "")
  end.

(** The step "Waiting for SMS code" of [register_telegram_account], under
    the function's [except Exception: return False]. *)
Definition wait_for_code (fuel : nat) (sms_obj : SmsApi)
    (last_names : list string) (phone_number activation_id : pyval)
    : M code_step :=
  try_except
    (do code <- check_verif_status fuel activation_id 300 5;
     if negb (truthy code) then
       run activation_admin sms_obj last_names phone_number activation_id;
       ret ReturnFalse
     else ret (CodeReceived code))
    (fun _ => ret ReturnFalse).

End Scripts.
End Regger.

(* ===================================================================== *)
(** ** [adb.py]: identity generators                                     *)
(* ===================================================================== *)

Module Adb.

(** [random.choice(seq)] at the raw draw [r]. *)
Definition random_choice (seq : string) (r : nat) : ascii :=
  default "0"%char (String.get (r mod String.length seq)%nat seq).

(** [''.join(random.choice('0123456789') for _ in range(n))], the draws
    being [rnd first], [rnd (first + 1)], ... *)
Definition random_digits (rnd : nat -> nat) (first n : nat) : string :=
  string_of_list_ascii
    (List.map (fun k => random_choice "0123456789" (rnd k)) (List.seq first n)).

(** [int(c)] for a decimal digit [c]. *)
Definition int_of_digit (c : ascii) : Z := Z.of_nat (nat_of_ascii c) - 48.

(** [range(0, n, 2)] *)
Definition range_by_2 (n : nat) : list nat :=
  List.map (fun k => (2 * k)%nat) (List.seq 0 (Nat.div2 (n + 1))).

(** [text[1::2]] *)
Fixpoint slice_1_2 (text : list ascii) : list ascii :=
  match text with
  | _ :: c :: rest => c :: slice_1_2 rest
  | _ => []
  end.

(** [sum(...)] *)
Definition sum (l : list Z) : Z := List.fold_left Z.add l 0.

(** [int(d) * 2 if int(d) * 2 < 10 else int(d) * 2 - 9] *)
Definition doubled (d : ascii) : Z :=
  if int_of_digit d * 2 <? 10 then int_of_digit d * 2
  else int_of_digit d * 2 - 9.

(** The check digit that [generate_samsung_imei] computes for [temp]. *)
Definition check_digit (temp : string) : Z :=
  let sum_odd :=
    sum (List.map
           (fun i => int_of_digit (default "0"%char (String.get i temp)))
           (range_by_2 (String.length temp))) in
  let sum_even := sum (List.map doubled (slice_1_2 (list_ascii_of_string temp))) in
  (10 - (sum_odd + sum_even) mod 10) mod 10.

(** [generate_samsung_imei]; [rnd] lists the draws of [random.choice]. *)
Definition generate_samsung_imei (rnd : nat -> nat) : string :=
  let tac := "35" ++ random_digits rnd 0 6 in
  let serial := random_digits rnd 6 6 in
  let temp := tac ++ serial in
  temp ++ py_str (PInt (check_digit temp)).

(** The last valid [datetime], 9999-12-31T23:59:59.999999. *)
Definition datetime_max : datetime := 3652059 * 86400 * usec_per_sec - 1.

(** The largest magnitude of a [timedelta], in days. *)
Definition timedelta_max_days : Z := 999999999.

(** [timedelta(minutes=m)]; [None] is [OverflowError]. *)
Definition timedelta_minutes (m : Z) : option Z :=
  let us := m * 60 * usec_per_sec in
  if (- timedelta_max_days * 86400 * usec_per_sec <=? us)
     && (us <? (timedelta_max_days + 1) * 86400 * usec_per_sec)
  then Some us else None.

(** [d - delta] on a [datetime]; [None] is [OverflowError]. *)
Definition datetime_sub (d : datetime) (delta : Z) : option datetime :=
  let r := d - delta in
  if (0 <=? r) && (r <=? datetime_max) then Some r else None.

(** [int(delta.total_seconds() * 1000)]: the quotient is taken towards
    zero.  The float arithmetic is exact on the whole numbers of seconds
    to which the generator applies it. *)
Definition int_milliseconds (delta : Z) : Z := Z.quot (delta * 1000) usec_per_sec.

(** [generate_boottime_sequence(now, shift)]; [clock_now] is what
    [datetime.now()] reads and [drawn] what [random.randint(0, 60)] draws
    when the argument is left out.  [None] is [OverflowError]. *)
Definition generate_boottime_sequence (clock_now : datetime) (drawn : Z)
    (now : option datetime) (shift : option Z) : option (list Z) :=
  let now := default clock_now now in
  let shift := default drawn shift in
  delta ← timedelta_minutes shift;
  new_time ← datetime_sub now delta;
  Some (List.map (fun minutes : Z => int_milliseconds (new_time - now))
                 [-5; -4; -3; -2; -1]).

(** The Luhn-style rule in the words of the specification: over the digits
    of the payload, those at even 0-based positions count as they are and
    those at odd positions count doubled, less 9 when the double reaches
    10; the check digit is [(10 - S mod 10) mod 10]. *)
Fixpoint spec_luhn_sum (at_odd : bool) (digits : list Z) : Z :=
  match digits with
  | [] => 0
  | d :: rest =>
      (if at_odd then (if 10 <=? 2 * d then 2 * d - 9 else 2 * d) else d)
      + spec_luhn_sum (negb at_odd) rest
  end.

Definition spec_check_digit (digits : list Z) : Z :=
  (10 - spec_luhn_sum false digits mod 10) mod 10.

(** The decimal digits a text spells, [None] if a character is no digit. *)
Definition digit_value (c : ascii) : option Z :=
  let n := nat_of_ascii c in
  if (Nat.leb 48 n && Nat.leb n 57)%bool then Some (Z.of_nat n - 48) else None.

Definition digits_of (text : string) : option (list Z) :=
  mapM digit_value (list_ascii_of_string text).

(** The character of the decimal digit [d]. *)
Definition digit_char (d : nat) : ascii := ascii_of_nat (48 + d).

(** The text that spells the digits [ds]. *)
Definition payload_text (ds : list nat) : string :=
  string_of_list_ascii (List.map digit_char ds).

(** The fourteen digits drawn for an IMEI: the fixed [3], [5] and then the
    twelve draws. *)
Definition payload_digits (rnd : nat -> nat) : list nat :=
  3%nat :: 5%nat :: List.map (fun k => (rnd k mod 10)%nat) (List.seq 0 12).

End Adb.

(* ===================================================================== *)
(** ** Vocabulary of the properties                                      *)
(* ===================================================================== *)

(** The dial prefix that [phone_number_send] insists on, for the two
    countries it checks. *)
Definition checked_prefix (country : string) : option string :=
  if String.eqb country "United Kingdom" then Some "+44"
  else if String.eqb country "USA" then Some "+1"
  else None.

(** The numbers handed to [telegram.input_phone_number] among some calls. *)
Fixpoint delivered (evs : list event) : list pyval :=
  match evs with
  | [] => []
  | EInputPhoneNumber n :: rest => n :: delivered rest
  | _ :: rest => delivered rest
  end.

(** How many times [getNumberV2] was called. *)
Fixpoint rentals (evs : list event) : nat :=
  match evs with
  | [] => 0
  | EGetNumberV2 _ _ _ :: rest => S (rentals rest)
  | _ :: rest => rentals rest
  end.

(** The [setStatus] calls among some calls, as (id, status). *)
Fixpoint status_changes (evs : list event) : list (pyval * Z) :=
  match evs with
  | [] => []
  | ESetStatus i st :: rest => (i, st) :: status_changes rest
  | _ :: rest => status_changes rest
  end.

(** A computation that, from any world, only adds calls satisfying [P] and
    whose value, if it returns one, satisfies [Q]. *)
Definition emits {A} (P : event -> Prop) (Q : A -> Prop) (m : M A) : Prop :=
  forall w, exists new,
    calls (snd (m w)) = (new ++ calls w)%list
    /\ Forall P new
    /\ forall a, fst (m w) = Ok a -> Q a.

Definition not_input (ev : event) : Prop :=
  match ev with EInputPhoneNumber _ => False | _ => True end.

(** A number that passes the check made for [country]. *)
Definition well_prefixed (country : string) (number : pyval) : Prop :=
  match checked_prefix country with
  | Some p => exists s, number = PStr s /\ startswith s p = true
  | None => True
  end.

(** Whether [can_set_status_8] answered [True]. *)
Definition answered_true (v : Ledger.verdict) : bool :=
  match v with
  | Ledger.Verdict true => true
  | _ => false
  end.

Definition returned {A} (r : reply A) : bool :=
  match r with
  | Returns _ => true
  | Throws _ => false
  end.

(** A status reply that carries no code and does not end the polling. *)
Definition no_code (r : reply status_val) : bool :=
  match r with
  | Returns st =>
      negb (Regger.status_truthy st && truthy (Regger.extract_code st))
  | Throws e => negb (is_TypeError e)
  end.

Definition input_well_prefixed (country : string) (ev : event) : Prop :=
  match ev with
  | EInputPhoneNumber n => well_prefixed country n
  | _ => True
  end.

(* ===================================================================== *)
(** ** Sample surroundings                                               *)
(* ===================================================================== *)

Module Sample.

(** The two instants the samples write and read, as ISO texts. *)
Definition isoformat (t : datetime) : string :=
  if t =? 0 then "0001-01-01T00:00:00" else "0001-01-01T00:05:00".

Definition fromisoformat (s : string) : option iso_datetime :=
  if String.eqb s "0001-01-01T00:00:00" then Some (Naive 0)
  else if String.eqb s "0001-01-01T00:05:00" then Some (Naive 300000000)
  else None.

Definition sms : SmsApi :=
  mkSmsApi "sms-activate" "https://api.sms-activate.org/stubs/handler_api.php".

Definition MAX_PRICE : pyval := PFloat "0.5".

(** Nothing on disk, the clock at its origin, no call made yet. *)
Definition fresh : World := mkWorld None Absent false 0 [].

(** A ledger holding activation 42, written at the origin. *)
Definition tracked_42 : World :=
  mkWorld
    (Ledger.save_activation_to_json isoformat 0 (PStr "42")
       (PStr "+15551234567") None)
    Absent false 0 [].

Definition waiting : status_val := StVal (PStr "STATUS_WAIT_CODE").

(** A provider that answers the requests for a number with [answer] and
    never has a code, a device that accepts every number, calls that take
    no time. *)
Definition provider (answer : list event -> reply pydict)
    (on_set_status : reply unit) : Env :=
  mkEnv (fun _ => Returns 187) answer (fun _ => on_set_status)
        (fun _ => Returns waiting) (fun _ => Returns tt)
        (fun _ => 50) (fun _ => 0%nat) (fun _ => 0%N).

(** The provider has no numbers: an explicit error payload, no number. *)
Definition no_numbers : Env :=
  provider (fun _ => Returns ({["error" := PStr "NO_NUMBERS"]} : pydict))
           (Returns tt).

(** The provider answers with neither a number nor an error. *)
Definition empty_reply : Env :=
  provider (fun _ => Returns (∅ : pydict)) (Returns tt).

Definition british_42 : pydict :=
  <["phoneNumber" := PStr "+447911123456"]>
  (<["activationId" := PStr "42"]> (<["activationCost" := PFloat "0.1"]> ∅)).

Definition american_43 : pydict :=
  <["phoneNumber" := PStr "+15551234567"]>
  (<["activationId" := PStr "43"]> (<["activationCost" := PFloat "0.1"]> ∅)).

(** The first number rented is British, the later ones American. *)
Definition british_then_american : Env :=
  provider (fun h => if Nat.eqb (rentals h) 1 then Returns british_42
                     else Returns american_43)
           (Returns tt).

(** Every number rented is British. *)
Definition always_british : Env :=
  provider (fun _ => Returns british_42) (Returns tt).

(** The provider answers with no number and an empty [error] entry. *)
Definition blank_error : Env :=
  provider (fun _ => Returns ({["error" := PStr ""]} : pydict)) (Returns tt).

(** No code ever comes and the provider refuses every status change. *)
Definition unreachable : Env :=
  provider (fun _ => Returns american_43)
           (Throws (OtherError "connection refused")).

(** No code ever comes; status changes go through. *)
Definition silent : Env :=
  provider (fun _ => Returns american_43) (Returns tt).

End Sample.

(* ===================================================================== *)
(** ** More sample surroundings                                          *)
(* ===================================================================== *)

Module SampleMore.

(** How many times [getStatusV2] was called. *)
Fixpoint polls (evs : list event) : nat :=
  match evs with
  | [] => 0
  | EGetStatusV2 _ _ :: rest => S (polls rest)
  | _ :: rest => polls rest
  end.

(** Like [Sample.provider], with the answers of [getStatusV2] and of the
    country lookup given. *)
Definition provider_with (country : list event -> reply Z)
    (answer : list event -> reply pydict)
    (status : list event -> reply status_val) : Env :=
  mkEnv country answer (fun _ => Returns tt) status (fun _ => Returns tt)
        (fun _ => 50) (fun _ => 0%nat) (fun _ => 0%N).

(** The code 123456 is there from the third poll on. *)
Definition texting : Env :=
  provider_with (fun _ => Returns 187) (fun _ => Returns Sample.american_43)
    (fun h => if Nat.leb 3 (polls h)
              then Returns (StVal (PStr "STATUS_OK:123456"))
              else Returns Sample.waiting).

(** A library whose [getStatusV2] takes no argument the way it is given. *)
Definition fussy : Env :=
  provider_with (fun _ => Returns 187) (fun _ => Returns Sample.american_43)
    (fun _ => Throws (TypeError "getStatusV2() got an unexpected argument")).

(** The provider does not know the country. *)
Definition nowhere : Env :=
  provider_with (fun _ => Throws (ValueError "Unknown country"))
    (fun _ => Returns Sample.american_43) (fun _ => Returns Sample.waiting).

End SampleMore.

(* ===================================================================== *)
(** ** More vocabulary                                                   *)
(* ===================================================================== *)

(** The calls that [phone_number_send] may make for the provider object
    [sms_obj]: a lookup of the requested country, a request for a Telegram
    number with the price cap that belongs to the provider, the draw and
    the cancellation of [activation_admin], and a delivery. *)
Definition send_call (COUNTRY : string) (MAX_PRICE : pyval)
    (sms_obj : SmsApi) (ev : event) : Prop :=
  match ev with
  | EGetCountryId c => c = COUNTRY
  | EGetNumberV2 service _ max_price =>
      service = "tg" /\ max_price = Regger.max_price_for MAX_PRICE sms_obj
  | ESetStatus _ status => status = 8
  | ERandint lo hi => lo = 0 /\ hi = 100
  | EInputPhoneNumber _ => True
  | EGetStatusV2 _ _ | ESleep _ | EChoice _ => False
  end.

(* ===================================================================== *)
(** ** [adb.py] and [utils.py]: the other generators                     *)
(* ===================================================================== *)

Module Generators.

(** [''.join(random.choice(alphabet) for _ in range(n))], the draws being
    [rnd first], [rnd (first + 1)], ...; [secrets.choice] draws alike. *)
Definition random_text (alphabet : string) (rnd : nat -> nat)
    (first n : nat) : string :=
  string_of_list_ascii
    (List.map (fun k => Adb.random_choice alphabet (rnd k)) (List.seq first n)).

(** [random.randint(lo, hi)] at the raw draw [r]. *)
Definition randint (lo hi : Z) (r : nat) : Z :=
  lo + Z.of_nat r mod (hi - lo + 1).

(** [random.choice(items)] on a list, at the raw draw [r]. *)
Definition choice_of {A} (items : list A) (fallback : A) (r : nat) : A :=
  nth (r mod length items)%nat items fallback.

(** [c.lower()] and [c.upper()] on an ASCII character. *)
Definition lower_char (c : ascii) : ascii :=
  let n := nat_of_ascii c in
  if (Nat.leb 65 n && Nat.leb n 90)%bool then ascii_of_nat (n + 32) else c.

Fixpoint lower (text : string) : string :=
  match text with
  | EmptyString => EmptyString
  | String c rest => String (lower_char c) (lower rest)
  end.

(** [string.hexdigits], [string.ascii_lowercase], [string.ascii_uppercase] *)
Definition hexdigits : string := "0123456789abcdefABCDEF".
Definition ascii_lowercase : string := "abcdefghijklmnopqrstuvwxyz".
Definition ascii_uppercase : string := "ABCDEFGHIJKLMNOPQRSTUVWXYZ".

(** [generate_android_id] *)
Definition generate_android_id (rnd : nat -> nat) : string :=
  random_text "0123456789abcdef" rnd 0 16.

(** [generate_number(nqty)] *)
Definition generate_number (rnd : nat -> nat) (nqty : Z) : string :=
  List.fold_left
    (fun number k => number ++ py_str (PInt (randint 0 9 (rnd k))))
    (List.seq 0 (Z.to_nat nqty)) "".

(** [generate_stable_secret] *)
Definition generate_stable_secret (rnd : nat -> nat) : string :=
  let groups :=
    List.map (fun g => random_text (lower hexdigits) rnd (4 * g) 4)
             (List.seq 0 8) in
  String.concat ":" groups.

(** One hexadecimal digit, for a value from 0 to 15. *)
Definition hex_digit (upper : bool) (n : Z) : ascii :=
  default "0"%char
    (String.get (Z.to_nat n)
       (if upper then "0123456789ABCDEF" else "0123456789abcdef")).

(** [f"{part:02X}"] and ['{:02x}'.format(part)] for a part from 0 to 255,
    which is what [random.randint(0, 255)] gives. *)
Definition format_02 (upper : bool) (part : Z) : string :=
  String (hex_digit upper (part / 16))
    (String (hex_digit upper (part mod 16)) EmptyString).

(** [generate_mac_address] *)
Definition generate_mac_address (rnd : nat -> nat) : string :=
  let mac_parts := List.map (fun k => randint 0 255 (rnd k)) (List.seq 0 6) in
  String.concat ":" (List.map (format_02 true) mac_parts).

Definition oui_list : list string :=
  ["00:03:7A"; "00:0D:6F"; "00:12:FB"; "00:1D:6A"].

(** [generate_samsung_mac] *)
Definition generate_samsung_mac (rnd : nat -> nat) : string :=
  let oui := choice_of oui_list "" (rnd 0%nat) in
  let nic :=
    String.concat ":"
      (List.map (fun k => format_02 false (randint 0 255 (rnd k)))
                (List.seq 1 3)) in
  oui ++ ":" ++ nic.

(** [utils.generate_random_string(length)] *)
Definition generate_random_string (rnd : nat -> nat) (length : Z) : string :=
  random_text ascii_lowercase rnd 0 (Z.to_nat length).

(** An entry of [REAL_DEVICES]. *)
Record device : Type := mkDevice {
  model : string;
  board : string;
  name : string;
  cpu_abi : string;
  hardware : string;
  full_name : string
}.

Definition REAL_DEVICES : list device :=
  [ mkDevice "SM-G960F" "universal9810" "starltexx" "arm64-v8a" "exynos9810"
      "Samsung Galaxy S9";
    mkDevice "SM-G965F" "universal9810" "star2ltexx" "arm64-v8a" "exynos9810"
      "Samsung Galaxy S9+";
    mkDevice "SM-N960F" "crownlte" "crownltexx" "arm64-v8a" "exynos9810"
      "Samsung Galaxy Note9";
    mkDevice "SM-G970F" "beyond0" "beyond0ltexx" "arm64-v8a" "exynos9820"
      "Samsung Galaxy S10e";
    mkDevice "SM-G973F" "beyond1" "beyond1ltexx" "arm64-v8a" "exynos9820"
      "Samsung Galaxy S10";
    mkDevice "SM-G975F" "beyond2" "beyond2ltexx" "arm64-v8a" "exynos9820"
      "Samsung Galaxy S10+";
    mkDevice "SM-A505F" "a50" "a50dd" "arm64-v8a" "exynos9610"
      "Samsung Galaxy A50";
    mkDevice "SM-A705F" "a70q" "a70q" "arm64-v8a" "exynos7904"
      "Samsung Galaxy A70";
    mkDevice "SM-G781B" "r8q" "r8qxxx" "arm64-v8a" "qcom"
      "Samsung Galaxy S20 FE 5G" ].

(** What a finished [adb] process has printed, decoded. *)
Record finished : Type := mkFinished {
  output : string;
  error : string
}.

(** [output.decode().strip() if not error else "Unknown"] *)
Definition answer_or_unknown (p : finished) : string :=
  if String.eqb (error p) "" then strip (output p) else "Unknown".

(** [text.split(sep)[-1]]: what follows the last [sep], the whole text
    when there is none. *)
Fixpoint after_last (sep text : string) : string :=
  match text with
  | EmptyString => EmptyString
  | String c rest =>
      if contains sep rest then after_last sep rest
      else if String.prefix sep text
           then String.substring (String.length sep)
                  (String.length text - String.length sep) text
           else text
  end.

(** The look-up of the readable name in [get_device_info]; [r] is the raw
    draw of the [random.choice] it falls back on. *)
Definition full_model_of (device_model : string) (r : nat) : string :=
  match List.find (fun d => String.eqb (model d) device_model) REAL_DEVICES
  with
  | Some d => full_name d
  | None => choice_of (List.map full_name REAL_DEVICES) "" r
  end.

(** What [get_device_info] returns. *)
Record device_info : Type := mkDeviceInfo {
  info_model : string;
  info_full_model : string;
  info_android : string;
  info_tg : string;
  info_sys_lang : string
}.

(** [get_device_info]; the four arguments are what the four [adb]
    processes print. *)
Definition get_device_info (android_p model_p tg_p lang_p : finished)
    (r : nat) : device_info :=
  let android_version := answer_or_unknown android_p in
  let device_model := answer_or_unknown model_p in
  let tg_version :=
    if String.eqb (error tg_p) "" then
      let line := strip (output tg_p) in
      if contains "versionName=" line
      then strip (after_last "versionName=" line)
      else "Unknown"
    else "Unknown" in
  let sys_lang := answer_or_unknown lang_p in
  mkDeviceInfo device_model (full_model_of device_model r)
    ("Android " ++ android_version) tg_version sys_lang.

(** [utils.load_names], on the lines of the file. *)
Definition load_names (lines : list string) : list string :=
  List.map strip
    (List.filter (fun line => negb (String.eqb (strip line) "")) lines).

(** Text that is ASCII throughout, on which the byte-wise [strip] and
    [lower] of this development are those of Python. *)
Definition is_ascii (text : string) : bool :=
  forallb (fun c => Nat.ltb (nat_of_ascii c) 128) (list_ascii_of_string text).

(** A text all of whose characters occur in [alphabet]. *)
Definition drawn_from (alphabet : string) (text : string) : Prop :=
  Forall (fun c => In c (list_ascii_of_string alphabet))
         (list_ascii_of_string text).

End Generators.

(* ===================================================================== *)
(** ** [utils.py]: the device configurations                             *)
(* ===================================================================== *)

Module Config.

Section WithInt.

(** The builtin [int(v)]; it raises [ValueError] on a text that is no
    number and [TypeError] on [None]. *)
Variable py_int : pyval -> reply Z.

(** The lines typed at the prompts of [input()], in order. *)
Variable typed : nat -> string.

(** [repr(text)], as [{port_str!r}] writes it. *)
Variable py_repr : string -> string.

(** The [try] block around a port: [int(port)], the range test, and the
    handler that turns every [ValueError], the one of the range test
    included, into the one with [message]. *)
Definition checked_port (port : pyval) (message : string) : reply Z :=
  match py_int port with
  | Returns p =>
      if (p <? 1024) || (65535 <? p) then Throws (ValueError message)
      else Returns p
  | Throws (ValueError _) => Throws (ValueError message)
  | Throws e => Throws e
  end.

(** [input(prompt).strip() or default], reading line [k]. *)
Definition typed_or (k : nat) (default : string) : string :=
  if String.eqb (strip (typed k)) "" then default else strip (typed k).

(** The [for i in range(num_threads)] loop of the emulator branch;
    [i] counts from [first]. *)
Fixpoint emulator_devices (emulator_app_path emulator_app_name : string)
    (first count : nat) (devices : list pydict) : reply (list pydict) :=
  match count with
  | O => Returns devices
  | S count' =>
      let port_str := typed_or (2 + first) "4723" in
      match checked_port (PStr port_str)
              ("Invalid port number for emulator "
               ++ pretty (Z.of_nat first + 1) ++ ": " ++ py_repr port_str)
        with
      | Throws e => Throws e
      | Returns port =>
          let device : pydict :=
            <["is_physical" := PBool false]>
            (<["udid" := PNone]>
            (<["appium_port" := PInt port]>
            (<["app_path" := PStr emulator_app_path]>
            (<["app_name" := PStr emulator_app_name]> ∅)))) in
          emulator_devices emulator_app_path emulator_app_name (S first)
            count' (devices ++ [device])
      end
  end.

(** [get_device_config(num_threads, is_physical)]; [adb] is
    [CONFIG["adb"]]. *)
Definition get_device_config (adb : pydict) (num_threads : Z)
    (is_physical : bool) : reply (list pydict) :=
  if is_physical then
    match adb !! "device_udid" with
    | None => Throws (KeyError "'device_udid'")
    | Some udid =>
        if negb (truthy udid)
        then Throws (ValueError "UDID cannot be empty for physical device")
        else
          match adb !! "appium_port" with
          | None => Throws (KeyError "'appium_port'")
          | Some port =>
              match checked_port port
                      "Invalid port number in config for Appium" with
              | Throws e => Throws e
              | Returns port =>
                  Returns
                    [ <["is_physical" := PBool true]>
                      (<["udid" := udid]>
                      (<["appium_port" := PInt port]>
                      (<["app_path" := PNone]>
                      (<["app_name" := PNone]> (∅ : pydict))))) ]
              end
          end
    end
  else
    let emulator_app_path :=
      typed_or 0 "C:\LDPlayer\LDPlayer9\dnplayer.exe" in
    let emulator_app_name := typed_or 1 "dnplayer.exe" in
    emulator_devices emulator_app_path emulator_app_name 0
      (Z.to_nat num_threads) [].

End WithInt.

(** A device configuration as [get_device_config] builds them: the five
    keys and no other, with a port that Appium can listen on. *)
Definition well_formed (device : pydict) : Prop :=
  dom device
  = ({["is_physical"; "udid"; "appium_port"; "app_path"; "app_name"]}
     : gset string)
  /\ exists port, device !! "appium_port" = Some (PInt port)
                  /\ 1024 <= port <= 65535.

(** [repr] on the texts the samples use, which hold no quote. *)
Definition sample_repr (text : string) : string := "'" ++ text ++ "'".

(** [int] on the integers and the decimal texts the samples use. *)
Definition sample_int (v : pyval) : reply Z :=
  match v with
  | PInt z => Returns z
  | PStr text =>
      if String.eqb text "4723" then Returns 4723
      else if String.eqb text "80" then Returns 80
      else Throws (ValueError "invalid literal for int() with base 10")
  | PNone => Throws (TypeError "int() argument must be a string or a number")
  | _ => Throws (ValueError "invalid literal for int()")
  end.

(** Nothing is typed at the prompts: every default is taken. *)
Definition nothing_typed (k : nat) : string := "".

(** Port 80 is typed for the second emulator. *)
Definition low_port_typed (k : nat) : string :=
  if Nat.eqb k 3 then " 80 " else "".

(** The configuration of an emulator when every default is taken. *)
Definition default_emulator : pydict :=
  <["is_physical" := PBool false]>
  (<["udid" := PNone]>
  (<["appium_port" := PInt 4723]>
  (<["app_path" := PStr "C:\LDPlayer\LDPlayer9\dnplayer.exe"]>
  (<["app_name" := PStr "dnplayer.exe"]> ∅)))).

End Config.

(* ===================================================================== *)
(** ** [sms_api.py]: the provider object                                 *)
(* ===================================================================== *)

Module Provider.

(** [SmsApi.__init__]; [api_key_path] is the path after
    [os.path.expanduser], [key_file] what the file at that path holds, if
    there is one.  [FileNotFoundError] is an [OSError]. *)
Definition SmsApi_init (service api_key_path : string)
    (key_file : option string) : reply SmsApi :=
  match key_file with
  | None => Throws (OtherError ("API key file not found: " ++ api_key_path))
  | Some text =>
      let api_key := strip text in
      if String.eqb api_key "" then
        Throws (ValueError ("API key file " ++ api_key_path ++ " is empty"))
      else
        let service_name := strip (Generators.lower service) in
        if String.eqb service_name "sms-activate" then
          Returns
            (mkSmsApi service_name
               "https://api.sms-activate.org/stubs/handler_api.php")
        else if String.eqb service_name "grizzly-sms" then
          Returns
            (mkSmsApi service_name
               "https://api.grizzlysms.com/stubs/handler_api.php")
        else Throws (ValueError ("Unsupported SMS service: " ++ service))
  end.

End Provider.

(* ===================================================================== *)
(** ** [telegram_regger.py]: one registration                            *)
(* ===================================================================== *)

Module Register.

(** What the script does to the device, the mail client, the VPN client,
    the desktop client and the disk, beside the calls that [event] lists,
    in the order [acts] records them. *)
Inductive action : Type :=
| AReadKeyFile (api_key_path : string)  (* the reads of [SmsApi.__init__] *)
| AOnion                                (* [Onion()] *)
| AGetDeviceInfo (udid : pyval)
| ATelegram (udid appium_port emulator_path emulator_name
             physical_device : pyval)   (* [Telegram(...)] *)
| AResetData
| AVpn                                  (* [VPN()] *)
| AChangeLocation (country : string)
| AReconnection
| AStartMessenger
| ACheckElement      (* [check_element(By.XPATH, ENTER_CODE_TEXT, timeout=2)] *)
| ARandomString (length : Z)            (* [generate_random_string] *)
| ARegAndLogin (username password : string)
| ACheckEnterCodeText
| ASendKeys (code : pyval)   (* [send_keys(By.XPATH, ENTER_CODE_TEXT, code)] *)
| ACheckPassNeed
| AClickForgotPassBtn
| ACheckCheckEmail
| APrepareDesktop (phone_number : pyval)
    (* the directory and the copy of [Telegram.exe] that
       [create_tdata_with_telegram_desktop] makes first *)
| ATelegramDesktop                      (* [TelegramDesktop(tg_app_path)] *)
| AStartAndEnterNumber (phone_number : pyval)
| AReadSmsWithCode
| AEnterCode (code : pyval)
| ADesktopClose
| ATaskkill                             (* [os.system] and [os.remove] *)
| ASaveSession (phone_number device_info number_price session_path : pyval)
| ATelegramClose
| AOnionClose.

(** The surroundings of a registration beyond [Env].  Each answer may
    depend on every action so far, the one being answered first. *)
Record Desk : Type := mkDesk {
  answer : list action -> reply pyval;
  (** what the key file holds, [None] when there is none *)
  key_file : list action -> option string;
  (** the raw draws of the random source *)
  raw : list action -> nat -> nat;
  (** microseconds an action takes *)
  lasted : list action -> N;
  expanduser : string -> string;
  dirname : string -> string
}.

Record Stage : Type := mkStage {
  world : World;
  (** most recent action first *)
  acts : list action;
  FOLDER_NAME_WITH_ACCOUNTS : pyval
}.

Definition R (A : Type) : Type := Stage -> res A * Stage.

Definition rret {A} (a : A) : R A := fun st => (Ok a, st).
Definition rraise {A} (e : exn) : R A := fun st => (Raise e, st).
Definition rout_of_fuel {A} : R A := fun st => (OutOfFuel, st).

Definition rbind {A B} (m : R A) (k : A -> R B) : R B :=
  fun st =>
    match m st with
    | (Ok a, st') => k a st'
    | (Raise e, st') => (Raise e, st')
    | (OutOfFuel, st') => (OutOfFuel, st')
    end.

(** [try: m except Exception as e: handler(e)] *)
Definition rtry {A} (m : R A) (handler : exn -> R A) : R A :=
  fun st =>
    match m st with
    | (Raise e, st') => handler e st'
    | other => other
    end.

(** [try: m finally: cleanup]: the clean-up runs whether [m] returns or
    raises, and what it raises takes the place of the outcome of [m]. *)
Definition rfinally {A} (m : R A) (cleanup : R unit) : R A :=
  fun st =>
    match m st with
    | (OutOfFuel, st') => (OutOfFuel, st')
    | (outcome, st') =>
        match cleanup st' with
        | (Ok _, st'') => (outcome, st'')
        | (Raise e, st'') => (Raise e, st'')
        | (OutOfFuel, st'') => (OutOfFuel, st'')
        end
    end.

Notation "'rdo' x <- m ; k" := (rbind m (fun x => k))
  (at level 10, x name, m at level 100, k at level 200,
   format "'[v' 'rdo'  x  <-  m ; '/' k ']'").
Notation "'rrun' m ; k" := (rbind m (fun _ => k))
  (at level 10, m at level 100, k at level 200,
   format "'[v' 'rrun'  m ; '/' k ']'").

Definition rget : R Stage := fun st => (Ok st, st).

(** A computation on the world of the provider and the ledger. *)
Definition lift {A} (m : M A) : R A :=
  fun st =>
    (fst (m (world st)),
     mkStage (snd (m (world st))) (acts st) (FOLDER_NAME_WITH_ACCOUNTS st)).

Definition set_FOLDER_NAME_WITH_ACCOUNTS (folder : pyval) : R unit :=
  fun st => (Ok tt, mkStage (world st) (acts st) folder).

(** What [create_session_with_telethon] hands back: [None], the path of a
    session file that exists already, or the pair of paths. *)
Inductive session : Type :=
| NoSession
| SessionPath (session_path : string)
| SessionPair (session_path session_tdata_dir : pyval).

Section Orchestration.

Variable isoformat : datetime -> string.
Variable fromisoformat : string -> option iso_datetime.
Variable env : Env.
Variable desk : Desk.
Variable COUNTRY : string.
Variable MAX_PRICE : pyval.

(** An action: it is recorded, time passes, the surroundings answer. *)
Definition perform {A} (a : action)
    (result : Desk -> list action -> reply A) : R A :=
  fun st =>
    let h := a :: acts st in
    let w := world st in
    let w' := mkWorld (activations w) (cech w) (NEED_CHANGE_LOCATION w)
                      (clock w + Z.of_N (lasted desk h)) (calls w) in
    let st' := mkStage w' h (FOLDER_NAME_WITH_ACCOUNTS st) in
    match result desk h with
    | Returns v => (Ok v, st')
    | Throws e => (Raise e, st')
    end.

Definition act (a : action) : R pyval := perform a answer.

(** [SmsApi(service=service, api_key_path=api_key_path)] *)
Definition new_SmsApi (service api_key_path : string) : R SmsApi :=
  let path := expanduser desk api_key_path in
  perform (AReadKeyFile path)
    (fun d h => Provider.SmsApi_init service path (key_file d h)).

(** [generate_random_string(length)] *)
Definition random_string (length : Z) : R string :=
  perform (ARandomString length)
    (fun d h => Returns (Generators.generate_random_string (raw d h) length)).

(** [d[key]] *)
Definition subscript (d : pydict) (key : string) : R pyval :=
  match d !! key with
  | Some v => rret v
  | None => rraise (KeyError ("'" ++ key ++ "'"))
  end.

(** [random.choice(names) if names else "Unknown"] *)
Definition choice_or_unknown (names : list string) : M string :=
  match names with
  | [] => ret "Unknown"
  | _ => do i <- draw env (EChoice (length names)) choice;
         ret (nth (i mod length names)%nat names "")
  end.

(** [check_2fa] *)
Definition check_2fa : R bool :=
  rdo pass_need <- act ACheckPassNeed;
  if truthy pass_need then
    rrun act AClickForgotPassBtn;
    rrun lift (Regger.sleep env 5);
    rdo check_email <- act ACheckCheckEmail;
    if truthy check_email then rret true else rret false
  else rret false.

(** [create_tdata_with_telegram_desktop] *)
Definition create_tdata_with_telegram_desktop (phone_number : pyval)
    : R pyval :=
  rdo tg_desk_acc_dir <- act (APrepareDesktop phone_number);
  rrun act ATelegramDesktop;
  rrun act (AStartAndEnterNumber phone_number);
  rrun lift (Regger.sleep env 5);
  rdo code <- act AReadSmsWithCode;
  rrun act (AEnterCode code);
  rrun lift (Regger.sleep env 3);
  rrun act ADesktopClose;
  rrun act ATaskkill;
  rret tg_desk_acc_dir.

(** [asyncio.run(create_session_with_telethon(phone_number, telegram))]:
    the module never imports [asyncio], so that looking the name up raises
    [NameError] before the coroutine is made. *)
Definition asyncio_run : R session :=
  rraise (OtherError "name 'asyncio' is not defined").

(** The branch "Register with email"; [false] stands for its
    [return False]. *)
Definition register_with_email (first_names last_names : list string)
    (phone_number number_price : pyval) : R bool :=
  rdo username <- random_string 12;
  rdo password <- random_string 16;
  rdo email_address <- act (ARegAndLogin username password);
  if negb (truthy email_address) then rret false
  else
    rdo cech_data <- lift Regger.setup_cech;
    rdo first_name <- lift (choice_or_unknown first_names);
    rdo last_name <- lift (choice_or_unknown last_names);
    let cech_data := <["email" := email_address]> cech_data in
    let cech_data := <["username" := PStr username]> cech_data in
    let cech_data := <["password" := PStr password]> cech_data in
    let cech_data := <["first_name" := PStr first_name]> cech_data in
    let cech_data := <["last_name" := PStr last_name]> cech_data in
    let cech_data := <["phone_number" := phone_number]> cech_data in
    let cech_data := <["number_price" := number_price]> cech_data in
    rrun lift (Regger.write_cech cech_data);
    rtry
      (rrun lift (call env (EInputPhoneNumber phone_number)
                    input_phone_number);
       rret true)
      (fun _ => rret false).

(** The end of the [try] block, from [save_session] on. *)
Definition keep_session (device_info phone_number number_price tdata_folder
    session_path : pyval) : R bool :=
  rrun act (ASaveSession phone_number device_info number_price session_path);
  rdo st <- rget;
  rrun (match FOLDER_NAME_WITH_ACCOUNTS st with
        | PNone =>
            match tdata_folder with
            | PStr folder =>
                set_FOLDER_NAME_WITH_ACCOUNTS (PStr (dirname desk folder))
            | _ => rraise (TypeError "expected str, bytes or os.PathLike")
            end
        | _ => rret tt
        end);
  rret true.

(** The [try] block of [register_telegram_account]; [fuel] bounds the
    passes of each loop inside. *)
Definition registration (fuel : nat) (sms_obj : SmsApi) (device_info : pyval)
    (first_names last_names : list string) : R bool :=
  rrun act AResetData;
  rrun act AVpn;
  rdo st <- rget;
  rrun (if NEED_CHANGE_LOCATION (world st) then
          rrun act (AChangeLocation COUNTRY);
          lift (modify (set_NEED_CHANGE_LOCATION false))
        else
          rrun act AReconnection;
          rret tt);
  rrun act AStartMessenger;
  rdo number_info <-
    lift (Regger.phone_number_send isoformat fromisoformat env COUNTRY
            MAX_PRICE fuel sms_obj);
  match number_info with
  | SentFalse | SentNone => rret false
  | Sent activation_id phone_number number_price =>
      rdo shown <- act ACheckElement;
      rdo go_on <-
        (if truthy shown then rret true
         else register_with_email first_names last_names phone_number
                number_price);
      if negb go_on then rret false
      else
        rdo code <-
          lift (Regger.check_verif_status env fuel activation_id 300 5);
        if negb (truthy code) then
          rrun lift (Regger.activation_admin fromisoformat env sms_obj
                       last_names phone_number activation_id);
          rret false
        else
          rdo entered <-
            rtry
              (rrun act ACheckEnterCodeText;
               rrun rtry (act (ASendKeys code))
                         (fun _ => act (ASendKeys code));
               rrun check_2fa;
               rret true)
              (fun _ => rret false);
          if negb entered then rret false
          else
            rdo tdata_folder <- create_tdata_with_telegram_desktop phone_number;
            rdo session_result <- asyncio_run;
            match session_result with
            | NoSession => rret false
            | SessionPath "" => rret false
            | SessionPath (String a (String b "")) =>
                (* a text of two characters unpacks into them *)
                keep_session device_info phone_number number_price
                  tdata_folder (PStr (String a ""))
            | SessionPath _ =>
                rraise (ValueError "too many values to unpack (expected 2)")
            | SessionPair session_path _ =>
                keep_session device_info phone_number number_price
                  tdata_folder session_path
            end
  end.

(** [telegram.close()] and [onion.close()] of the [finally] block. *)
Definition close_all : R unit :=
  rrun act ATelegramClose;
  rrun act AOnionClose;
  rret tt.

(** [register_telegram_account] *)
Definition register_telegram_account (fuel : nat) (device_config : pydict)
    (sms_srvice sms_api_key_path : string)
    (first_names last_names : list string) (attempt : Z) : R bool :=
  rdo emulator_path <- subscript device_config "emulator_path";
  rdo emulator_name <- subscript device_config "emulator_name";
  rdo is_physical <- subscript device_config "is_physical";
  rdo sms_obj <- new_SmsApi sms_srvice sms_api_key_path;
  rrun act AOnion;
  rdo udid <- subscript device_config "udid";
  rdo device_info <- act (AGetDeviceInfo udid);
  rdo udid <- subscript device_config "udid";
  rdo appium_port <- subscript device_config "appium_port";
  rrun act (ATelegram udid appium_port emulator_path emulator_name
              is_physical);
  rfinally
    (rtry (registration fuel sms_obj device_info first_names last_names)
          (fun _ => rret false))
    close_all.

(** The loop [while registered_accounts < num_accounts] of [main]; it
    yields the count it ends with.  [rounds] bounds its passes. *)
Fixpoint register_accounts (rounds fuel : nat) (device_config : pydict)
    (sms_service sms_api_key_path : string)
    (first_names last_names : list string)
    (num_accounts registered_accounts attempt : Z) : R Z :=
  if negb (registered_accounts <? num_accounts) then rret registered_accounts
  else
    match rounds with
    | O => rout_of_fuel
    | S rounds' =>
        let attempt := attempt + 1 in
        rdo success <-
          register_telegram_account fuel device_config sms_service
            sms_api_key_path first_names last_names attempt;
        register_accounts rounds' fuel device_config sms_service
          sms_api_key_path first_names last_names num_accounts
          (if success then registered_accounts + 1 else registered_accounts)
          attempt
    end.

End Orchestration.

(** The actions that [register_telegram_account] makes before its [try]
    block. *)
Definition before_try (a : action) : Prop :=
  match a with
  | AReadKeyFile _ | AOnion | AGetDeviceInfo _ | ATelegram _ _ _ _ _ => True
  | _ => False
  end.

(** What a computation guarantees when it returns. *)
Definition post {A} (Q : A -> Stage -> Prop) (m : R A) : Prop :=
  forall st a st', m st = (Ok a, st') -> Q a st'.

(** The actions so far were those before the [try] block, and the
    provider and the ledger have not been touched. *)
Definition early (st st' : Stage) : Prop :=
  exists new,
    acts st' = (new ++ acts st)%list
    /\ Forall before_try new
    /\ calls (world st') = calls (world st)
    /\ activations (world st') = activations (world st).

(** The exception is the one that a [close()] raised last. *)
Definition closed_by (desk : Desk) (e : exn) (st' : Stage) : Prop :=
  exists a h,
    acts st' = a :: h
    /\ (a = ATelegramClose \/ a = AOnionClose)
    /\ answer desk (a :: h) = Throws e.

(** The ways out of [register_telegram_account]. *)
Definition exits {A} (desk : Desk) (m : R A) : Prop :=
  forall st r st',
    m st = (r, st') ->
    match r with
    | Ok _ => exists rest, acts st' = AOnionClose :: ATelegramClose :: rest
    | Raise e => early st st' \/ closed_by desk e st'
    | OutOfFuel => True
    end.

(** A desk on which every action returns [True] at once, with a key on
    disk. *)
Definition obliging : Desk :=
  mkDesk (fun _ => Returns (PBool true)) (fun _ => Some "0123abcd")
         (fun _ _ => 0%nat) (fun _ => 0%N) (fun path => path)
         (fun path => path).

(** A registration that has not begun. *)
Definition idle : Stage := mkStage Sample.fresh [] PNone.

(** A configuration with the keys that [register_telegram_account]
    reads. *)
Definition legacy_config : pydict :=
  <["emulator_path" := PStr "C:\LDPlayer\LDPlayer9\dnplayer.exe"]>
  (<["emulator_name" := PStr "dnplayer.exe"]>
  (<["is_physical" := PBool false]>
  (<["udid" := PNone]>
  (<["appium_port" := PInt 4723]> ∅)))).

End Register.

(* ===================================================================== *)
(** ** Properties of the ledger                                          *)
(* ===================================================================== *)

Module LedgerFacts.
Import Ledger.

Lemma scan_rows_unrecorded fromiso now min id (data : list pydict) :
  forallb (row_differs id) data = true ->
  scan_rows fromiso now min id data = Verdict false.
Proof.
  induction data as [|row rest IH]; simpl; [reflexivity|].
  intros H. apply andb_prop in H as [Hrow Hrest].
  rewrite Hrow. exact (IH Hrest).
Qed.

Lemma scan_rows_first fromiso now min id (data : list pydict) row :
  List.find (fun r => negb (row_differs id r)) data = Some row ->
  scan_rows fromiso now min id data = judge_row fromiso now min row.
Proof.
  induction data as [|r rest IH]; simpl; [discriminate|].
  destruct (row_differs id r); simpl.
  - exact IH.
  - intros [= ->]. reflexivity.
Qed.

Lemma filter_differs_twice id (data : list pydict) :
  List.filter (row_differs id) (List.filter (row_differs id) data)
  = List.filter (row_differs id) data.
Proof.
  induction data as [|r rest IH]; simpl; [reflexivity|].
  destruct (row_differs id r) eqn:E; simpl; [rewrite E|]; congruence.
Qed.

Lemma filter_differs_absent id (data : list pydict) :
  forallb (row_differs id) data = true ->
  List.filter (row_differs id) data = data.
Proof.
  induction data as [|r rest IH]; simpl; [reflexivity|].
  intros H. apply andb_prop in H as [Hr Hrest].
  rewrite Hr, (IH Hrest). reflexivity.
Qed.

Lemma filter_differs_clean id (data : list pydict) :
  forallb (row_differs id) (List.filter (row_differs id) data) = true.
Proof.
  induction data as [|r rest IH]; simpl; [reflexivity|].
  destruct (row_differs id r) eqn:E; simpl; [rewrite E|]; exact IH.
Qed.

Lemma recorded_after_remove id f :
  recorded id (remove_activation_from_json id f) = false.
Proof.
  unfold recorded, remove_activation_from_json, _save_activations; simpl.
  rewrite filter_differs_clean. reflexivity.
Qed.

Lemma remove_keeps_others id id' f :
  py_str id' <> py_str id ->
  recorded id' (remove_activation_from_json id f) = recorded id' f.
Proof.
  intros Hne. unfold recorded, remove_activation_from_json; simpl.
  f_equal. induction (_load_activations f) as [|r rest IH]; simpl; [reflexivity|].
  destruct (row_differs id r) eqn:E; simpl; rewrite IH; [reflexivity|].
  unfold row_differs in *. apply negb_false_iff, String.eqb_eq in E.
  rewrite E. destruct (String.eqb_spec (py_str id) (py_str id')) as [Heq|_].
  - congruence.
  - reflexivity.
Qed.

Lemma truthy_PStr s : s <> "" -> truthy (PStr s) = true.
Proof.
  intros Hs. simpl. destruct (String.eqb_spec s ""); [contradiction|reflexivity].
Qed.

Lemma can_set_status_8_unrecorded fromiso now id min f :
  recorded id f = false ->
  can_set_status_8 fromiso now id min f = Verdict false.
Proof.
  unfold recorded, can_set_status_8. intros H. apply negb_false_iff in H.
  exact (scan_rows_unrecorded _ _ _ _ _ H).
Qed.

End LedgerFacts.

Module LedgerClaims.
Import Ledger LedgerFacts.

Lemma scan_rows_app_unrecorded fromiso now min id (data : list pydict) row :
  forallb (row_differs id) data = true ->
  row_differs id row = false ->
  scan_rows fromiso now min id (data ++ [row]) = judge_row fromiso now min row.
Proof.
  induction data as [|r rest IH]; simpl; intros Hd Hrow.
  - rewrite Hrow. reflexivity.
  - apply andb_prop in Hd as [Hr Hrest]. rewrite Hr. exact (IH Hrest Hrow).
Qed.

(** C2.  [can_set_status_8] answers [False] for an id that no row of the
    ledger carries; for a recorded id it judges the first row carrying it:
    [True] when [created_at] is missing or empty, [True] when it is a text
    that [fromisoformat] rejects, and otherwise [age >= min_age_seconds],
    so [False] below the minimum age and [True] from it on.  A row just
    written by [save_activation_to_json] for an id not yet recorded has age
    0 at the time of writing and is answered [False] with the default
    minimum of 120 seconds, and [True] once 120 seconds have passed. *)
Theorem can_set_status_8_cases
    (isoformat : datetime -> string)
    (fromisoformat : string -> option iso_datetime)
    (now : datetime) (activation_id : pyval) (min_age_seconds : Z)
    (f : file) :
  (recorded activation_id f = false ->
     can_set_status_8 fromisoformat now activation_id min_age_seconds f
     = Verdict false)
  /\ (forall row, first_row activation_id f = Some row ->
        (truthy (dict_get row "created_at") = false ->
           can_set_status_8 fromisoformat now activation_id min_age_seconds f
           = Verdict true)
        /\ (forall s, dict_get row "created_at" = PStr s ->
              fromisoformat s = None ->
              can_set_status_8 fromisoformat now activation_id
                min_age_seconds f = Verdict true)
        /\ (forall s created, dict_get row "created_at" = PStr s ->
              s <> "" -> fromisoformat s = Some (Naive created) ->
              (now - created < min_age_seconds * usec_per_sec ->
                 can_set_status_8 fromisoformat now activation_id
                   min_age_seconds f = Verdict false)
              /\ (min_age_seconds * usec_per_sec <= now - created ->
                    can_set_status_8 fromisoformat now activation_id
                      min_age_seconds f = Verdict true)))
  /\ (forall written phone_number,
        recorded activation_id f = false ->
        isoformat written <> "" ->
        fromisoformat (isoformat written) = Some (Naive written) ->
        let f' := save_activation_to_json isoformat written activation_id
                    phone_number f in
        can_set_status_8 fromisoformat written activation_id
          default_min_age_seconds f' = Verdict false
        /\ (written + 120 * usec_per_sec <= now ->
              can_set_status_8 fromisoformat now activation_id
                default_min_age_seconds f' = Verdict true)).
Proof.
  split; [apply can_set_status_8_unrecorded|].
  unfold can_set_status_8. split.
  - intros row Hrow. unfold first_row in Hrow.
    rewrite (scan_rows_first _ _ _ _ _ _ Hrow). unfold judge_row.
    split; [|split].
    + intros ->. reflexivity.
    + intros s -> Hs. destruct (truthy (PStr s)); simpl; [|reflexivity].
      rewrite Hs. reflexivity.
    + intros s created -> Hne Hs. rewrite (truthy_PStr _ Hne). simpl.
      rewrite Hs. split; intros Hage; f_equal; lia.
  - intros written phone_number Hrec Hne Hiso.
    set (f' := save_activation_to_json _ _ _ _ _).
    unfold recorded in Hrec. apply negb_false_iff in Hrec.
    assert (Hscan : forall t,
      scan_rows fromisoformat t default_min_age_seconds activation_id
        (_load_activations f')
      = Verdict (default_min_age_seconds * usec_per_sec <=? t - written)).
    { intros t. subst f'. unfold save_activation_to_json, _save_activations.
      simpl _load_activations.
      rewrite scan_rows_app_unrecorded; [|exact Hrec|].
      - unfold judge_row, dict_get.
        rewrite lookup_insert_ne by discriminate.
        rewrite lookup_insert_ne by discriminate.
        rewrite lookup_insert_eq. simpl default.
        rewrite (truthy_PStr _ Hne). simpl. rewrite Hiso. reflexivity.
      - unfold row_differs, dict_get. rewrite lookup_insert_eq. simpl.
        rewrite String.eqb_refl. reflexivity. }
    rewrite !Hscan. unfold default_min_age_seconds, usec_per_sec.
    split; [|intros Hlate]; f_equal; lia.
Qed.

(** C3.  [remove_activation_from_json] keeps exactly the rows that do not
    carry the id, in their order, so none carrying it is left; it always
    returns, without an exception; a second removal changes nothing, and
    the removal of an id that is not recorded leaves the rows as they
    were. *)
Theorem remove_activation_idempotent (activation_id : pyval) (f : file)
    (w : World) :
  _load_activations (remove_activation_from_json activation_id f)
  = List.filter (row_differs activation_id) (_load_activations f)
  /\ recorded activation_id (remove_activation_from_json activation_id f)
     = false
  /\ (exists w', Regger.remove_activation_from_json activation_id w = (Ok tt, w')
                 /\ activations w'
                    = remove_activation_from_json activation_id (activations w))
  /\ remove_activation_from_json activation_id
       (remove_activation_from_json activation_id f)
     = remove_activation_from_json activation_id f
  /\ (recorded activation_id f = false ->
        _load_activations (remove_activation_from_json activation_id f)
        = _load_activations f).
Proof.
  split; [reflexivity|]. split; [apply recorded_after_remove|].
  split; [eexists; split; reflexivity|]. split.
  - unfold remove_activation_from_json, _save_activations. simpl.
    rewrite filter_differs_twice. reflexivity.
  - unfold recorded. intros H. apply negb_false_iff in H.
    simpl. exact (filter_differs_absent _ _ H).
Qed.

End LedgerClaims.

(* ===================================================================== *)
(** ** Properties of the identity generators                            *)
(* ===================================================================== *)

Module AdbFacts.
Import Adb.

Lemma random_choice_digit r :
  random_choice "0123456789" r = digit_char (r mod 10).
Proof.
  unfold random_choice, digit_char.
  change (String.length "0123456789") with 10%nat.
  assert (H : (r mod 10 < 10)%nat) by (apply Nat.mod_upper_bound; lia).
  destruct (r mod 10)%nat as [|n]; [reflexivity|].
  do 9 (destruct n as [|n]; [reflexivity|]). lia.
Qed.

Lemma int_of_digit_char d : (d < 10)%nat -> int_of_digit (digit_char d) = Z.of_nat d.
Proof.
  intros H. unfold int_of_digit, digit_char.
  rewrite nat_ascii_embedding by lia. lia.
Qed.

Lemma digit_value_char d : (d < 10)%nat -> digit_value (digit_char d) = Some (Z.of_nat d).
Proof.
  intros H. unfold digit_value, digit_char.
  rewrite nat_ascii_embedding by lia.
  destruct (Nat.leb_spec 48 (48 + d)); [|lia].
  destruct (Nat.leb_spec (48 + d) 57); [|lia].
  simpl. f_equal. lia.
Qed.

Lemma doubled_digit_char d :
  (d < 10)%nat ->
  doubled (digit_char d)
  = (if 10 <=? 2 * Z.of_nat d then 2 * Z.of_nat d - 9 else 2 * Z.of_nat d).
Proof.
  intros H. unfold doubled. rewrite (int_of_digit_char d H).
  destruct (Z.ltb_spec (Z.of_nat d * 2) 10), (Z.leb_spec 10 (2 * Z.of_nat d)); lia.
Qed.

Lemma pretty_digit z :
  0 <= z < 10 -> pretty z = String (digit_char (Z.to_nat z)) EmptyString.
Proof.
  intros H.
  assert (Hz : z = 0 \/ z = 1 \/ z = 2 \/ z = 3 \/ z = 4 \/ z = 5 \/ z = 6
               \/ z = 7 \/ z = 8 \/ z = 9) by lia.
  repeat (destruct Hz as [-> | Hz]; [reflexivity|]). subst z. reflexivity.
Qed.

Lemma check_digit_payload (ds : list nat) :
  length ds = 14%nat -> Forall (fun d => (d < 10)%nat) ds ->
  check_digit (payload_text ds) = spec_check_digit (List.map Z.of_nat ds).
Proof.
  intros Hlen Hds.
  do 14 (destruct ds as [|? ds]; [discriminate|]).
  destruct ds; [|discriminate]. clear Hlen.
  repeat match goal with
         | H : Forall _ (_ :: _) |- _ => apply Forall_cons in H as [? H]
         end.
  unfold check_digit, spec_check_digit, payload_text.
  cbn [List.map string_of_list_ascii list_ascii_of_string slice_1_2
       String.length].
  change (range_by_2 14) with [0; 2; 4; 6; 8; 10; 12]%nat.
  cbn [List.map String.get Nat.eqb default spec_luhn_sum negb].
  unfold id. rewrite !int_of_digit_char, !doubled_digit_char by assumption.
  unfold sum. cbn [List.fold_left].
  do 3 f_equal. ring.
Qed.

Lemma check_digit_range temp : 0 <= check_digit temp < 10.
Proof. unfold check_digit. apply Z.mod_pos_bound. lia. Qed.

Lemma digits_of_payload (ds : list nat) :
  Forall (fun d => (d < 10)%nat) ds ->
  digits_of (payload_text ds) = Some (List.map Z.of_nat ds).
Proof.
  unfold digits_of, payload_text. rewrite list_ascii_of_string_of_list_ascii.
  induction 1 as [|d ds Hd _ IH]; [reflexivity|].
  cbn [List.map mapM]. rewrite (digit_value_char d Hd).
  cbn [mbind option_bind]. rewrite IH. reflexivity.
Qed.

Lemma payload_digits_small rnd :
  Forall (fun d => (d < 10)%nat) (payload_digits rnd).
Proof.
  unfold payload_digits. cbn [List.seq List.map].
  repeat (constructor; [first [lia | apply Nat.mod_upper_bound; lia]|]).
  constructor.
Qed.

Lemma imei_shape rnd :
  generate_samsung_imei rnd
  = payload_text (payload_digits rnd
                  ++ [Z.to_nat (check_digit (payload_text (payload_digits rnd)))])%list.
Proof.
  unfold generate_samsung_imei.
  assert (Htemp : ("35" ++ random_digits rnd 0 6) ++ random_digits rnd 6 6
                  = payload_text (payload_digits rnd)).
  { unfold random_digits, payload_text, payload_digits.
    cbn [List.seq List.map]. rewrite !random_choice_digit. reflexivity. }
  rewrite Htemp. unfold py_str.
  rewrite (pretty_digit _ (check_digit_range _)).
  generalize (Z.to_nat (check_digit (payload_text (payload_digits rnd)))).
  intros c. unfold payload_text, payload_digits.
  cbn [List.seq List.map]. reflexivity.
Qed.

(** C8.  Whatever the random source draws, the text that
    [generate_samsung_imei] returns has 15 characters, begins with [35],
    spells 15 decimal digits, and its last digit is the check digit of
    the first 14: with [S] the sum of the digits at even 0-based positions
    as they are and of those at odd positions doubled, less 9 when the
    double reaches 10, it equals [(10 - S mod 10) mod 10]. *)
Theorem generate_samsung_imei_luhn (rnd : nat -> nat) :
  String.length (generate_samsung_imei rnd) = 15%nat
  /\ startswith (generate_samsung_imei rnd) "35" = true
  /\ exists (payload : list Z) (check : Z),
       digits_of (generate_samsung_imei rnd) = Some (payload ++ [check])%list
       /\ length payload = 14%nat
       /\ Forall (fun d => 0 <= d <= 9) (payload ++ [check])%list
       /\ check = spec_check_digit payload
       /\ check = (10 - spec_luhn_sum false payload mod 10) mod 10.
Proof.
  pose proof (payload_digits_small rnd) as Hsmall.
  pose proof (check_digit_range (payload_text (payload_digits rnd))) as Hc.
  assert (Hlen : length (payload_digits rnd) = 14%nat) by reflexivity.
  rewrite imei_shape. split; [|split].
  - unfold payload_text. generalize (Z.to_nat (check_digit (payload_text (payload_digits rnd)))).
    intros c. reflexivity.
  - reflexivity.
  - exists (List.map Z.of_nat (payload_digits rnd)),
           (check_digit (payload_text (payload_digits rnd))).
    split; [|split; [|split; [|split]]].
    + rewrite digits_of_payload.
      * rewrite List.map_app. cbn [List.map]. rewrite Z2Nat.id by lia. reflexivity.
      * apply Forall_app. split; [exact Hsmall|].
        constructor; [lia|constructor].
    + rewrite List.length_map. exact Hlen.
    + apply Forall_app. split.
      * apply Forall_map. eapply Forall_impl; [exact Hsmall|].
        intros d Hd. simpl in Hd. lia.
      * constructor; [lia|constructor].
    + apply check_digit_payload; assumption.
    + rewrite (check_digit_payload _ Hlen Hsmall). reflexivity.
Qed.

Lemma timedelta_minutes_ok m :
  - datetime_max <= m * 60 * usec_per_sec <= datetime_max ->
  timedelta_minutes m = Some (m * 60 * usec_per_sec).
Proof.
  intros H. unfold timedelta_minutes. cbv zeta.
  assert (E1 : (- timedelta_max_days * 86400 * usec_per_sec
                <=? m * 60 * usec_per_sec) = true).
  { apply Z.leb_le.
    unfold datetime_max, timedelta_max_days, usec_per_sec in *. lia. }
  assert (E2 : (m * 60 * usec_per_sec
                <? (timedelta_max_days + 1) * 86400 * usec_per_sec) = true).
  { apply Z.ltb_lt.
    unfold datetime_max, timedelta_max_days, usec_per_sec in *. lia. }
  rewrite E1, E2. reflexivity.
Qed.

Lemma datetime_sub_ok d delta :
  0 <= d - delta <= datetime_max -> datetime_sub d delta = Some (d - delta).
Proof.
  intros H. unfold datetime_sub. cbv zeta.
  assert (E1 : (0 <=? d - delta) = true) by (apply Z.leb_le; lia).
  assert (E2 : (d - delta <=? datetime_max) = true) by (apply Z.leb_le; lia).
  rewrite E1, E2. reflexivity.
Qed.

Lemma int_milliseconds_minutes base m :
  int_milliseconds (base - m * 60 * usec_per_sec - base) = -60000 * m.
Proof.
  unfold int_milliseconds, usec_per_sec.
  replace ((base - m * 60 * 1000000 - base) * 1000)
    with ((-60000 * m) * 1000000) by ring.
  apply Z.quot_mul. lia.
Qed.

(** C9, as the code has it.  For a base time and a shift that keep
    [now - timedelta(minutes=shift)] a valid [datetime],
    [generate_boottime_sequence] returns five equal integers, each
    [-60000 * shift]: the shift in milliseconds, negated.  The list is
    zero-filled exactly when the shift is 0. *)
Theorem generate_boottime_sequence_constant
    (clock_now : datetime) (drawn : Z) (now : option datetime)
    (shift : option Z) :
  0 <= default clock_now now <= datetime_max ->
  0 <= default clock_now now - default drawn shift * 60 * usec_per_sec
    <= datetime_max ->
  generate_boottime_sequence clock_now drawn now shift
  = Some (List.repeat (-60000 * default drawn shift) 5)
  /\ (generate_boottime_sequence clock_now drawn now shift
      = Some [0; 0; 0; 0; 0] <-> default drawn shift = 0).
Proof.
  set (base := default clock_now now). set (minutes := default drawn shift).
  intros Hbase Hnew.
  assert (Hrun : generate_boottime_sequence clock_now drawn now shift
                 = Some (List.repeat (-60000 * minutes) 5)).
  { unfold generate_boottime_sequence. fold base minutes.
    rewrite timedelta_minutes_ok
      by (unfold datetime_max, usec_per_sec in *; lia).
    cbn [mbind option_bind].
    rewrite datetime_sub_ok by lia.
    cbn [mbind option_bind List.map List.repeat].
    rewrite int_milliseconds_minutes. reflexivity. }
  split; [exact Hrun|]. rewrite Hrun. cbn [List.repeat]. split.
  - intros [= H]. lia.
  - intros ->. reflexivity.
Qed.

(** C9: with a shift of one minute the five integers are [-60000], not 0. *)
Lemma generate_boottime_sequence_not_zero :
  generate_boottime_sequence 0 0 (Some 63000000000000000) (Some 1)
  = Some [-60000; -60000; -60000; -60000; -60000]
  /\ ~ (forall clock_now drawn now shift zs,
          generate_boottime_sequence clock_now drawn now shift = Some zs ->
          zs = [0; 0; 0; 0; 0]).
Proof.
  split; [reflexivity|].
  intros H. specialize (H 0 0 (Some 63000000000000000) (Some 1) _ eq_refl).
  discriminate H.
Qed.

Lemma generate_boottime_sequence_constant_witness :
  generate_boottime_sequence 0 0 (Some 63000000000000000) (Some 7)
  = Some (List.repeat (-420000) 5).
Proof.
  apply (generate_boottime_sequence_constant 0 0 (Some 63000000000000000)
           (Some 7)); unfold datetime_max, usec_per_sec; simpl; lia.
Defined.

End AdbFacts.

(* ===================================================================== *)
(** ** Reasoning about the calls a computation makes                    *)
(* ===================================================================== *)

Module Hoare.

Lemma emits_ret {A} P (Q : A -> Prop) a : Q a -> emits P Q (ret a).
Proof.
  intros Ha w. exists []. simpl. split; [reflexivity|].
  split; [constructor|]. intros a' [= <-]. exact Ha.
Qed.

Lemma emits_raise {A} P (Q : A -> Prop) e : emits P Q (raise e).
Proof.
  intros w. exists []. simpl. split; [reflexivity|].
  split; [constructor|]. discriminate.
Qed.

Lemma emits_out_of_fuel {A} P (Q : A -> Prop) : emits P Q out_of_fuel.
Proof.
  intros w. exists []. simpl. split; [reflexivity|].
  split; [constructor|]. discriminate.
Qed.

Lemma emits_bind {A B} P (Q : A -> Prop) (R : B -> Prop) m k :
  emits P Q m -> (forall a, Q a -> emits P R (k a)) -> emits P R (bind m k).
Proof.
  intros Hm Hk w. unfold bind.
  destruct (Hm w) as (new1 & Hc1 & Hp1 & Hq1).
  destruct (m w) as [[a|e|] w1]; simpl in *.
  - destruct (Hk a (Hq1 a eq_refl) w1) as (new2 & Hc2 & Hp2 & Hq2).
    exists (new2 ++ new1)%list. rewrite Hc2, Hc1, app_assoc.
    split; [reflexivity|]. split; [apply Forall_app; split; assumption|].
    exact Hq2.
  - exists new1. repeat split; try assumption. discriminate.
  - exists new1. repeat split; try assumption. discriminate.
Qed.

Lemma emits_try_except {A} P (Q : A -> Prop) m handler :
  emits P Q m -> (forall e, emits P Q (handler e)) ->
  emits P Q (try_except m handler).
Proof.
  intros Hm Hh w. unfold try_except.
  destruct (Hm w) as (new1 & Hc1 & Hp1 & Hq1).
  destruct (m w) as [[a|e|] w1]; simpl in *.
  - exists new1. repeat split; assumption.
  - destruct (Hh e w1) as (new2 & Hc2 & Hp2 & Hq2).
    exists (new2 ++ new1)%list. rewrite Hc2, Hc1, app_assoc.
    split; [reflexivity|]. split; [apply Forall_app; split; assumption|].
    exact Hq2.
  - exists new1. repeat split; try assumption.
Qed.

Lemma emits_call {A} (P : event -> Prop) env ev
    (answer : Env -> list event -> reply A) :
  P ev -> emits P (fun _ => True) (call env ev answer).
Proof.
  intros Hev w. exists [ev]. unfold call.
  destruct (answer env (ev :: calls w)); simpl;
    (split; [reflexivity|]); (split; [repeat constructor; exact Hev|]); trivial.
Qed.

Lemma emits_quiet {A} P (Q : A -> Prop) (m : M A) :
  (forall w, calls (snd (m w)) = calls w) ->
  (forall w a, fst (m w) = Ok a -> Q a) ->
  emits P Q m.
Proof.
  intros Hc Hq w. exists []. split; [apply Hc|]. split; [constructor|].
  apply Hq.
Qed.

Lemma emits_weaken {A} (P P' : event -> Prop) (Q Q' : A -> Prop) m :
  emits P Q m -> (forall ev, P ev -> P' ev) -> (forall a, Q a -> Q' a) ->
  emits P' Q' m.
Proof.
  intros Hm HP HQ w. destruct (Hm w) as (new & Hc & Hp & Hq).
  exists new. split; [exact Hc|]. split.
  - eapply Forall_impl; [exact Hp|exact HP].
  - intros a Ha. exact (HQ a (Hq a Ha)).
Qed.

End Hoare.

(* ===================================================================== *)
(** ** Properties of the scripts                                        *)
(* ===================================================================== *)

Module ReggerFacts.
Import Regger Hoare.

Section Facts.

Variable isoformat : datetime -> string.
Variable fromisoformat : string -> option iso_datetime.
Variable env : Env.
Variable COUNTRY : string.
Variable MAX_PRICE : pyval.

Lemma emits_modify P f :
  (forall w, calls (f w) = calls w) -> emits P (fun _ => True) (modify f).
Proof. intros H. apply emits_quiet; [exact H|trivial]. Qed.

Lemma emits_draw {A} (P : event -> Prop) ev (answer : Env -> list event -> A) :
  P ev -> emits P (fun _ => True) (draw env ev answer).
Proof. apply emits_call. Qed.

Lemma emits_can_set_status_8 P id :
  emits P (fun _ => True) (can_set_status_8 fromisoformat id).
Proof.
  apply emits_quiet; [|trivial]. intros w. unfold can_set_status_8.
  destruct Ledger.can_set_status_8; reflexivity.
Qed.

Lemma emits_setup_cech P : emits P (fun _ => True) setup_cech.
Proof.
  apply emits_quiet; [|trivial]. intros w. unfold setup_cech.
  destruct (cech w); reflexivity.
Qed.

(** [activation_admin] calls nothing on the device. *)
Lemma emits_activation_admin sms last_names phone id :
  emits not_input (fun _ => True)
    (activation_admin fromisoformat env sms last_names phone id).
Proof.
  unfold activation_admin.
  eapply emits_bind; [apply emits_draw; exact I|]. intros r _.
  eapply emits_bind; [apply emits_modify; reflexivity|]. intros _ _.
  eapply emits_bind with (Q := fun _ => True).
  { destruct last_names; [apply emits_ret; exact I|].
    eapply emits_bind; [apply emits_draw; exact I|]. intros i _.
    apply emits_ret. exact I. }
  intros name _.
  eapply emits_bind; [apply emits_setup_cech|]. intros d _.
  eapply emits_bind with (Q := fun _ => True).
  { apply emits_try_except.
    - eapply emits_bind; [apply emits_can_set_status_8|]. intros [] _.
      + eapply emits_bind; [apply emits_call; exact I|]. intros _ _.
        eapply emits_bind; [apply emits_modify; reflexivity|]. intros _ _.
        apply emits_ret. exact I.
      + apply emits_ret. exact I.
    - intros e. apply emits_ret. exact I. }
  intros d' _.
  eapply emits_bind; [apply emits_modify; reflexivity|]. intros _ _.
  apply emits_ret. exact I.
Qed.

Lemma emits_verification_number sms service country max_price :
  emits not_input (fun _ => True)
    (verification_number env sms service country max_price).
Proof.
  unfold verification_number.
  eapply emits_bind; [apply emits_call; exact I|]. intros cid _.
  eapply emits_bind with (Q := fun _ => True).
  { apply emits_try_except.
    - eapply emits_bind; [apply emits_call; exact I|]. intros resp _.
      apply emits_ret. exact I.
    - intros e. apply emits_ret. exact I. }
  intros [resp|failure] _; apply emits_ret; exact I.
Qed.

Lemma emits_py_startswith P phone p :
  emits P (fun ok => ok = true -> exists s, phone = PStr s /\ startswith s p = true)
    (py_startswith phone p).
Proof.
  unfold py_startswith. destruct phone; try apply emits_raise.
  apply emits_ret. intros H. eauto.
Qed.

(** A number that leaves the inner loop has passed the check. *)
Lemma emits_request_number sms :
  emits not_input
    (fun b => match b with
              | Bought _ phone _ => well_prefixed COUNTRY phone
              | _ => True
              end)
    (request_number fromisoformat env COUNTRY MAX_PRICE sms).
Proof.
  unfold request_number.
  eapply emits_bind; [apply emits_verification_number|]. intros num_data _.
  destruct (negb (truthy (dict_get num_data "phoneNumber"))).
  { eapply emits_bind with (Q := fun _ => True).
    - unfold subscript_error. destruct (num_data !! "error");
        [apply emits_ret; exact I|apply emits_raise].
    - intros err _. destruct (truthy err); apply emits_ret; exact I. }
  assert (Hchecked : forall p ok,
            (ok = true -> exists s, dict_get num_data "phoneNumber" = PStr s
                                    /\ startswith s p = true) ->
            emits not_input
              (fun wrong => wrong = false ->
                 exists s, dict_get num_data "phoneNumber" = PStr s
                           /\ startswith s p = true)
              (ret (negb ok))).
  { intros p ok Hok. apply emits_ret. intros Hw. apply Hok.
    destruct ok; [reflexivity|discriminate]. }
  assert (Hadmin : forall phone id,
            emits not_input
              (fun b => match b with
                        | Bought _ phone _ => well_prefixed COUNTRY phone
                        | _ => True
                        end)
              (run activation_admin fromisoformat env sms [] phone id;
               ret Again)).
  { intros phone id. eapply emits_bind; [apply emits_activation_admin|].
    intros _ _. apply emits_ret. exact I. }
  unfold well_prefixed, checked_prefix in *.
  destruct (String.eqb_spec COUNTRY "United Kingdom") as [->|Huk].
  { cbn [String.eqb Ascii.eqb Bool.eqb] in *.
    eapply emits_bind.
    - eapply emits_bind; [apply emits_py_startswith|]. apply Hchecked.
    - intros [] Hwrong; [apply Hadmin|].
      eapply emits_bind; [apply emits_ret with (Q := fun b => b = false);
                          reflexivity|].
      intros wrong ->. apply emits_ret. exact (Hwrong eq_refl). }
  eapply emits_bind; [apply emits_ret with (Q := fun b => b = false);
                      reflexivity|].
  intros wrong ->.
  destruct (String.eqb_spec COUNTRY "USA") as [->|Hus].
  { eapply emits_bind.
    - eapply emits_bind; [apply emits_py_startswith|]. apply Hchecked.
    - intros [] Hwrong; [apply Hadmin|].
      apply emits_ret. exact (Hwrong eq_refl). }
  eapply emits_bind; [apply emits_ret with (Q := fun b => b = false);
                      reflexivity|].
  intros wrong ->. apply emits_ret. exact I.
Qed.

Lemma emits_buy_number fuel sms :
  emits not_input
    (fun b => match b with
              | Bought _ phone _ => well_prefixed COUNTRY phone
              | _ => True
              end)
    (buy_number fromisoformat env COUNTRY MAX_PRICE fuel sms).
Proof.
  induction fuel as [|fuel IH]; simpl; [apply emits_out_of_fuel|].
  eapply emits_bind; [apply emits_request_number|].
  intros [| |] Hb; [exact IH| |]; apply emits_ret; exact Hb.
Qed.

Lemma emits_save_activation P id phone :
  emits P (fun _ => True) (save_activation_to_json isoformat id phone).
Proof. apply emits_quiet; [reflexivity|trivial]. Qed.

Lemma emits_send_attempt fuel sms :
  emits (input_well_prefixed COUNTRY) (fun _ => True)
    (send_attempt isoformat fromisoformat env COUNTRY MAX_PRICE fuel sms).
Proof.
  unfold send_attempt. eapply emits_bind.
  - eapply emits_weaken; [apply emits_buy_number| |intros b Hb; exact Hb].
    intros []; simpl; trivial. contradiction.
  - intros [|id phone price|] Hb; try (apply emits_ret; exact I).
    eapply emits_bind; [apply emits_call; exact Hb|]. intros _ _.
    eapply emits_bind; [apply emits_save_activation|]. intros _ _.
    apply emits_ret. exact I.
Qed.

Lemma emits_send_loop rounds fuel sms attempt :
  emits (input_well_prefixed COUNTRY) (fun _ => True)
    (send_loop isoformat fromisoformat env COUNTRY MAX_PRICE rounds fuel sms
       attempt).
Proof.
  revert attempt. induction rounds as [|rounds IH]; intros attempt; simpl.
  - destruct (negb (attempt <? 5)); [apply emits_ret; exact I|
                                     apply emits_out_of_fuel].
  - destruct (negb (attempt <? 5)); [apply emits_ret; exact I|].
    apply emits_try_except; [apply emits_send_attempt|].
    intros e. destruct (5 <=? attempt + 1); [apply emits_ret; exact I|apply IH].
Qed.

Lemma delivered_app evs1 evs2 :
  delivered (evs1 ++ evs2) = (delivered evs1 ++ delivered evs2)%list.
Proof.
  induction evs1 as [|[] evs1 IH]; simpl; rewrite ?IH; reflexivity.
Qed.

Lemma delivered_well_prefixed evs :
  Forall (input_well_prefixed COUNTRY) evs ->
  Forall (well_prefixed COUNTRY) (delivered evs).
Proof.
  induction 1 as [|[] evs Hev _ IH]; simpl; try assumption.
  - constructor.
  - constructor; assumption.
Qed.

(** What [activation_admin] does when [cech.json] can be read: after its
    random draws it asks the ledger once, at the time [clock w0]; only on
    the answer [True] does it call [setStatus(id, 8)], and only when that
    call returns does it take the id off the ledger. *)
Lemma activation_admin_effect sms last_names phone id w :
  cech w <> Corrupt ->
  exists w0 w',
    activation_admin fromisoformat env sms last_names phone id w
    = (Ok CECH_PATH, w')
    /\ clock w <= clock w0 /\ clock w0 <= clock w'
    /\ status_changes (calls w0) = status_changes (calls w)
    /\ delivered (calls w') = delivered (calls w)
    /\ rentals (calls w') = rentals (calls w)
    /\ (if answered_true
             (Ledger.can_set_status_8 fromisoformat (clock w0) id
                Ledger.default_min_age_seconds (activations w))
        then calls w' = ESetStatus id 8 :: calls w0
             /\ activations w'
                = (if returned (setStatus env (ESetStatus id 8 :: calls w0))
                   then Ledger.remove_activation_from_json id (activations w)
                   else activations w)
        else calls w' = calls w0 /\ activations w' = activations w).
Proof.
  intros Hcech.
  exists (match last_names with
          | [] => snd (draw env (ERandint 0 100) randint w)
          | _ => snd (draw env (EChoice (length last_names)) choice
                        (snd (draw env (ERandint 0 100) randint w)))
          end).
  unfold activation_admin, bind, try_except, can_set_status_8, setup_cech,
    write_cech, remove_activation_from_json, modify, ret, draw, call.
  destruct last_names as [|n ns]; simpl;
    (destruct (cech w) eqn:Ec; [|contradiction|]); simpl;
    match goal with
    | |- context [Ledger.can_set_status_8 ?f ?t ?i ?m ?a] =>
        destruct (Ledger.can_set_status_8 f t i m a) as [[|]|]
    end; simpl;
    try match goal with
        | |- context [setStatus env ?h] => destruct (setStatus env h)
        end; simpl;
    eexists; (split; [reflexivity|]); simpl; repeat split; lia.
Qed.

Lemma activation_admin_returns_or_raises sms last_names phone id w :
  fst (activation_admin fromisoformat env sms last_names phone id w)
  <> OutOfFuel.
Proof.
  unfold activation_admin, bind, try_except, can_set_status_8, setup_cech,
    write_cech, remove_activation_from_json, modify, ret, draw, call.
  destruct last_names as [|n ns]; simpl; destruct (cech w); simpl;
    try discriminate;
    match goal with
    | |- context [Ledger.can_set_status_8 ?f ?t ?i ?m ?a] =>
        destruct (Ledger.can_set_status_8 f t i m a) as [[|]|]
    end; simpl;
    try match goal with
        | |- context [setStatus env ?h] => destruct (setStatus env h)
        end; simpl; discriminate.
Qed.

Lemma request_number_no_phone sms w d w1 :
  verification_number env sms "tg" COUNTRY (max_price_for MAX_PRICE sms) w
  = (Ok d, w1) ->
  truthy (dict_get d "phoneNumber") = false ->
  request_number fromisoformat env COUNTRY MAX_PRICE sms w
  = match d !! "error" with
    | Some err => (Ok (if truthy err then Again else GiveUp), w1)
    | None => (Raise (KeyError "'error'"), w1)
    end.
Proof.
  intros Hv Hp. unfold request_number, bind at 1. rewrite Hv, Hp. simpl.
  unfold bind, subscript_error. destruct (d !! "error") as [err|]; simpl.
  - destruct (truthy err); reflexivity.
  - reflexivity.
Qed.

Lemma request_number_wrong_prefix p sms w d w1 s :
  checked_prefix COUNTRY = Some p ->
  verification_number env sms "tg" COUNTRY (max_price_for MAX_PRICE sms) w
  = (Ok d, w1) ->
  dict_get d "phoneNumber" = PStr s -> s <> "" -> startswith s p = false ->
  request_number fromisoformat env COUNTRY MAX_PRICE sms w
  = bind (activation_admin fromisoformat env sms [] (PStr s)
            (dict_get d "activationId"))
         (fun _ => ret Again) w1.
Proof.
  intros Hc Hv Hn Hs Hpre. unfold request_number, bind at 1.
  rewrite Hv, Hn, (LedgerFacts.truthy_PStr s Hs). cbn [negb].
  unfold checked_prefix in Hc.
  destruct (String.eqb COUNTRY "United Kingdom") eqn:Euk.
  - injection Hc as <-. unfold bind at 1. unfold bind at 1.
    cbn [py_startswith ret]. rewrite Hpre. reflexivity.
  - destruct (String.eqb COUNTRY "USA") eqn:Eus; [|discriminate].
    injection Hc as <-. unfold bind at 1. cbn [ret].
    unfold bind at 1. unfold bind at 1.
    cbn [py_startswith ret]. rewrite Hpre. reflexivity.
Qed.

Lemma request_number_unchecked sms w d w1 :
  checked_prefix COUNTRY = None ->
  verification_number env sms "tg" COUNTRY (max_price_for MAX_PRICE sms) w
  = (Ok d, w1) ->
  truthy (dict_get d "phoneNumber") = true ->
  request_number fromisoformat env COUNTRY MAX_PRICE sms w
  = (Ok (Bought (dict_get d "activationId") (dict_get d "phoneNumber")
           (dict_get d "activationCost")), w1).
Proof.
  intros Hc Hv Hp. unfold request_number, bind at 1. rewrite Hv, Hp.
  cbn [negb]. unfold checked_prefix in Hc.
  destruct (String.eqb COUNTRY "United Kingdom"); [discriminate|].
  destruct (String.eqb COUNTRY "USA"); [discriminate|]. reflexivity.
Qed.

(** A reply without a number whose [error] entry is present but falsy
    makes [phone_number_send] return [False] at once. *)
Lemma phone_number_send_give_up fuel sms w d w1 err :
  verification_number env sms "tg" COUNTRY (max_price_for MAX_PRICE sms) w
  = (Ok d, w1) ->
  truthy (dict_get d "phoneNumber") = false ->
  d !! "error" = Some err -> truthy err = false ->
  phone_number_send isoformat fromisoformat env COUNTRY MAX_PRICE (S fuel)
    sms w = (Ok SentFalse, w1).
Proof.
  intros Hv Hp Herr Hfalsy. unfold phone_number_send.
  cbn [send_loop Z.ltb Z.compare negb]. unfold try_except, send_attempt.
  cbn [buy_number]. unfold bind.
  rewrite (request_number_no_phone sms w d w1 Hv Hp), Herr, Hfalsy.
  reflexivity.
Qed.

Lemma checked_prefix_cases p :
  (COUNTRY = "USA" /\ p = "+1") \/ (COUNTRY = "United Kingdom" /\ p = "+44")
  <-> checked_prefix COUNTRY = Some p.
Proof.
  unfold checked_prefix. split.
  - intros [[-> ->]|[-> ->]]; reflexivity.
  - destruct (String.eqb_spec COUNTRY "United Kingdom") as [->|_].
    + intros [= <-]. right. split; reflexivity.
    + destruct (String.eqb_spec COUNTRY "USA") as [->|_]; [|discriminate].
      intros [= <-]. left. split; reflexivity.
Qed.

Lemma checked_prefix_none :
  COUNTRY <> "USA" /\ COUNTRY <> "United Kingdom"
  <-> checked_prefix COUNTRY = None.
Proof.
  unfold checked_prefix.
  destruct (String.eqb_spec COUNTRY "United Kingdom") as [->|Huk].
  - split; [intros [_ H]; contradiction|discriminate].
  - destruct (String.eqb_spec COUNTRY "USA") as [->|Hus].
    + split; [intros [H _]; contradiction|discriminate].
    + split; [reflexivity|]. intros _. split; assumption.
Qed.

(** C1.  When the requested country is USA (resp. United Kingdom), every
    number that [phone_number_send] hands to [telegram.input_phone_number]
    is a text that starts with [+1] (resp. [+44]), whatever the provider
    and the device answer and however long the loops run.  A number with
    another prefix is dropped: [activation_admin] is run for it and the
    inner loop goes on from its head, whose first act is a new request to
    the provider; nothing is handed to the device on the way. *)
Theorem wrong_prefix_never_delivered (p : string) :
  (COUNTRY = "USA" /\ p = "+1") \/ (COUNTRY = "United Kingdom" /\ p = "+44") ->
  (forall fuel sms w, exists new,
      calls (snd (phone_number_send isoformat fromisoformat env COUNTRY
                    MAX_PRICE fuel sms w)) = (new ++ calls w)%list
      /\ Forall (fun number => exists s, number = PStr s
                                         /\ startswith s p = true)
                (delivered new))
  /\ (forall fuel sms w d w1 s,
        verification_number env sms "tg" COUNTRY (max_price_for MAX_PRICE sms) w
        = (Ok d, w1) ->
        dict_get d "phoneNumber" = PStr s -> s <> "" ->
        startswith s p = false ->
        buy_number fromisoformat env COUNTRY MAX_PRICE (S fuel) sms w
        = bind (activation_admin fromisoformat env sms [] (PStr s)
                  (dict_get d "activationId"))
               (fun _ => buy_number fromisoformat env COUNTRY MAX_PRICE fuel sms)
               w1
        /\ (cech w1 <> Corrupt ->
            exists w2,
              activation_admin fromisoformat env sms [] (PStr s)
                (dict_get d "activationId") w1 = (Ok CECH_PATH, w2)
              /\ delivered (calls w2) = delivered (calls w1)
              /\ buy_number fromisoformat env COUNTRY MAX_PRICE (S fuel) sms w
                 = buy_number fromisoformat env COUNTRY MAX_PRICE fuel sms w2)).
Proof.
  intros Hc. apply checked_prefix_cases in Hc. split.
  - intros fuel sms w. unfold phone_number_send.
    destruct (emits_send_loop 5 fuel sms 0 w) as (new & Hcalls & Hnew & _).
    exists new. split; [exact Hcalls|].
    apply delivered_well_prefixed in Hnew.
    eapply Forall_impl; [exact Hnew|].
    intros number. unfold well_prefixed. rewrite Hc. trivial.
  - intros fuel sms w d w1 s Hv Hn Hs Hpre.
    assert (Hstep : buy_number fromisoformat env COUNTRY MAX_PRICE (S fuel) sms w
                    = bind (activation_admin fromisoformat env sms [] (PStr s)
                              (dict_get d "activationId"))
                        (fun _ => buy_number fromisoformat env COUNTRY MAX_PRICE
                                    fuel sms) w1).
    { cbn [buy_number]. unfold bind at 1.
      rewrite (request_number_wrong_prefix p sms w d w1 s Hc Hv Hn Hs Hpre).
      unfold bind.
      destruct (activation_admin fromisoformat env sms [] (PStr s)
                  (dict_get d "activationId") w1) as [[?|?|] ?]; reflexivity. }
    split; [exact Hstep|]. intros Hcech.
    destruct (activation_admin_effect sms [] (PStr s)
                (dict_get d "activationId") w1 Hcech)
      as (w0 & w2 & Hadm & _ & _ & _ & Hdel & _).
    exists w2. split; [exact Hadm|]. split; [exact Hdel|].
    rewrite Hstep. unfold bind. rewrite Hadm. reflexivity.
Qed.

Lemma rentals_app evs1 evs2 :
  rentals (evs1 ++ evs2) = (rentals evs1 + rentals evs2)%nat.
Proof.
  induction evs1 as [|[] evs1 IH]; simpl; rewrite ?IH; reflexivity.
Qed.

(** [verification_number] when the country is known and the provider
    answers with a dict. *)
Lemma verification_number_returns sms service country max_price w cid d :
  get_country_id env (EGetCountryId country :: calls w) = Returns cid ->
  getNumberV2 env (EGetNumberV2 service cid max_price
                   :: EGetCountryId country :: calls w) = Returns d ->
  exists w1,
    verification_number env sms service country max_price w
    = (Ok (normalise d), w1)
    /\ calls w1 = EGetNumberV2 service cid max_price
                  :: EGetCountryId country :: calls w
    /\ activations w1 = activations w /\ cech w1 = cech w
    /\ clock w <= clock w1.
Proof.
  intros Hcid Hnum. unfold verification_number, bind, try_except, call, ret.
  rewrite Hcid. simpl. rewrite Hnum. simpl.
  eexists. split; [reflexivity|]. simpl. repeat split. lia.
Qed.

Section NoNumbers.

Hypothesis country_known : forall h, exists cid, get_country_id env h = Returns cid.
Hypothesis nothing_to_rent :
  forall h, exists d err,
    getNumberV2 env h = Returns d
    /\ truthy (dict_get (normalise d) "phoneNumber") = false
    /\ normalise d !! "error" = Some err /\ truthy err = true.

(** With a provider that only ever reports that it has no numbers, the
    inner loop uses every pass it is given on a new request. *)
Lemma buy_number_no_numbers fuel sms w :
  exists w',
    buy_number fromisoformat env COUNTRY MAX_PRICE fuel sms w = (OutOfFuel, w')
    /\ rentals (calls w') = (rentals (calls w) + fuel)%nat
    /\ delivered (calls w') = delivered (calls w).
Proof.
  revert w. induction fuel as [|fuel IH]; intros w.
  - exists w. simpl. repeat split. lia.
  - destruct (country_known (EGetCountryId COUNTRY :: calls w)) as (cid & Hcid).
    destruct (nothing_to_rent
                (EGetNumberV2 "tg" cid (max_price_for MAX_PRICE sms)
                 :: EGetCountryId COUNTRY :: calls w))
      as (d & err & Hd & Hphone & Herr & Htruthy).
    destruct (verification_number_returns sms "tg" COUNTRY _ w cid d Hcid Hd)
      as (w1 & Hv & Hcalls & _).
    destruct (IH w1) as (w' & Hrun & Hrent & Hdel).
    exists w'. cbn [buy_number]. unfold bind at 1.
    rewrite (request_number_no_phone sms w _ w1 Hv Hphone), Herr, Htruthy.
    split; [exact Hrun|]. rewrite Hrent, Hdel, Hcalls. simpl. split; [lia|].
    reflexivity.
Qed.

Lemma phone_number_send_no_numbers fuel sms w :
  exists w',
    phone_number_send isoformat fromisoformat env COUNTRY MAX_PRICE fuel sms w
    = (OutOfFuel, w')
    /\ rentals (calls w') = (rentals (calls w) + fuel)%nat
    /\ delivered (calls w') = delivered (calls w).
Proof.
  destruct (buy_number_no_numbers fuel sms w) as (w' & Hrun & Hrent & Hdel).
  exists w'. unfold phone_number_send. cbn [send_loop Z.ltb Z.compare negb].
  unfold try_except, send_attempt, bind. rewrite Hrun.
  repeat split; assumption.
Qed.

End NoNumbers.

Section NoErrorKey.

Hypothesis country_found : forall h, exists cid, get_country_id env h = Returns cid.
Hypothesis bare_reply :
  forall h, exists d,
    getNumberV2 env h = Returns d
    /\ truthy (dict_get (normalise d) "phoneNumber") = false
    /\ normalise d !! "error" = None.

Lemma send_attempt_key_error fuel sms w :
  exists w1,
    send_attempt isoformat fromisoformat env COUNTRY MAX_PRICE (S fuel) sms w
    = (Raise (KeyError "'error'"), w1)
    /\ rentals (calls w1) = S (rentals (calls w))
    /\ delivered (calls w1) = delivered (calls w).
Proof.
  destruct (country_found (EGetCountryId COUNTRY :: calls w)) as (cid & Hcid).
  destruct (bare_reply
              (EGetNumberV2 "tg" cid (max_price_for MAX_PRICE sms)
               :: EGetCountryId COUNTRY :: calls w))
    as (d & Hd & Hphone & Herr).
  destruct (verification_number_returns sms "tg" COUNTRY _ w cid d Hcid Hd)
    as (w1 & Hv & Hcalls & _).
  exists w1. unfold send_attempt. cbn [buy_number]. unfold bind.
  rewrite (request_number_no_phone sms w _ w1 Hv Hphone), Herr.
  rewrite Hcalls. repeat split.
Qed.

(** A reply with neither a number nor an [error] key costs one attempt
    of the outer loop, and the next attempt rents again. *)
Lemma send_loop_key_error rounds fuel sms attempt w :
  0 <= attempt < 5 -> (Z.to_nat (5 - attempt) <= rounds)%nat ->
  exists w',
    send_loop isoformat fromisoformat env COUNTRY MAX_PRICE rounds (S fuel)
      sms attempt w = (Ok SentFalse, w')
    /\ rentals (calls w') = (rentals (calls w) + Z.to_nat (5 - attempt))%nat
    /\ delivered (calls w') = delivered (calls w).
Proof.
  revert attempt w. induction rounds as [|rounds IH]; intros attempt w Ha Hr;
    [lia|].
  cbn [send_loop]. destruct (Z.ltb_spec attempt 5) as [_|]; [|lia].
  cbn [negb]. unfold try_except.
  destruct (send_attempt_key_error fuel sms w) as (w1 & Hrun & Hrent & Hdel).
  rewrite Hrun. destruct (Z.leb_spec 5 (attempt + 1)) as [Hlast|Hmore].
  - exists w1. split; [reflexivity|]. rewrite Hrent, Hdel.
    split; [|reflexivity]. replace attempt with 4 by lia. simpl. lia.
  - destruct (IH (attempt + 1) w1) as (w' & Hrest & Hrent' & Hdel');
      [lia|lia|].
    exists w'. split; [exact Hrest|]. rewrite Hrent', Hdel', Hrent, Hdel.
    split; [|reflexivity].
    replace (5 - attempt) with (Z.succ (5 - (attempt + 1))) by lia.
    rewrite Z2Nat.inj_succ by lia. lia.
Qed.

End NoErrorKey.

(** C5, as the code has it.  On a number with the wrong prefix
    [activation_admin] is run for its activation id before the next
    request.  It calls [setStatus(id, 8)] exactly when [can_set_status_8]
    answers [True] at that time, that is only for an id the ledger already
    holds; for an id that the ledger does not hold it calls nothing at the
    provider and leaves the ledger as it is. *)
Theorem wrong_prefix_cancel_is_gated (p : string) fuel sms w d w1 s :
  (COUNTRY = "USA" /\ p = "+1") \/ (COUNTRY = "United Kingdom" /\ p = "+44") ->
  verification_number env sms "tg" COUNTRY (max_price_for MAX_PRICE sms) w
  = (Ok d, w1) ->
  dict_get d "phoneNumber" = PStr s -> s <> "" -> startswith s p = false ->
  cech w1 <> Corrupt ->
  exists w0 w2,
    activation_admin fromisoformat env sms [] (PStr s)
      (dict_get d "activationId") w1 = (Ok CECH_PATH, w2)
    /\ buy_number fromisoformat env COUNTRY MAX_PRICE (S fuel) sms w
       = buy_number fromisoformat env COUNTRY MAX_PRICE fuel sms w2
    /\ clock w1 <= clock w0
    /\ status_changes (calls w2)
       = ((if answered_true
                (Ledger.can_set_status_8 fromisoformat (clock w0)
                   (dict_get d "activationId") Ledger.default_min_age_seconds
                   (activations w1))
           then [(dict_get d "activationId", 8)] else [])
          ++ status_changes (calls w1))%list
    /\ (Ledger.recorded (dict_get d "activationId") (activations w1) = false ->
        status_changes (calls w2) = status_changes (calls w1)
        /\ activations w2 = activations w1).
Proof.
  intros Hc Hv Hn Hs Hpre Hcech. apply checked_prefix_cases in Hc.
  destruct (activation_admin_effect sms [] (PStr s)
              (dict_get d "activationId") w1 Hcech)
    as (w0 & w2 & Hadm & Hclk & _ & Hst & _ & _ & Hgate).
  exists w0, w2. split; [exact Hadm|]. split.
  { cbn [buy_number]. unfold bind at 1.
    rewrite (request_number_wrong_prefix p sms w d w1 s Hc Hv Hn Hs Hpre).
    unfold bind. rewrite Hadm. reflexivity. }
  split; [exact Hclk|].
  destruct (answered_true _) eqn:Hans.
  - destruct Hgate as [Hcalls Hact]. split.
    + rewrite Hcalls. simpl. rewrite Hst. reflexivity.
    + intros Hrec. exfalso.
      rewrite (LedgerFacts.can_set_status_8_unrecorded _ _ _ _ _ Hrec) in Hans.
      discriminate.
  - destruct Hgate as [Hcalls Hact]. rewrite Hcalls, Hst.
    split; [reflexivity|]. intros _. split; [reflexivity|exact Hact].
Qed.

(** C10.  For a requested country other than USA and United Kingdom, a
    reply that carries a (truthy) [phoneNumber] leaves the inner loop at
    once, whatever the number looks like, and the next call made is
    [telegram.input_phone_number] with that number; when that call
    returns, the rental is recorded and [phone_number_send] returns the
    id, the number and the cost. *)
Theorem unchecked_country_delivers fuel sms w d w1 :
  COUNTRY <> "USA" -> COUNTRY <> "United Kingdom" ->
  verification_number env sms "tg" COUNTRY (max_price_for MAX_PRICE sms) w
  = (Ok d, w1) ->
  truthy (dict_get d "phoneNumber") = true ->
  buy_number fromisoformat env COUNTRY MAX_PRICE (S fuel) sms w
  = (Ok (Bought (dict_get d "activationId") (dict_get d "phoneNumber")
           (dict_get d "activationCost")), w1)
  /\ (exists w2,
        calls w2 = EInputPhoneNumber (dict_get d "phoneNumber") :: calls w1
        /\ send_attempt isoformat fromisoformat env COUNTRY MAX_PRICE (S fuel)
             sms w
           = (match input_phone_number env
                      (EInputPhoneNumber (dict_get d "phoneNumber") :: calls w1)
              with
              | Returns _ => Ok (Sent (dict_get d "activationId")
                                   (dict_get d "phoneNumber")
                                   (dict_get d "activationCost"))
              | Throws e => Raise e
              end, w2)
        /\ (returned (input_phone_number env
                        (EInputPhoneNumber (dict_get d "phoneNumber")
                         :: calls w1)) = true ->
            phone_number_send isoformat fromisoformat env COUNTRY MAX_PRICE
              (S fuel) sms w
            = (Ok (Sent (dict_get d "activationId") (dict_get d "phoneNumber")
                     (dict_get d "activationCost")), w2)
            /\ activations w2
               = Ledger.save_activation_to_json isoformat (clock w2)
                   (dict_get d "activationId") (dict_get d "phoneNumber")
                   (activations w1)))
  /\ In (EInputPhoneNumber (dict_get d "phoneNumber"))
        (calls (snd (phone_number_send isoformat fromisoformat env COUNTRY
                       MAX_PRICE (S fuel) sms w))).
Proof.
  intros Hus Huk Hv Hp.
  assert (Hc : checked_prefix COUNTRY = None)
    by (apply checked_prefix_none; split; assumption).
  assert (Hbuy : buy_number fromisoformat env COUNTRY MAX_PRICE (S fuel) sms w
                 = (Ok (Bought (dict_get d "activationId")
                          (dict_get d "phoneNumber")
                          (dict_get d "activationCost")), w1)).
  { cbn [buy_number]. unfold bind.
    rewrite (request_number_unchecked sms w d w1 Hc Hv Hp). reflexivity. }
  split; [exact Hbuy|].
  set (phone := dict_get d "phoneNumber") in *.
  set (id := dict_get d "activationId") in *.
  set (price := dict_get d "activationCost") in *.
  set (attempt := send_attempt isoformat fromisoformat env COUNTRY MAX_PRICE
                    (S fuel) sms w).
  assert (Hatt : attempt
                 = bind (call env (EInputPhoneNumber phone) input_phone_number)
                     (fun _ => bind (save_activation_to_json isoformat id phone)
                                 (fun _ => ret (Sent id phone price))) w1).
  { subst attempt. unfold send_attempt. unfold bind at 1. rewrite Hbuy.
    reflexivity. }
  assert (Hshape : calls (snd attempt) = EInputPhoneNumber phone :: calls w1
            /\ fst attempt
               = match input_phone_number env (EInputPhoneNumber phone :: calls w1)
                 with
                 | Returns _ => Ok (Sent id phone price)
                 | Throws e => Raise e
                 end
            /\ (returned (input_phone_number env
                            (EInputPhoneNumber phone :: calls w1)) = true ->
                activations (snd attempt)
                = Ledger.save_activation_to_json isoformat (clock (snd attempt))
                    id phone (activations w1))).
  { rewrite Hatt. unfold bind, call, save_activation_to_json, ret.
    destruct (input_phone_number env (EInputPhoneNumber phone :: calls w1));
      simpl; repeat split. discriminate. }
  destruct Hshape as (Hcalls & Hres & Hsave).
  assert (Hsend : phone_number_send isoformat fromisoformat env COUNTRY
                    MAX_PRICE (S fuel) sms w
                  = try_except (fun _ => attempt)
                      (fun e => send_loop isoformat fromisoformat env COUNTRY
                                  MAX_PRICE 4 (S fuel) sms 1) w).
  { reflexivity. }
  split.
  - exists (snd attempt). split; [exact Hcalls|]. split.
    + rewrite <- Hres. destruct attempt. reflexivity.
    + intros Hret. split; [|exact (Hsave Hret)].
      rewrite Hsend. unfold try_except.
      destruct attempt as [r w2]. simpl in *. rewrite Hres.
      destruct (input_phone_number env _); [reflexivity|discriminate].
  - rewrite Hsend. unfold try_except.
    destruct attempt as [[a|e|] w2]; cbn [fst snd] in *.
    + rewrite Hcalls. left. reflexivity.
    + destruct (emits_send_loop 4 (S fuel) sms 1 w2) as (new & Hnew & _).
      rewrite Hnew, Hcalls. apply in_or_app. right. left. reflexivity.
    + rewrite Hcalls. left. reflexivity.
Qed.

(** Five passes of the outer loop are all it can make: more change
    nothing. *)
Lemma send_loop_rounds rounds fuel sms attempt w :
  0 <= attempt -> (Z.to_nat (5 - attempt) <= rounds)%nat ->
  send_loop isoformat fromisoformat env COUNTRY MAX_PRICE rounds fuel sms
    attempt w
  = send_loop isoformat fromisoformat env COUNTRY MAX_PRICE
      (Z.to_nat (5 - attempt)) fuel sms attempt w.
Proof.
  revert attempt w. induction rounds as [|rounds IH]; intros attempt w Ha Hr.
  - replace (Z.to_nat (5 - attempt)) with 0%nat by lia. reflexivity.
  - destruct (Z.ltb_spec attempt 5) as [Hlt|Hge].
    + replace (Z.to_nat (5 - attempt))
        with (S (Z.to_nat (5 - (attempt + 1)))) by lia.
      cbn [send_loop]. destruct (Z.ltb_spec attempt 5) as [_|]; [|lia].
      cbn [negb]. unfold try_except.
      destruct (send_attempt _ _ _ _ _ _ _ w) as [[r|e|] w1]; try reflexivity.
      destruct (5 <=? attempt + 1); [reflexivity|].
      apply IH; lia.
    + replace (Z.to_nat (5 - attempt)) with 0%nat by lia.
      cbn [send_loop]. destruct (Z.ltb_spec attempt 5) as [|_]; [lia|].
      reflexivity.
Qed.

(** The outer loop never falls through: [phone_number_send] does not
    return [None]. *)
Lemma send_loop_not_none rounds fuel sms attempt w :
  0 <= attempt < 5 ->
  fst (send_loop isoformat fromisoformat env COUNTRY MAX_PRICE rounds fuel sms
         attempt w) <> Ok SentNone.
Proof.
  revert attempt w. induction rounds as [|rounds IH]; intros attempt w Ha;
    cbn [send_loop]; (destruct (Z.ltb_spec attempt 5) as [_|]; [|lia]);
    cbn [negb]; [discriminate|].
  unfold try_except.
  destruct (send_attempt _ _ _ _ _ _ _ w) as [[r|e|] w1] eqn:Hatt;
    cbn [fst]; try discriminate.
  - unfold send_attempt, bind in Hatt.
    destruct (buy_number _ _ _ _ _ _ w) as [[[| |]|?|] ?]; cbn in Hatt;
      try (injection Hatt as <- _; discriminate); try discriminate.
    unfold call, save_activation_to_json, ret in Hatt.
    destruct (input_phone_number env _); cbn in Hatt;
      [injection Hatt as <- _|]; discriminate.
  - destruct (Z.leb_spec 5 (attempt + 1)); [discriminate|]. apply IH. lia.
Qed.

(** The polling loop ends: with a positive interval, as many passes as
    sleeps fit before the deadline, and one more, are enough whatever the
    provider answers. *)
Lemma poll_terminates fuel id deadline poll_interval w :
  0 < poll_interval ->
  deadline - clock w <= Z.of_nat fuel * (poll_interval * usec_per_sec) ->
  fst (poll env (S fuel) id deadline poll_interval w) <> OutOfFuel.
Proof.
  intros Hpos. revert w. induction fuel as [|fuel IH]; intros w Hfuel.
  - cbn [poll]. unfold bind, get_world, ret.
    destruct (Z.ltb_spec (clock w) deadline); [lia|]. discriminate.
  - remember (S fuel) as n eqn:Hn. cbn [poll]. unfold bind at 1.
    cbn [get_world]. destruct (Z.ltb_spec (clock w) deadline) as [Hlt|Hge];
      [|discriminate].
    cbn [negb].
    assert (Hsleep : forall w0, clock w <= clock w0 ->
              fst ((run sleep env poll_interval;
                    poll env n id deadline poll_interval) w0) <> OutOfFuel).
    { intros w0 Hw0. unfold bind, sleep, call. cbn. subst n. apply IH.
      cbn [clock]. unfold usec_per_sec in *. nia. }
    assert (Hstatus : forall st w0, clock w <= clock w0 ->
              fst ((if negb (status_truthy st)
                    then run sleep env poll_interval;
                         poll env n id deadline poll_interval
                    else if truthy (extract_code st)
                         then run try_except
                                    (call env (ESetStatus id 6) setStatus)
                                    (fun _ => ret tt);
                              ret (Some (extract_code st))
                         else run sleep env poll_interval;
                              poll env n id deadline poll_interval) w0)
              <> OutOfFuel).
    { intros st w0 Hw0. destruct (negb (status_truthy st)); [auto|].
      destruct (truthy (extract_code st)); [|auto].
      unfold bind, try_except, call, ret.
      destruct (setStatus env _); discriminate. }
    unfold bind at 1, try_except, bind at 1, call at 1.
    destruct (getStatusV2 env (EGetStatusV2 id true :: calls w)) as [st|e].
    + cbn [ret]. apply Hstatus. cbn [clock]. lia.
    + destruct (is_TypeError e).
      * unfold bind at 1, call at 1.
        destruct (getStatusV2 env _) as [st|e']; [|discriminate].
        cbn [ret]. apply Hstatus. cbn [clock]. lia.
      * unfold bind at 1, sleep at 1, call at 1. cbn [ret].
        subst n. apply IH. cbn [clock]. unfold usec_per_sec in *. nia.
Qed.

Section NoCode.

Hypothesis never_a_code : forall h, no_code (getStatusV2 env h) = true.

(** A pass of the polling loop that brings no code ends in the sleep. *)
Lemma poll_step fuel id deadline poll_interval w :
  clock w < deadline ->
  exists w2,
    poll env (S fuel) id deadline poll_interval w
    = poll env fuel id deadline poll_interval w2
    /\ clock w + poll_interval * usec_per_sec <= clock w2
    /\ activations w2 = activations w /\ cech w2 = cech w
    /\ status_changes (calls w2) = status_changes (calls w).
Proof.
  intros Hlt. cbn [poll]. unfold bind at 1. cbn [get_world].
  destruct (Z.ltb_spec (clock w) deadline) as [_|]; [|lia]. cbn [negb].
  pose proof (never_a_code (EGetStatusV2 id true :: calls w)) as Hno.
  unfold no_code in Hno.
  unfold bind at 1, try_except, bind at 1, call at 1.
  destruct (getStatusV2 env (EGetStatusV2 id true :: calls w)) as [st|e].
  - apply negb_true_iff in Hno. cbn [ret].
    destruct (status_truthy st); cbn [negb].
    + cbn [andb] in Hno. rewrite Hno.
      unfold bind, sleep, call. eexists. split; [reflexivity|].
      simpl. repeat split. unfold usec_per_sec. lia.
    + unfold bind, sleep, call. eexists. split; [reflexivity|].
      simpl. repeat split. unfold usec_per_sec. lia.
  - apply negb_true_iff in Hno. rewrite Hno.
    unfold bind, sleep, call, ret. eexists. split; [reflexivity|].
    simpl. repeat split. unfold usec_per_sec. lia.
Qed.

(** The polling loop that never gets a code runs until the deadline and
    needs no more passes than sleeps fit before it. *)
Lemma poll_to_deadline fuel id deadline poll_interval w :
  0 < poll_interval ->
  deadline - clock w <= Z.of_nat fuel * (poll_interval * usec_per_sec) ->
  exists w1,
    poll env (S fuel) id deadline poll_interval w = (Ok None, w1)
    /\ deadline <= clock w1
    /\ (deadline <= clock w -> w1 = w)
    /\ activations w1 = activations w /\ cech w1 = cech w
    /\ status_changes (calls w1) = status_changes (calls w).
Proof.
  intros Hpos. revert w. induction fuel as [|fuel IH]; intros w Hfuel.
  - exists w. cbn [poll]. unfold bind, get_world, ret.
    destruct (Z.ltb_spec (clock w) deadline); [lia|].
    repeat split. lia.
  - destruct (Z.ltb_spec (clock w) deadline) as [Hlt|Hge].
    + destruct (poll_step (S fuel) id deadline poll_interval w Hlt)
        as (w2 & Hstep & Hclk & Hact & Hcech & Hst).
      destruct (IH w2) as (w1 & Hrun & Hdl & _ & Hact1 & Hcech1 & Hst1).
      { unfold usec_per_sec in *. nia. }
      exists w1. rewrite Hstep. split; [exact Hrun|]. split; [exact Hdl|].
      split; [lia|]. rewrite Hact1, Hcech1, Hst1. repeat split; assumption.
    + exists w. cbn [poll]. unfold bind, get_world, ret.
      destruct (Z.ltb_spec (clock w) deadline); [lia|].
      repeat split. lia.
Qed.

(** C6, as the code has it.  When no code comes before the deadline of
    300 seconds, [check_verif_status] itself calls [setStatus(id, 8)],
    without asking the ledger, and returns the empty string;
    [register_telegram_account] then runs [activation_admin] and returns
    [False].  [activation_admin] asks the ledger: only on the answer
    [True] does it call [setStatus(id, 8)] once more, and only when that
    call returns is the id taken off the ledger; otherwise the ledger
    stays as it was.  For an id recorded no later than the start of the
    polling, with a provider that accepts the calls, the id ends up off
    the ledger. *)
Theorem code_timeout_release fuel sms last_names phone id w :
  (60 <= fuel)%nat ->
  exists w1 w2 w',
    poll env (S fuel) id (clock w + 300 * usec_per_sec) 5 w = (Ok None, w1)
    /\ check_verif_status env (S fuel) id 300 5 w = (Ok (PStr ""), w2)
    /\ calls w2 = ESetStatus id 8 :: calls w1
    /\ activations w2 = activations w
    /\ wait_for_code fromisoformat env (S fuel) sms last_names phone id w
       = (Ok ReturnFalse, w')
    /\ (cech w <> Corrupt ->
        exists w0,
          clock w + 300 * usec_per_sec <= clock w0
          /\ (if answered_true
                   (Ledger.can_set_status_8 fromisoformat (clock w0) id
                      Ledger.default_min_age_seconds (activations w))
              then status_changes (calls w')
                   = (id, 8) :: (id, 8) :: status_changes (calls w)
                   /\ activations w'
                      = (if returned (setStatus env (ESetStatus id 8 :: calls w0))
                         then Ledger.remove_activation_from_json id
                                (activations w)
                         else activations w)
              else status_changes (calls w')
                   = (id, 8) :: status_changes (calls w)
                   /\ activations w' = activations w)
          /\ (forall row s created,
                Ledger.first_row id (activations w) = Some row ->
                dict_get row "created_at" = PStr s -> s <> "" ->
                fromisoformat s = Some (Naive created) ->
                created <= clock w ->
                returned (setStatus env (ESetStatus id 8 :: calls w0)) = true ->
                Ledger.recorded id (activations w') = false)).
Proof.
  intros Hfuel.
  destruct (poll_to_deadline fuel id (clock w + 300 * usec_per_sec) 5 w)
    as (w1 & Hpoll & Hdl & _ & Hact1 & Hcech1 & Hst1); [lia| |].
  { unfold usec_per_sec. lia. }
  set (w2 := snd (try_except (call env (ESetStatus id 8) setStatus)
                    (fun _ => ret tt) w1)).
  assert (Hcancel : try_except (call env (ESetStatus id 8) setStatus)
                      (fun _ => ret tt) w1 = (Ok tt, w2)
                    /\ calls w2 = ESetStatus id 8 :: calls w1
                    /\ activations w2 = activations w1
                    /\ cech w2 = cech w1 /\ clock w1 <= clock w2).
  { subst w2. unfold try_except, call, ret.
    destruct (setStatus env (ESetStatus id 8 :: calls w1)) as [[]|e]; simpl;
      repeat split; lia. }
  destruct Hcancel as (Hcancel & Hcalls2 & Hact2 & Hcech2 & Hclk2).
  assert (Hcheck : check_verif_status env (S fuel) id 300 5 w
                   = (Ok (PStr ""), w2)).
  { unfold check_verif_status. unfold bind at 1. cbn [get_world].
    unfold bind at 1. rewrite Hpoll. unfold bind. rewrite Hcancel.
    reflexivity. }
  destruct (activation_admin fromisoformat env sms last_names phone id w2)
    as [r w'] eqn:Hadm.
  pose proof (activation_admin_returns_or_raises sms last_names phone id w2)
    as Hr. rewrite Hadm in Hr. cbn [fst] in Hr.
  exists w1, w2, w'. split; [exact Hpoll|]. split; [exact Hcheck|].
  split; [exact Hcalls2|]. split; [congruence|]. split.
  { unfold wait_for_code, try_except, bind. rewrite Hcheck.
    cbn [truthy String.eqb negb]. rewrite Hadm.
    destruct r; [reflexivity|reflexivity|contradiction]. }
  intros Hcech.
  destruct (activation_admin_effect sms last_names phone id w2)
    as (w0 & w'' & Hadm' & Hclk0 & _ & Hst0 & _ & _ & Hgate).
  { rewrite Hcech2, Hcech1. exact Hcech. }
  rewrite Hadm in Hadm'. injection Hadm' as _ <-.
  rewrite Hact2, Hact1 in Hgate.
  exists w0. split; [lia|]. split.
  - destruct (answered_true _); destruct Hgate as [Hc Ha]; rewrite Hc;
      cbn [status_changes]; rewrite ?Hst0, Hcalls2; cbn [status_changes];
      rewrite Hst1; (split; [reflexivity|exact Ha]).
  - intros row s created Hrow Hcreated Hs Hiso Hold Hret.
    assert (Hans : Ledger.can_set_status_8 fromisoformat (clock w0) id
                     Ledger.default_min_age_seconds (activations w)
                   = Ledger.Verdict true).
    { unfold Ledger.can_set_status_8. unfold Ledger.first_row in Hrow.
      rewrite (LedgerFacts.scan_rows_first _ _ _ _ _ _ Hrow).
      unfold Ledger.judge_row.
      rewrite Hcreated, (LedgerFacts.truthy_PStr s Hs). cbn [negb].
      rewrite Hiso. f_equal. apply Z.leb_le.
      unfold Ledger.default_min_age_seconds, usec_per_sec in *. lia. }
    rewrite Hans in Hgate. cbn [answered_true] in Hgate.
    destruct Hgate as [_ Ha]. rewrite Ha, Hret.
    apply LedgerFacts.recorded_after_remove.
Qed.

End NoCode.

End Facts.
End ReggerFacts.

(* ===================================================================== *)
(** ** The samples, run                                                  *)
(* ===================================================================== *)

Module Runs.
Import Regger ReggerFacts.

Lemma sample_country_known (answer : list event -> reply pydict) on_set h :
  exists cid, get_country_id (Sample.provider answer on_set) h = Returns cid.
Proof. exists 187. reflexivity. Qed.

(** C4.  A provider that answers every request with an error payload and
    no number keeps [phone_number_send] in its inner loop: however many
    passes the loop is given, it makes that many rental requests and has
    still not returned; the bound of 5 attempts is never consulted. *)
Theorem no_numbers_retried_without_bound
    (COUNTRY : string) (MAX_PRICE : pyval) (sms : SmsApi) (fuel : nat) :
  exists w',
    phone_number_send Sample.isoformat Sample.fromisoformat Sample.no_numbers
      COUNTRY MAX_PRICE fuel sms Sample.fresh = (OutOfFuel, w')
    /\ rentals (calls w') = fuel
    /\ delivered (calls w') = [].
Proof.
  destruct (phone_number_send_no_numbers Sample.isoformat Sample.fromisoformat
              Sample.no_numbers COUNTRY MAX_PRICE
              (sample_country_known _ _)) with (fuel := fuel) (sms := sms)
              (w := Sample.fresh) as (w' & Hrun & Hrent & Hdel).
  - intros h. exists ({["error" := PStr "NO_NUMBERS"]} : pydict), (PStr "NO_NUMBERS").
    repeat split; reflexivity.
  - exists w'. repeat split; assumption.
Qed.

(** C7.  A reply with neither a number nor an [error] key is not
    propagated at once: reading [num_data['error']] raises [KeyError],
    the handler of the outer loop takes it, and the number is requested
    again, five times in all, before [False] is returned.  Only a reply
    whose [error] entry is present and falsy returns [False] after the
    single request. *)
Theorem missing_error_key_is_retried
    (COUNTRY : string) (MAX_PRICE : pyval) (sms : SmsApi) (fuel : nat) :
  (exists w',
     phone_number_send Sample.isoformat Sample.fromisoformat Sample.empty_reply
       COUNTRY MAX_PRICE (S fuel) sms Sample.fresh = (Ok SentFalse, w')
     /\ rentals (calls w') = 5%nat)
  /\ (exists w',
        phone_number_send Sample.isoformat Sample.fromisoformat
          Sample.blank_error COUNTRY MAX_PRICE (S fuel) sms Sample.fresh
        = (Ok SentFalse, w')
        /\ rentals (calls w') = 1%nat).
Proof.
  split.
  - destruct (send_loop_key_error Sample.isoformat Sample.fromisoformat
                Sample.empty_reply COUNTRY MAX_PRICE
                (sample_country_known _ _)) with (rounds := 5%nat)
                (fuel := fuel) (sms := sms) (attempt := 0) (w := Sample.fresh)
      as (w' & Hrun & Hrent & _).
    + intros h. exists (∅ : pydict). repeat split; reflexivity.
    + lia.
    + simpl. lia.
    + exists w'. split; [exact Hrun|]. rewrite Hrent. reflexivity.
  - destruct (verification_number_returns Sample.blank_error sms "tg" COUNTRY
                (max_price_for MAX_PRICE sms) Sample.fresh 187
                ({["error" := PStr ""]} : pydict) eq_refl eq_refl)
      as (w1 & Hv & Hcalls & _).
    exists w1. split.
    + apply (phone_number_send_give_up _ _ _ _ _ fuel sms _ _ _ (PStr "") Hv);
        reflexivity.
    + rewrite Hcalls. reflexivity.
Qed.

(** The world after the first, British, reply of the sample provider. *)
Lemma first_reply_british (answer : list event -> reply pydict) :
  answer [EGetNumberV2 "tg" 187 (Some Sample.MAX_PRICE); EGetCountryId "USA"]
  = Returns Sample.british_42 ->
  verification_number (Sample.provider answer (Returns tt)) Sample.sms "tg"
    "USA" (max_price_for Sample.MAX_PRICE Sample.sms) Sample.fresh
  = (Ok Sample.british_42,
     mkWorld None Absent false 0
       [EGetNumberV2 "tg" 187 (Some Sample.MAX_PRICE); EGetCountryId "USA"]).
Proof.
  intros H. unfold verification_number, bind, try_except, call, ret.
  cbn. rewrite H. reflexivity.
Qed.

Lemma wrong_prefix_never_delivered_witness :
  (exists new,
     calls (snd (phone_number_send Sample.isoformat Sample.fromisoformat
                   Sample.british_then_american "USA" Sample.MAX_PRICE 5
                   Sample.sms Sample.fresh)) = (new ++ [])%list
     /\ Forall (fun number => exists s, number = PStr s
                                        /\ startswith s "+1" = true)
               (delivered new))
  /\ exists w2,
       buy_number Sample.fromisoformat Sample.british_then_american "USA"
         Sample.MAX_PRICE 5 Sample.sms Sample.fresh
       = buy_number Sample.fromisoformat Sample.british_then_american "USA"
           Sample.MAX_PRICE 4 Sample.sms w2.
Proof.
  destruct (wrong_prefix_never_delivered Sample.isoformat Sample.fromisoformat
              Sample.british_then_american "USA" Sample.MAX_PRICE "+1"
              (or_introl (conj eq_refl eq_refl))) as [Hsafe Hdrop].
  split; [exact (Hsafe 5%nat Sample.sms Sample.fresh)|].
  destruct (Hdrop 4%nat Sample.sms Sample.fresh Sample.british_42 _
              "+447911123456" (first_reply_british _ eq_refl) eq_refl
              ltac:(discriminate) eq_refl) as [_ Hnext].
  destruct (Hnext ltac:(discriminate)) as (w2 & _ & _ & Heq).
  exists w2. exact Heq.
Defined.

(** C5: the first number rented for a USA request is British, with
    activation id 42; it is dropped and a second one is rented and
    delivered, and at no point is [setStatus] called. *)
Lemma wrong_prefix_rental_not_cancelled :
  getNumberV2 Sample.british_then_american
    [EGetNumberV2 "tg" 187 (Some Sample.MAX_PRICE); EGetCountryId "USA"]
  = Returns Sample.british_42
  /\ fst (phone_number_send Sample.isoformat Sample.fromisoformat
            Sample.british_then_american "USA" Sample.MAX_PRICE 5 Sample.sms
            Sample.fresh)
     = Ok (Sent (PStr "43") (PStr "+15551234567") (PFloat "0.1"))
  /\ calls (snd (phone_number_send Sample.isoformat Sample.fromisoformat
                   Sample.british_then_american "USA" Sample.MAX_PRICE 5
                   Sample.sms Sample.fresh))
     = [EInputPhoneNumber (PStr "+15551234567");
        EGetNumberV2 "tg" 187 (Some Sample.MAX_PRICE); EGetCountryId "USA";
        ERandint 0 100;
        EGetNumberV2 "tg" 187 (Some Sample.MAX_PRICE); EGetCountryId "USA"]
  /\ ~ In (ESetStatus (PStr "42") 8)
          (calls (snd (phone_number_send Sample.isoformat Sample.fromisoformat
                         Sample.british_then_american "USA" Sample.MAX_PRICE 5
                         Sample.sms Sample.fresh))).
Proof.
  assert (Hcalls : calls (snd (phone_number_send Sample.isoformat
                     Sample.fromisoformat Sample.british_then_american "USA"
                     Sample.MAX_PRICE 5 Sample.sms Sample.fresh))
     = [EInputPhoneNumber (PStr "+15551234567");
        EGetNumberV2 "tg" 187 (Some Sample.MAX_PRICE); EGetCountryId "USA";
        ERandint 0 100;
        EGetNumberV2 "tg" 187 (Some Sample.MAX_PRICE); EGetCountryId "USA"])
    by (vm_compute; reflexivity).
  split; [reflexivity|]. split; [vm_compute; reflexivity|].
  split; [exact Hcalls|]. rewrite Hcalls. simpl.
  intros [H|[H|[H|[H|[H|[H|[]]]]]]]; discriminate H.
Qed.

Lemma wrong_prefix_cancel_is_gated_witness :
  exists w2,
    buy_number Sample.fromisoformat Sample.british_then_american "USA"
      Sample.MAX_PRICE 5 Sample.sms Sample.fresh
    = buy_number Sample.fromisoformat Sample.british_then_american "USA"
        Sample.MAX_PRICE 4 Sample.sms w2
    /\ status_changes (calls w2) = [].
Proof.
  destruct (wrong_prefix_cancel_is_gated Sample.fromisoformat
              Sample.british_then_american "USA" Sample.MAX_PRICE "+1" 4%nat
              Sample.sms Sample.fresh Sample.british_42 _ "+447911123456"
              (or_introl (conj eq_refl eq_refl))
              (first_reply_british _ eq_refl) eq_refl ltac:(discriminate)
              eq_refl ltac:(discriminate))
    as (w0 & w2 & _ & Hnext & _ & _ & Hquiet).
  exists w2. split; [exact Hnext|].
  destruct (Hquiet eq_refl) as [Hst _]. exact Hst.
Defined.

Lemma unchecked_country_delivers_witness :
  In (EInputPhoneNumber (PStr "+447911123456"))
     (calls (snd (phone_number_send Sample.isoformat Sample.fromisoformat
                    Sample.always_british "Germany" Sample.MAX_PRICE 1
                    Sample.sms Sample.fresh))).
Proof.
  refine (proj2 (proj2
    (unchecked_country_delivers Sample.isoformat Sample.fromisoformat
       Sample.always_british "Germany" Sample.MAX_PRICE 0%nat Sample.sms
       Sample.fresh Sample.british_42
       (mkWorld None Absent false 0
          [EGetNumberV2 "tg" 187 (Some Sample.MAX_PRICE);
           EGetCountryId "Germany"])
       _ _ _ eq_refl))).
  - discriminate.
  - discriminate.
  - vm_compute. reflexivity.
Defined.

(** C6: with an id the ledger does not hold, the time-out still calls
    [setStatus(42, 8)], although [can_set_status_8] answers [False] for it
    at every instant; and with a provider that refuses the calls, an id
    recorded 300 seconds before is still on the ledger when the attempt
    has failed. *)
Lemma timeout_cancel_neither_gated_nor_final :
  (status_changes
     (calls (snd (wait_for_code Sample.fromisoformat Sample.silent 61
                    Sample.sms [] (PStr "+15551234567") (PStr "42")
                    Sample.fresh)))
   = [(PStr "42", 8)]
   /\ forall now,
        Ledger.can_set_status_8 Sample.fromisoformat now (PStr "42")
          Ledger.default_min_age_seconds (activations Sample.fresh)
        = Ledger.Verdict false)
  /\ (fst (wait_for_code Sample.fromisoformat Sample.unreachable 61
             Sample.sms [] (PStr "+15551234567") (PStr "42")
             Sample.tracked_42) = Ok ReturnFalse
      /\ Ledger.recorded (PStr "42")
           (activations
              (snd (wait_for_code Sample.fromisoformat Sample.unreachable 61
                      Sample.sms [] (PStr "+15551234567") (PStr "42")
                      Sample.tracked_42))) = true).
Proof.
  split; split.
  - vm_compute. reflexivity.
  - intros now. reflexivity.
  - vm_compute. reflexivity.
  - vm_compute. reflexivity.
Qed.

Lemma code_timeout_release_witness :
  fst (wait_for_code Sample.fromisoformat Sample.silent 61 Sample.sms []
         (PStr "+15551234567") (PStr "42") Sample.tracked_42)
  = Ok ReturnFalse.
Proof.
  destruct (code_timeout_release Sample.fromisoformat Sample.silent
              (fun h => eq_refl) 60%nat Sample.sms [] (PStr "+15551234567")
              (PStr "42") Sample.tracked_42 (le_n 60))
    as (w1 & w2 & w' & _ & _ & _ & _ & Hwait & _).
  rewrite Hwait. reflexivity.
Defined.

Lemma can_set_status_8_cases_witness :
  Ledger.can_set_status_8 Sample.fromisoformat 0 (PStr "42")
    Ledger.default_min_age_seconds (activations Sample.tracked_42)
  = Ledger.Verdict false
  /\ Ledger.can_set_status_8 Sample.fromisoformat 300000000 (PStr "42")
       Ledger.default_min_age_seconds (activations Sample.tracked_42)
     = Ledger.Verdict true.
Proof.
  destruct (LedgerClaims.can_set_status_8_cases Sample.isoformat
              Sample.fromisoformat 300000000 (PStr "42")
              Ledger.default_min_age_seconds None) as (_ & _ & Hfresh).
  destruct (Hfresh 0 (PStr "+15551234567") eq_refl ltac:(discriminate) eq_refl)
    as [Hyoung Hold].
  split; [exact Hyoung|]. apply Hold. unfold usec_per_sec. lia.
Defined.

Lemma remove_activation_idempotent_witness :
  Ledger._load_activations
    (Ledger.remove_activation_from_json (PStr "7")
       (activations Sample.tracked_42))
  = Ledger._load_activations (activations Sample.tracked_42).
Proof.
  destruct (LedgerClaims.remove_activation_idempotent (PStr "7")
              (activations Sample.tracked_42) Sample.tracked_42)
    as (_ & _ & _ & _ & Habsent).
  apply Habsent. reflexivity.
Defined.

End Runs.

(* ===================================================================== *)
(** ** More on the ledger                                                *)
(* ===================================================================== *)

Module LedgerMore.
Import Ledger LedgerFacts.

Lemma saved_row_carries_id (iso : datetime -> string) now id phone :
  row_differs id
    (<["activation_id" := PStr (py_str id)]>
     (<["phone_number" := PStr (py_str phone)]>
     (<["created_at" := PStr (iso now)]> (∅ : pydict))))
  = false.
Proof.
  unfold row_differs, dict_get. rewrite lookup_insert_eq. simpl.
  rewrite String.eqb_refl. reflexivity.
Qed.

Lemma saved_row_other_id (iso : datetime -> string) now id id' phone :
  py_str id' <> py_str id ->
  row_differs id'
    (<["activation_id" := PStr (py_str id)]>
     (<["phone_number" := PStr (py_str phone)]>
     (<["created_at" := PStr (iso now)]> (∅ : pydict))))
  = true.
Proof.
  intros Hne. unfold row_differs, dict_get. rewrite lookup_insert_eq. simpl.
  destruct (String.eqb_spec (py_str id) (py_str id')); [congruence|reflexivity].
Qed.

Lemma scan_rows_app_recorded fromiso now min id (data extra : list pydict) :
  forallb (row_differs id) data = false ->
  scan_rows fromiso now min id (data ++ extra)
  = scan_rows fromiso now min id data.
Proof.
  induction data as [|r rest IH]; simpl; [discriminate|].
  destruct (row_differs id r); simpl; [exact IH|reflexivity].
Qed.

Lemma recorded_after_save (isoformat : datetime -> string) now id phone f :
  recorded id (save_activation_to_json isoformat now id phone f) = true.
Proof.
  unfold recorded, save_activation_to_json, _save_activations.
  cbn [_load_activations]. rewrite forallb_app. cbn [forallb].
  rewrite saved_row_carries_id, andb_false_r. reflexivity.
Qed.

(** X1.  Recording and removal compose: after [save_activation_to_json]
    the id is recorded, and a removal that follows leaves exactly the rows
    that a removal without the recording would have left; for an id that
    was not recorded before, these are the rows from before the
    recording. *)
Theorem save_then_remove (isoformat : datetime -> string) (now : datetime)
    (activation_id phone_number : pyval) (f : file) :
  recorded activation_id
    (save_activation_to_json isoformat now activation_id phone_number f)
  = true
  /\ length (_load_activations
               (save_activation_to_json isoformat now activation_id
                  phone_number f))
     = S (length (_load_activations f))
  /\ remove_activation_from_json activation_id
       (save_activation_to_json isoformat now activation_id phone_number f)
     = remove_activation_from_json activation_id f
  /\ (recorded activation_id f = false ->
      _load_activations
        (remove_activation_from_json activation_id
           (save_activation_to_json isoformat now activation_id
              phone_number f))
      = _load_activations f).
Proof.
  assert (Hrm : remove_activation_from_json activation_id
                  (save_activation_to_json isoformat now activation_id
                     phone_number f)
                = remove_activation_from_json activation_id f).
  { unfold remove_activation_from_json, save_activation_to_json,
      _save_activations. cbn [_load_activations].
    rewrite List.filter_app. cbn [List.filter].
    rewrite saved_row_carries_id, app_nil_r. reflexivity. }
  split; [|split; [|split]].
  - apply recorded_after_save.
  - unfold save_activation_to_json, _save_activations.
    cbn [_load_activations]. rewrite length_app. simpl. lia.
  - exact Hrm.
  - intros Hrec. rewrite Hrm. unfold recorded in Hrec.
    apply negb_false_iff in Hrec. simpl.
    exact (filter_differs_absent _ _ Hrec).
Qed.

(** X2.  The oldest record of an id decides: recording an id a second
    time does not change what [can_set_status_8] answers for it, and a
    recording never changes the answer for any other id. *)
Theorem save_keeps_verdicts (isoformat : datetime -> string)
    (fromisoformat : string -> option iso_datetime) (written now : datetime)
    (activation_id phone_number asked : pyval) (min_age_seconds : Z)
    (f : file) :
  recorded asked f = true \/ py_str asked <> py_str activation_id ->
  can_set_status_8 fromisoformat now asked min_age_seconds
    (save_activation_to_json isoformat written activation_id phone_number f)
  = can_set_status_8 fromisoformat now asked min_age_seconds f.
Proof.
  intros H. unfold can_set_status_8, save_activation_to_json,
    _save_activations. cbn [_load_activations].
  destruct (forallb (row_differs asked) (_load_activations f)) eqn:Hall.
  - destruct H as [Hrec|Hne].
    + unfold recorded in Hrec. rewrite Hall in Hrec. discriminate.
    + rewrite (scan_rows_unrecorded _ _ _ _ _ Hall).
      induction (_load_activations f) as [|r rest IH]; simpl in *.
      * rewrite (saved_row_other_id _ _ _ _ _ Hne). reflexivity.
      * apply andb_prop in Hall as [Hr Hrest]. rewrite Hr. exact (IH Hrest).
  - apply scan_rows_app_recorded. exact Hall.
Qed.

(** X3.  A removal concerns one id only: what [can_set_status_8] answers
    for any other id is the same before and after. *)
Theorem remove_keeps_verdicts
    (fromisoformat : string -> option iso_datetime) (now : datetime)
    (activation_id asked : pyval) (min_age_seconds : Z) (f : file) :
  py_str asked <> py_str activation_id ->
  can_set_status_8 fromisoformat now asked min_age_seconds
    (remove_activation_from_json activation_id f)
  = can_set_status_8 fromisoformat now asked min_age_seconds f.
Proof.
  intros Hne. unfold can_set_status_8, remove_activation_from_json,
    _save_activations. cbn [_load_activations].
  induction (_load_activations f) as [|r rest IH]; [reflexivity|].
  cbn [List.filter scan_rows].
  destruct (row_differs activation_id r) eqn:Er.
  - cbn [scan_rows]. destruct (row_differs asked r); [exact IH|reflexivity].
  - assert (Hasked : row_differs asked r = true).
    { unfold row_differs in *. apply negb_false_iff, String.eqb_eq in Er.
      rewrite Er.
      destruct (String.eqb_spec (py_str activation_id) (py_str asked));
        [congruence|reflexivity]. }
    rewrite Hasked. exact IH.
Qed.

End LedgerMore.

(* ===================================================================== *)
(** ** More on the polling for the code                                  *)
(* ===================================================================== *)

Module PollingMore.
Import Regger.

Section Polling.

Variable env : Env.

(** How a run of the polling loop can end, and what it has done by then:
    the ledger and [cech.json] are as before; a code that is returned is
    truthy and [setStatus(id, 6)] was the one status change; an exception
    can only come out of the second, positional call of [getStatusV2]. *)
Lemma poll_outcome fuel id deadline poll_interval w r w' :
  0 <= poll_interval ->
  poll env fuel id deadline poll_interval w = (r, w') ->
  activations w' = activations w /\ cech w' = cech w
  /\ clock w <= clock w'
  /\ match r with
     | Ok (Some code) =>
         truthy code = true
         /\ status_changes (calls w') = (id, 6) :: status_changes (calls w)
     | Ok None =>
         deadline <= clock w'
         /\ status_changes (calls w') = status_changes (calls w)
     | Raise e =>
         status_changes (calls w') = status_changes (calls w)
         /\ exists h msg,
              getStatusV2 env (EGetStatusV2 id true :: h)
              = Throws (TypeError msg)
              /\ getStatusV2 env
                   (EGetStatusV2 id false :: EGetStatusV2 id true :: h)
                 = Throws e
     | OutOfFuel => status_changes (calls w') = status_changes (calls w)
     end.
Proof.
  intros Hpos. revert w. induction fuel as [|fuel IH]; intros w H.
  - cbn [poll] in H. unfold bind, get_world, ret, out_of_fuel in H.
    destruct (Z.ltb_spec (clock w) deadline); cbn [negb] in H;
      injection H as <- <-; repeat split; lia.
  - cbn [poll] in H. unfold bind at 1 in H. cbn [get_world] in H.
    destruct (Z.ltb_spec (clock w) deadline) as [Hlt|Hge]; cbn [negb] in H.
    2: { injection H as <- <-. repeat split; lia. }
    assert (Hnext : forall w2,
              activations w2 = activations w -> cech w2 = cech w ->
              clock w <= clock w2 ->
              status_changes (calls w2) = status_changes (calls w) ->
              poll env fuel id deadline poll_interval w2 = (r, w') ->
              activations w' = activations w /\ cech w' = cech w
              /\ clock w <= clock w'
              /\ match r with
                 | Ok (Some code) =>
                     truthy code = true
                     /\ status_changes (calls w')
                        = (id, 6) :: status_changes (calls w)
                 | Ok None =>
                     deadline <= clock w'
                     /\ status_changes (calls w') = status_changes (calls w)
                 | Raise e =>
                     status_changes (calls w') = status_changes (calls w)
                     /\ exists h msg,
                          getStatusV2 env (EGetStatusV2 id true :: h)
                          = Throws (TypeError msg)
                          /\ getStatusV2 env
                               (EGetStatusV2 id false
                                :: EGetStatusV2 id true :: h)
                             = Throws e
                 | OutOfFuel =>
                     status_changes (calls w') = status_changes (calls w)
                 end).
    { intros w2 Ha Hc Hk Hs Hrun.
      destruct (IH w2 Hrun) as (Ha' & Hc' & Hk' & Hr').
      rewrite Ha', Hc', Ha, Hc. repeat split; try lia.
      rewrite Hs in Hr'. exact Hr'. }
    assert (Hstatus : forall st w1,
              activations w1 = activations w -> cech w1 = cech w ->
              clock w <= clock w1 ->
              status_changes (calls w1) = status_changes (calls w) ->
              (if negb (status_truthy st)
               then run sleep env poll_interval;
                    poll env fuel id deadline poll_interval
               else if truthy (extract_code st)
                    then run try_except
                               (call env (ESetStatus id 6) setStatus)
                               (fun _ => ret tt);
                         ret (Some (extract_code st))
                    else run sleep env poll_interval;
                         poll env fuel id deadline poll_interval) w1
              = (r, w') ->
              activations w' = activations w /\ cech w' = cech w
              /\ clock w <= clock w'
              /\ match r with
                 | Ok (Some code) =>
                     truthy code = true
                     /\ status_changes (calls w')
                        = (id, 6) :: status_changes (calls w)
                 | Ok None =>
                     deadline <= clock w'
                     /\ status_changes (calls w') = status_changes (calls w)
                 | Raise e =>
                     status_changes (calls w') = status_changes (calls w)
                     /\ exists h msg,
                          getStatusV2 env (EGetStatusV2 id true :: h)
                          = Throws (TypeError msg)
                          /\ getStatusV2 env
                               (EGetStatusV2 id false
                                :: EGetStatusV2 id true :: h)
                             = Throws e
                 | OutOfFuel =>
                     status_changes (calls w') = status_changes (calls w)
                 end).
    { intros st w1 Ha Hc Hk Hs Hrun.
      destruct (negb (status_truthy st)).
      - unfold bind, sleep, call in Hrun. cbn in Hrun.
        apply Hnext in Hrun; cbn; try assumption.
        unfold usec_per_sec. nia.
      - destruct (truthy (extract_code st)) eqn:Hcode.
        + unfold bind, try_except, call, ret in Hrun.
          destruct (setStatus env _); cbn in Hrun;
            injection Hrun as <- <-; cbn; rewrite Hs;
            repeat split; try assumption; lia.
        + unfold bind, sleep, call in Hrun. cbn in Hrun.
          apply Hnext in Hrun; cbn; try assumption.
        unfold usec_per_sec. nia. }
    unfold bind at 1, try_except, bind at 1, call at 1 in H.
    destruct (getStatusV2 env (EGetStatusV2 id true :: calls w))
      as [st|e] eqn:Hkw.
    + cbn [ret] in H. apply Hstatus in H; cbn; try reflexivity; try lia.
      exact H.
    + destruct e as [msg|msg|msg|msg|msg]; cbn [is_TypeError] in H.
      1: { unfold bind at 1, call at 1 in H.
           destruct (getStatusV2 env
                       (EGetStatusV2 id false :: _)) as [st|e'] eqn:Hretry.
           - cbn [ret] in H. apply Hstatus in H; cbn; try reflexivity; try lia.
             exact H.
           - injection H as <- <-. cbn. repeat split; try lia.
             exists (calls w), msg. split; assumption. }
      all: unfold bind at 1, sleep at 1, call at 1 in H; cbn [ret] in H;
        apply Hnext in H; cbn; try reflexivity;
        try (unfold usec_per_sec; nia); exact H.
Qed.

Lemma check_verif_status_outcome fuel id timeout poll_interval w r w' :
  0 <= poll_interval ->
  check_verif_status env fuel id timeout poll_interval w = (r, w') ->
  activations w' = activations w /\ cech w' = cech w
  /\ match r with
     | Ok code =>
         (truthy code = true
          /\ status_changes (calls w') = (id, 6) :: status_changes (calls w))
         \/ (code = PStr ""
             /\ clock w + timeout * usec_per_sec <= clock w'
             /\ status_changes (calls w')
                = (id, 8) :: status_changes (calls w))
     | Raise e =>
         status_changes (calls w') = status_changes (calls w)
         /\ exists h msg,
              getStatusV2 env (EGetStatusV2 id true :: h)
              = Throws (TypeError msg)
              /\ getStatusV2 env
                   (EGetStatusV2 id false :: EGetStatusV2 id true :: h)
                 = Throws e
     | OutOfFuel => status_changes (calls w') = status_changes (calls w)
     end.
Proof.
  intros Hpos. unfold check_verif_status. unfold bind at 1. cbn [get_world].
  unfold bind at 1.
  destruct (poll env fuel id (clock w + timeout * usec_per_sec)
              poll_interval w) as [[[code|]|e|] w1] eqn:Hpoll;
    apply poll_outcome in Hpoll; try exact Hpos;
    destruct Hpoll as (Ha & Hc & Hk & Hr).
  - intros [= <- <-]. destruct Hr as [Ht Hs].
    repeat split; try assumption. left. split; assumption.
  - unfold bind, try_except, call, ret.
    destruct (setStatus env _); cbn; intros [= <- <-]; cbn;
      destruct Hr as [Hd Hs]; rewrite Hs;
      (repeat split; try assumption); right; repeat split; lia.
  - intros [= <- <-]. repeat split; try assumption; apply Hr.
  - intros [= <- <-]. repeat split; assumption.
Qed.

(** X4.  [check_verif_status] settles the activation once: when it
    returns a code, the code is truthy and the one status change it made
    is [setStatus(id, 6)]; otherwise it returns the empty string, not
    before the timeout has passed, and the one status change it made is
    [setStatus(id, 8)].  It leaves the ledger as it was either way. *)
Theorem check_verif_status_settles_once fuel id timeout poll_interval w
    code w' :
  0 <= poll_interval ->
  check_verif_status env fuel id timeout poll_interval w = (Ok code, w') ->
  activations w' = activations w
  /\ ((truthy code = true
       /\ status_changes (calls w') = (id, 6) :: status_changes (calls w))
      \/ (code = PStr ""
          /\ clock w + timeout * usec_per_sec <= clock w'
          /\ status_changes (calls w') = (id, 8) :: status_changes (calls w))).
Proof.
  intros Hpos H. apply check_verif_status_outcome in H; [|exact Hpos].
  destruct H as (Ha & _ & Hr). split; assumption.
Qed.

(** X5.  The only exception that leaves [check_verif_status] is the one
    raised by the second, positional call of [getStatusV2], made after the
    keyword call raised [TypeError]; no status change has been made then.
    Any other failure of the provider is slept over.  (The polling
    interval is not negative: [time.sleep] would refuse it.) *)
Theorem check_verif_status_raises_only_on_retry fuel id timeout
    poll_interval w e w' :
  0 <= poll_interval ->
  check_verif_status env fuel id timeout poll_interval w = (Raise e, w') ->
  status_changes (calls w') = status_changes (calls w)
  /\ exists h msg,
       getStatusV2 env (EGetStatusV2 id true :: h) = Throws (TypeError msg)
       /\ getStatusV2 env (EGetStatusV2 id false :: EGetStatusV2 id true :: h)
          = Throws e.
Proof.
  intros Hpos H. apply check_verif_status_outcome in H; [|exact Hpos].
  destruct H as (_ & _ & Hr). exact Hr.
Qed.

(** X6.  With a positive polling interval [check_verif_status] comes to
    an end whatever the provider answers: it makes at most one pass more
    than sleeps fit into the timeout. *)
Theorem check_verif_status_terminates fuel id timeout poll_interval w :
  0 < poll_interval ->
  timeout <= Z.of_nat fuel * poll_interval ->
  fst (check_verif_status env (S fuel) id timeout poll_interval w)
  <> OutOfFuel.
Proof.
  intros Hpos Hfuel. unfold check_verif_status. unfold bind at 1.
  cbn [get_world]. unfold bind at 1.
  pose proof (ReggerFacts.poll_terminates env fuel id
                (clock w + timeout * usec_per_sec) poll_interval w Hpos)
    as Hterm.
  destruct (poll env (S fuel) id (clock w + timeout * usec_per_sec)
              poll_interval w) as [[[code|]|e|] w1]; cbn [fst] in *.
  - discriminate.
  - unfold bind, try_except, call, ret.
    destruct (setStatus env _); discriminate.
  - discriminate.
  - exfalso. apply Hterm; [|reflexivity]. unfold usec_per_sec. nia.
Qed.

End Polling.
End PollingMore.

(* ===================================================================== *)
(** ** More on renting and releasing numbers                             *)
(* ===================================================================== *)

Module ReggerMore.
Import Regger Hoare ReggerFacts.

(** X7.  [verification_number] fills in the provider's alias keys and no
    more: [phoneNumber] is taken from [number], and [activationId] from
    [id], only when the key itself is absent (a [phoneNumber] that is
    present, even as [None], is kept); every other key is left alone, and
    a second normalisation changes nothing. *)
Theorem normalise_fills_aliases (d : pydict) :
  dict_get (normalise d) "phoneNumber"
  = match d !! "phoneNumber" with
    | Some v => v
    | None => dict_get d "number"
    end
  /\ dict_get (normalise d) "activationId"
     = match d !! "activationId" with
       | Some v => v
       | None => dict_get d "id"
       end
  /\ (forall k : string, k <> "phoneNumber" -> k <> "activationId" ->
      normalise d !! k = d !! k)
  /\ normalise (normalise d) = normalise d.
Proof.
  unfold normalise, dict_get.
  destruct (d !! "phoneNumber") as [p|] eqn:Hp;
    destruct (d !! "number") as [n|] eqn:Hn;
    destruct (d !! "activationId") as [a|] eqn:Ha;
    destruct (d !! "id") as [i|] eqn:Hi;
    repeat first
      [ rewrite Hp | rewrite Hn | rewrite Ha | rewrite Hi
      | rewrite lookup_insert_eq
      | rewrite lookup_insert_ne by discriminate
      | progress cbv beta iota ];
    (split; [reflexivity|]); (split; [reflexivity|]);
    (split; [intros k Hk1 Hk2;
             rewrite ?lookup_insert_ne by congruence; reflexivity|]);
    reflexivity.
Qed.

Section More.

Variable isoformat : datetime -> string.
Variable fromisoformat : string -> option iso_datetime.
Variable env : Env.
Variable COUNTRY : string.
Variable MAX_PRICE : pyval.

(** X8.  No exception of the provider's [getNumberV2] leaves
    [verification_number]: it comes back as the payload
    [{"error": str(e)}].  Only the country lookup can make it raise, and
    then no number has been asked for. *)
Theorem verification_number_outcome sms service country max_price w :
  match get_country_id env (EGetCountryId country :: calls w) with
  | Throws e =>
      exists w',
        verification_number env sms service country max_price w
        = (Raise e, w')
        /\ calls w' = EGetCountryId country :: calls w
  | Returns cid =>
      exists w',
        verification_number env sms service country max_price w
        = (Ok match getNumberV2 env
                      (EGetNumberV2 service cid max_price
                       :: EGetCountryId country :: calls w) with
              | Returns resp => normalise resp
              | Throws e => {["error" := PStr (exn_str e)]}
              end, w')
        /\ calls w' = EGetNumberV2 service cid max_price
                      :: EGetCountryId country :: calls w
  end.
Proof.
  unfold verification_number, bind, try_except, call, ret.
  destruct (get_country_id env (EGetCountryId country :: calls w)) as [cid|e];
    cbn.
  - destruct (getNumberV2 env _); cbn; eexists; split; reflexivity.
  - eexists; split; reflexivity.
Qed.

Lemma emits_anything {A} P (Q : A -> Prop) (m : M A) :
  emits P Q m -> emits (fun _ => True) (fun _ => True) m.
Proof. intros H. eapply emits_weaken; [exact H| |]; trivial. Qed.

Lemma emits_request_number_truthy sms :
  emits (fun _ => True)
    (fun b => match b with
              | Bought _ phone _ => truthy phone = true
              | _ => True
              end)
    (request_number fromisoformat env COUNTRY MAX_PRICE sms).
Proof.
  assert (Hadmin : forall phone id,
            emits (fun _ => True)
              (fun b => match b with
                        | Bought _ phone _ => truthy phone = true
                        | _ => True
                        end)
              (run activation_admin fromisoformat env sms [] phone id;
               ret Again)).
  { intros phone id. eapply emits_bind.
    - eapply emits_anything. apply emits_activation_admin.
    - intros _ _. apply emits_ret. exact I. }
  assert (Hcheck : forall (c p : string) phone,
            emits (fun _ => True) (fun _ : bool => True)
              (if String.eqb COUNTRY c
               then do ok <- py_startswith phone p; ret (negb ok)
               else ret false)).
  { intros c p phone. destruct (String.eqb COUNTRY c).
    - eapply emits_bind; [apply emits_py_startswith|]. intros ok _.
      apply emits_ret. exact I.
    - apply emits_ret. exact I. }
  unfold request_number.
  eapply emits_bind.
  { eapply emits_anything. apply emits_verification_number. }
  intros d _.
  destruct (truthy (dict_get d "phoneNumber")) eqn:Hp; cbn [negb].
  - eapply emits_bind; [apply Hcheck|]. intros [] _; [apply Hadmin|].
    eapply emits_bind; [apply Hcheck|]. intros [] _; [apply Hadmin|].
    apply emits_ret. exact Hp.
  - eapply emits_bind with (Q := fun _ => True).
    + unfold subscript_error. destruct (d !! "error");
        [apply emits_ret; exact I|apply emits_raise].
    + intros err _. destruct (truthy err); apply emits_ret; exact I.
Qed.

Lemma buy_number_bought fuel sms w a p c w1 :
  buy_number fromisoformat env COUNTRY MAX_PRICE fuel sms w
  = (Ok (Bought a p c), w1) ->
  truthy p = true.
Proof.
  revert w. induction fuel as [|fuel IH]; intros w; [discriminate|].
  cbn [buy_number]. unfold bind.
  destruct (emits_request_number_truthy sms w) as (_ & _ & _ & Hq).
  destruct (request_number fromisoformat env COUNTRY MAX_PRICE sms w)
    as [[[| |]|?|] w0]; try discriminate.
  - apply IH.
  - intros [= <- <- <- <-]. exact (Hq _ eq_refl).
Qed.

Lemma send_attempt_sent fuel sms w a p c w' :
  send_attempt isoformat fromisoformat env COUNTRY MAX_PRICE fuel sms w
  = (Ok (Sent a p c), w') ->
  exists w1,
    buy_number fromisoformat env COUNTRY MAX_PRICE fuel sms w
    = (Ok (Bought a p c), w1)
    /\ calls w' = EInputPhoneNumber p :: calls w1
    /\ returned (input_phone_number env (EInputPhoneNumber p :: calls w1))
       = true
    /\ activations w'
       = Ledger.save_activation_to_json isoformat (clock w') a p
           (activations w1).
Proof.
  unfold send_attempt. unfold bind at 1.
  destruct (buy_number fromisoformat env COUNTRY MAX_PRICE fuel sms w)
    as [[[|a' p' c'|]|?|] w1]; try discriminate.
  unfold bind, call, save_activation_to_json, ret.
  destruct (input_phone_number env (EInputPhoneNumber p' :: calls w1))
    eqn:Hin; cbn; [|discriminate].
  intros [= <- <- <- <-]. exists w1. cbn. rewrite Hin. repeat split.
Qed.

Lemma send_loop_sent rounds fuel sms attempt w a p c w' :
  send_loop isoformat fromisoformat env COUNTRY MAX_PRICE rounds fuel sms
    attempt w = (Ok (Sent a p c), w') ->
  exists w0,
    send_attempt isoformat fromisoformat env COUNTRY MAX_PRICE fuel sms w0
    = (Ok (Sent a p c), w').
Proof.
  revert attempt w. induction rounds as [|rounds IH]; intros attempt w;
    cbn [send_loop]; destruct (negb (attempt <? 5)); try discriminate.
  unfold try_except.
  destruct (send_attempt isoformat fromisoformat env COUNTRY MAX_PRICE fuel
              sms w) as [[r|e|] w1] eqn:Hatt.
  - intros [= -> ->]. exists w. exact Hatt.
  - destruct (5 <=? attempt + 1); [discriminate|]. apply IH.
  - discriminate.
Qed.

(** X9.  When [phone_number_send] returns an activation, the number it
    returns is truthy and has passed the check for the country, the last
    thing it called is [telegram.input_phone_number] with that number,
    which returned, and the ledger now ends with the record of that
    activation, written at that moment. *)
Theorem phone_number_send_success fuel sms w a p c w' :
  phone_number_send isoformat fromisoformat env COUNTRY MAX_PRICE fuel sms w
  = (Ok (Sent a p c), w') ->
  truthy p = true /\ well_prefixed COUNTRY p
  /\ exists w1,
       calls w' = EInputPhoneNumber p :: calls w1
       /\ returned (input_phone_number env (EInputPhoneNumber p :: calls w1))
          = true
       /\ activations w'
          = Ledger.save_activation_to_json isoformat (clock w') a p
              (activations w1)
       /\ Ledger.recorded a (activations w') = true.
Proof.
  intros H. unfold phone_number_send in H.
  apply send_loop_sent in H as (w0 & Hatt).
  destruct (send_attempt_sent _ _ _ _ _ _ _ Hatt)
    as (w1 & Hbuy & Hcalls & Hret & Hact).
  split; [exact (buy_number_bought _ _ _ _ _ _ _ Hbuy)|]. split.
  - destruct (emits_buy_number fromisoformat env COUNTRY MAX_PRICE fuel sms w0)
      as (new & _ & _ & Hq).
    apply (Hq (Bought a p c)). rewrite Hbuy. reflexivity.
  - exists w1. repeat split; try assumption. rewrite Hact.
    apply LedgerMore.recorded_after_save.
Qed.

(** X10.  [phone_number_send] never falls out of its loop: what it
    returns is [False] or an activation, never [None]. *)
Theorem phone_number_send_not_none fuel sms w :
  fst (phone_number_send isoformat fromisoformat env COUNTRY MAX_PRICE fuel
         sms w) <> Ok SentNone.
Proof. apply send_loop_not_none. lia. Qed.

Section UnknownCountry.

Hypothesis lookup_fails : forall h, returned (get_country_id env h) = false.

Lemma send_attempt_lookup_fails fuel sms w :
  exists e w1,
    send_attempt isoformat fromisoformat env COUNTRY MAX_PRICE (S fuel) sms w
    = (Raise e, w1)
    /\ calls w1 = EGetCountryId COUNTRY :: calls w
    /\ activations w1 = activations w.
Proof.
  pose proof (lookup_fails (EGetCountryId COUNTRY :: calls w)) as Hl.
  unfold send_attempt. cbn [buy_number].
  unfold bind, request_number, verification_number, bind, call.
  destruct (get_country_id env (EGetCountryId COUNTRY :: calls w)) as [?|e];
    [discriminate|].
  exists e. eexists. split; [reflexivity|]. split; reflexivity.
Qed.

Lemma send_loop_lookup_fails rounds fuel sms attempt w :
  0 <= attempt < 5 -> (Z.to_nat (5 - attempt) <= rounds)%nat ->
  exists w',
    send_loop isoformat fromisoformat env COUNTRY MAX_PRICE rounds (S fuel)
      sms attempt w = (Ok SentFalse, w')
    /\ calls w' = (List.repeat (EGetCountryId COUNTRY) (Z.to_nat (5 - attempt))
                   ++ calls w)%list
    /\ activations w' = activations w.
Proof.
  revert attempt w. induction rounds as [|rounds IH]; intros attempt w Ha Hr;
    [lia|].
  cbn [send_loop]. destruct (Z.ltb_spec attempt 5) as [_|]; [|lia].
  cbn [negb]. unfold try_except.
  destruct (send_attempt_lookup_fails fuel sms w) as (e & w1 & Hrun & Hc & Hl).
  rewrite Hrun. destruct (Z.leb_spec 5 (attempt + 1)) as [Hlast|Hmore].
  - exists w1. split; [reflexivity|]. rewrite Hc, Hl.
    replace attempt with 4 by lia. split; reflexivity.
  - destruct (IH (attempt + 1) w1) as (w' & Hrest & Hc' & Hl'); [lia|lia|].
    exists w'. split; [exact Hrest|]. rewrite Hc', Hl', Hc, Hl.
    split; [|reflexivity].
    replace (Z.to_nat (5 - attempt))
      with (Z.to_nat (5 - (attempt + 1)) + 1)%nat by lia.
    rewrite List.repeat_app, <- app_assoc. reflexivity.
Qed.

(** X11.  Exceptions are what the five attempts of [phone_number_send]
    count: when the lookup of the country raises every time, the function
    makes exactly five lookups, asks for no number, leaves the ledger
    alone and returns [False]. *)
Theorem lookup_failure_is_bounded fuel sms w :
  exists w',
    phone_number_send isoformat fromisoformat env COUNTRY MAX_PRICE (S fuel)
      sms w = (Ok SentFalse, w')
    /\ calls w' = (List.repeat (EGetCountryId COUNTRY) 5 ++ calls w)%list
    /\ activations w' = activations w.
Proof.
  unfold phone_number_send.
  destruct (send_loop_lookup_fails 5 fuel sms 0 w) as (w' & H); [lia|lia|].
  exists w'. exact H.
Qed.

End UnknownCountry.

Lemma not_input_delivered evs : Forall not_input evs -> delivered evs = [].
Proof.
  induction 1 as [|[] evs Hev _ IH]; simpl; try assumption; try reflexivity.
  contradiction.
Qed.

Lemma send_attempt_delivers fuel sms w :
  exists new,
    calls (snd (send_attempt isoformat fromisoformat env COUNTRY MAX_PRICE
                  fuel sms w)) = (new ++ calls w)%list
    /\ (length (delivered new) <= 1)%nat.
Proof.
  unfold send_attempt. unfold bind at 1.
  destruct (emits_buy_number fromisoformat env COUNTRY MAX_PRICE fuel sms w)
    as (new1 & Hc1 & Hp1 & _).
  apply not_input_delivered in Hp1.
  destruct (buy_number fromisoformat env COUNTRY MAX_PRICE fuel sms w)
    as [[[|a p c|]|e|] w1]; cbn [snd] in *;
    try (exists new1; rewrite Hp1; split; [exact Hc1|simpl; lia]).
  exists (EInputPhoneNumber p :: new1).
  unfold bind, call, save_activation_to_json, ret.
  destruct (input_phone_number env _); cbn; rewrite Hc1, Hp1;
    (split; [reflexivity|]); simpl; lia.
Qed.

Lemma send_loop_delivers rounds fuel sms attempt w :
  0 <= attempt ->
  exists new,
    calls (snd (send_loop isoformat fromisoformat env COUNTRY MAX_PRICE rounds
                  fuel sms attempt w)) = (new ++ calls w)%list
    /\ (length (delivered new) <= Z.to_nat (5 - attempt))%nat.
Proof.
  revert attempt w. induction rounds as [|rounds IH]; intros attempt w Ha;
    cbn [send_loop].
  - destruct (negb (attempt <? 5)); exists []; split; try reflexivity;
      simpl; lia.
  - destruct (Z.ltb_spec attempt 5) as [Hlt|Hge]; cbn [negb].
    2: { exists []. split; [reflexivity|simpl; lia]. }
    unfold try_except.
    destruct (send_attempt_delivers fuel sms w) as (new1 & Hc1 & Hd1).
    destruct (send_attempt isoformat fromisoformat env COUNTRY MAX_PRICE fuel
                sms w) as [[r|e|] w1]; cbn [snd] in *;
      try (exists new1; split; [exact Hc1|lia]).
    destruct (Z.leb_spec 5 (attempt + 1)).
    + exists new1. split; [exact Hc1|lia].
    + destruct (IH (attempt + 1) w1) as (new2 & Hc2 & Hd2); [lia|].
      exists (new2 ++ new1)%list. rewrite Hc2, Hc1, app_assoc.
      split; [reflexivity|]. rewrite delivered_app, length_app. lia.
Qed.

(** X12.  One call of [phone_number_send] hands at most five numbers to
    [telegram.input_phone_number], one for each attempt. *)
Theorem at_most_five_deliveries fuel sms w :
  exists new,
    calls (snd (phone_number_send isoformat fromisoformat env COUNTRY
                  MAX_PRICE fuel sms w)) = (new ++ calls w)%list
    /\ (length (delivered new) <= 5)%nat.
Proof.
  unfold phone_number_send.
  destruct (send_loop_delivers 5 fuel sms 0 w) as (new & Hc & Hd); [lia|].
  exists new. split; [exact Hc|]. simpl in Hd. exact Hd.
Qed.

Lemma emits_send_calls_admin sms phone id :
  emits (send_call COUNTRY MAX_PRICE sms) (fun _ => True)
    (activation_admin fromisoformat env sms [] phone id).
Proof.
  unfold activation_admin.
  eapply emits_bind; [apply emits_call; split; reflexivity|]. intros r _.
  eapply emits_bind; [apply emits_modify; reflexivity|]. intros _ _.
  eapply emits_bind; [apply emits_ret with (Q := fun _ => True); exact I|].
  intros name _.
  eapply emits_bind; [apply emits_setup_cech|]. intros d _.
  eapply emits_bind with (Q := fun _ => True).
  { apply emits_try_except.
    - eapply emits_bind; [apply emits_can_set_status_8|]. intros [] _.
      + eapply emits_bind; [apply emits_call; reflexivity|]. intros _ _.
        eapply emits_bind; [apply emits_modify; reflexivity|]. intros _ _.
        apply emits_ret. exact I.
      + apply emits_ret. exact I.
    - intros e. apply emits_ret. exact I. }
  intros d' _.
  eapply emits_bind; [apply emits_modify; reflexivity|]. intros _ _.
  apply emits_ret. exact I.
Qed.

Lemma emits_send_calls_request sms :
  emits (send_call COUNTRY MAX_PRICE sms) (fun _ => True)
    (request_number fromisoformat env COUNTRY MAX_PRICE sms).
Proof.
  assert (Hadmin : forall phone id,
            emits (send_call COUNTRY MAX_PRICE sms) (fun _ : bought => True)
              (run activation_admin fromisoformat env sms [] phone id;
               ret Again)).
  { intros phone id. eapply emits_bind; [apply emits_send_calls_admin|].
    intros _ _. apply emits_ret. exact I. }
  assert (Hcheck : forall (c p : string) phone,
            emits (send_call COUNTRY MAX_PRICE sms) (fun _ : bool => True)
              (if String.eqb COUNTRY c
               then do ok <- py_startswith phone p; ret (negb ok)
               else ret false)).
  { intros c p phone. destruct (String.eqb COUNTRY c).
    - eapply emits_bind; [apply emits_py_startswith|]. intros ok _.
      apply emits_ret. exact I.
    - apply emits_ret. exact I. }
  unfold request_number.
  eapply emits_bind with (Q := fun _ => True).
  { unfold verification_number.
    eapply emits_bind; [apply emits_call; reflexivity|]. intros cid _.
    eapply emits_bind with (Q := fun _ => True).
    - apply emits_try_except.
      + eapply emits_bind; [apply emits_call; split; reflexivity|].
        intros resp _. apply emits_ret. exact I.
      + intros e. apply emits_ret. exact I.
    - intros [resp|failure] _; apply emits_ret; exact I. }
  intros d _.
  destruct (negb (truthy (dict_get d "phoneNumber"))).
  - eapply emits_bind with (Q := fun _ => True).
    + unfold subscript_error. destruct (d !! "error");
        [apply emits_ret; exact I|apply emits_raise].
    + intros err _. destruct (truthy err); apply emits_ret; exact I.
  - eapply emits_bind; [apply Hcheck|]. intros [] _; [apply Hadmin|].
    eapply emits_bind; [apply Hcheck|]. intros [] _; [apply Hadmin|].
    apply emits_ret. exact I.
Qed.

Lemma emits_send_calls_loop rounds fuel sms attempt :
  emits (send_call COUNTRY MAX_PRICE sms) (fun _ => True)
    (send_loop isoformat fromisoformat env COUNTRY MAX_PRICE rounds fuel sms
       attempt).
Proof.
  assert (Hbuy : emits (send_call COUNTRY MAX_PRICE sms) (fun _ => True)
                   (buy_number fromisoformat env COUNTRY MAX_PRICE fuel sms)).
  { induction fuel as [|fuel' IH]; simpl; [apply emits_out_of_fuel|].
    eapply emits_bind; [apply emits_send_calls_request|].
    intros [| |] _; [exact IH| |]; apply emits_ret; exact I. }
  revert attempt. induction rounds as [|rounds IH]; intros attempt; simpl.
  - destruct (negb (attempt <? 5)); [apply emits_ret; exact I|
                                     apply emits_out_of_fuel].
  - destruct (negb (attempt <? 5)); [apply emits_ret; exact I|].
    apply emits_try_except.
    + unfold send_attempt. eapply emits_bind; [exact Hbuy|].
      intros [|id phone price|] _; try (apply emits_ret; exact I).
      eapply emits_bind; [apply emits_call; exact I|]. intros _ _.
      eapply emits_bind; [apply emits_save_activation|]. intros _ _.
      apply emits_ret. exact I.
    + intros e. destruct (5 <=? attempt + 1);
        [apply emits_ret; exact I|apply IH].
Qed.

(** X13.  Every call that [phone_number_send] makes is a lookup of the
    requested country, a request for a Telegram number ([tg]) that carries
    [MAX_PRICE] unless the provider's URL contains [grizzly], the random
    draw or the cancellation (status 8) of [activation_admin], or a
    delivery to the device.  It never sleeps, never polls the status and
    never finalises an activation; and for a grizzly URL no request
    carries a price cap. *)
Theorem phone_number_send_calls fuel sms w :
  exists new,
    calls (snd (phone_number_send isoformat fromisoformat env COUNTRY
                  MAX_PRICE fuel sms w)) = (new ++ calls w)%list
    /\ Forall (send_call COUNTRY MAX_PRICE sms) new
    /\ (contains "grizzly" (api_url sms) = true ->
        forall service cid max_price,
          In (EGetNumberV2 service cid max_price) new -> max_price = None)
    /\ (contains "grizzly" (api_url sms) = false ->
        forall service cid max_price,
          In (EGetNumberV2 service cid max_price) new ->
          max_price = Some MAX_PRICE).
Proof.
  unfold phone_number_send.
  destruct (emits_send_calls_loop 5 fuel sms 0 w) as (new & Hc & Hp & _).
  exists new. split; [exact Hc|]. split; [exact Hp|].
  rewrite Forall_forall in Hp.
  split; intros Hg service cid max_price Hin;
    rewrite <- list_elem_of_In in Hin;
    destruct (Hp _ Hin) as [_ ->]; unfold max_price_for; rewrite Hg;
    reflexivity.
Qed.

(** What one run of [activation_admin] does to the ledger, to
    [cech.json] and to the location flag, whatever the surroundings. *)
Lemma activation_admin_summary sms last_names phone id w :
  exists w' r,
    activation_admin fromisoformat env sms last_names phone id w = (r, w')
    /\ NEED_CHANGE_LOCATION w'
       = (randint env (ERandint 0 100 :: calls w) <? 30)
    /\ ((cech w = Corrupt /\ cech w' = Corrupt
         /\ activations w' = activations w
         /\ status_changes (calls w') = status_changes (calls w))
        \/ exists d st,
             cech w' = Holds d
             /\ d !! "phone_number" = Some phone
             /\ d !! "activation_status" = Some (PStr st)
             /\ ((st = "canceled"
                  /\ activations w'
                     = Ledger.remove_activation_from_json id (activations w)
                  /\ status_changes (calls w')
                     = (id, 8) :: status_changes (calls w)
                  /\ exists h, calls w' = ESetStatus id 8 :: h
                               /\ returned (setStatus env (ESetStatus id 8 :: h))
                                  = true)
                 \/ (st = "not_canceled"
                     /\ activations w' = activations w
                     /\ status_changes (calls w')
                        = status_changes (calls w))
                 \/ (st = "error" /\ activations w' = activations w))).
Proof.
  unfold activation_admin, bind, try_except, can_set_status_8, setup_cech,
    write_cech, remove_activation_from_json, modify, ret, draw, call.
  destruct last_names as [|n ns]; simpl; destruct (cech w) eqn:Ec; simpl;
    try (eexists; eexists; split; [reflexivity|]; split; [reflexivity|];
         left; simpl; repeat split; assumption);
    match goal with
    | |- context [Ledger.can_set_status_8 ?f ?t ?i ?m ?a] =>
        destruct (Ledger.can_set_status_8 f t i m a) as [[|]|]
    end; simpl;
    try match goal with
        | |- context [setStatus env ?h] =>
            destruct (setStatus env h) as [[]|] eqn:Hset
        end; simpl;
    eexists; eexists; (split; [reflexivity|]); (split; [reflexivity|]);
    right; eexists; eexists; simpl; (split; [reflexivity|]);
    (split; [rewrite lookup_insert_ne by discriminate;
             rewrite lookup_insert_ne by discriminate;
             apply lookup_insert_eq|]);
    (split; [rewrite lookup_insert_ne by discriminate;
             apply lookup_insert_eq|]);
    first
      [ left; split; [reflexivity|]; split; [reflexivity|];
        split; [reflexivity|]; eexists; split; [reflexivity|];
        rewrite Hset; reflexivity
      | right; left; repeat split; reflexivity
      | right; right; split; reflexivity ].
Qed.

(** X14.  [activation_admin] can only take rows of its own activation
    off the ledger: afterwards the ledger is as before, or as before
    without the rows of that id, and then [setStatus(id, 8)] has been
    called and has returned; whether any other id is recorded never
    changes. *)
Theorem activation_admin_spares_other_ids sms last_names phone id w r w' :
  activation_admin fromisoformat env sms last_names phone id w = (r, w') ->
  (activations w' = activations w
   \/ (activations w' = Ledger.remove_activation_from_json id (activations w)
       /\ status_changes (calls w') = (id, 8) :: status_changes (calls w)
       /\ exists h, calls w' = ESetStatus id 8 :: h
                    /\ returned (setStatus env (ESetStatus id 8 :: h)) = true))
  /\ forall other,
       py_str other <> py_str id ->
       Ledger.recorded other (activations w')
       = Ledger.recorded other (activations w).
Proof.
  intros Hrun.
  destruct (activation_admin_summary sms last_names phone id w)
    as (w2 & r2 & Hsum & _ & Hcases).
  rewrite Hrun in Hsum. injection Hsum as <- <-.
  assert (Hstep : activations w' = activations w
                  \/ (activations w'
                      = Ledger.remove_activation_from_json id (activations w)
                      /\ status_changes (calls w')
                         = (id, 8) :: status_changes (calls w)
                      /\ exists h,
                           calls w' = ESetStatus id 8 :: h
                           /\ returned (setStatus env (ESetStatus id 8 :: h))
                              = true)).
  { destruct Hcases as [(_ & _ & Ha & _)|(d & st & _ & _ & _ & Hst)];
      [left; exact Ha|].
    destruct Hst as [(_ & Ha & Hs & Hh)|[(_ & Ha & _)|(_ & Ha)]];
      [right; repeat split; assumption|left; exact Ha|left; exact Ha]. }
  split; [exact Hstep|]. intros other Hne.
  destruct Hstep as [->|[-> _]]; [reflexivity|].
  apply LedgerFacts.remove_keeps_others. exact Hne.
Qed.

(** X15.  When [cech.json] can be read, [activation_admin] returns and
    leaves in it the number and one of three statuses that tells what
    happened: [canceled] when the cancel call was made and returned, and
    then the id is off the ledger; [not_canceled] when the ledger did not
    allow the call, and then nothing was called and the ledger is as
    before; [error] otherwise, the ledger again as before.  The location
    flag is set exactly when the number drawn from 0..100 is below 30. *)
Theorem activation_admin_bookkeeping sms last_names phone id w r w' :
  cech w <> Corrupt ->
  activation_admin fromisoformat env sms last_names phone id w = (r, w') ->
  r = Ok CECH_PATH
  /\ NEED_CHANGE_LOCATION w'
     = (randint env (ERandint 0 100 :: calls w) <? 30)
  /\ exists d st,
       cech w' = Holds d
       /\ d !! "phone_number" = Some phone
       /\ d !! "activation_status" = Some (PStr st)
       /\ ((st = "canceled"
            /\ activations w'
               = Ledger.remove_activation_from_json id (activations w)
            /\ status_changes (calls w') = (id, 8) :: status_changes (calls w))
           \/ (st = "not_canceled"
               /\ activations w' = activations w
               /\ status_changes (calls w') = status_changes (calls w))
           \/ (st = "error" /\ activations w' = activations w)).
Proof.
  intros Hcech Hrun.
  destruct (activation_admin_effect fromisoformat env sms last_names phone id
              w Hcech) as (w0 & w1 & Hok & _).
  rewrite Hrun in Hok. injection Hok as -> <-.
  destruct (activation_admin_summary sms last_names phone id w)
    as (w2 & r2 & Hsum & Hflag & Hcases).
  rewrite Hrun in Hsum. injection Hsum as <- <-.
  split; [reflexivity|]. split; [exact Hflag|].
  destruct Hcases as [(Hc & _)|(d & st & Hd & Hp & Hs & Hst)];
    [contradiction|].
  exists d, st. repeat split; try assumption.
  destruct Hst as [(-> & Ha & Hch & _)|[(-> & Ha & Hch)|(-> & Ha)]].
  - left. repeat split; assumption.
  - right. left. repeat split; assumption.
  - right. right. split; [reflexivity|exact Ha].
Qed.

(** X16.  The wait for the code never lets an exception out, and a code
    that is received leaves the rental where it is: the code is truthy,
    the one status change is [setStatus(id, 6)], [activation_admin] is not
    run, and the ledger, which still holds the id if it did, and
    [cech.json] are as before. *)
Theorem wait_for_code_outcome fuel sms last_names phone id w r w' :
  wait_for_code fromisoformat env fuel sms last_names phone id w = (r, w') ->
  (forall e, r <> Raise e)
  /\ (forall code,
        r = Ok (CodeReceived code) ->
        truthy code = true
        /\ activations w' = activations w /\ cech w' = cech w
        /\ status_changes (calls w') = (id, 6) :: status_changes (calls w)).
Proof.
  unfold wait_for_code, try_except. unfold bind at 1.
  destruct (check_verif_status env fuel id 300 5 w) as [[code|e|] w1] eqn:Hc.
  - apply PollingMore.check_verif_status_outcome in Hc; [|lia].
    destruct Hc as (Ha & Hce & Hr).
    destruct (truthy code) eqn:Ht; cbn [negb].
    + intros [= <- <-]. split; [discriminate|]. intros code' [= <-].
      destruct Hr as [[_ Hs]|[-> _]]; [|discriminate].
      repeat split; assumption.
    + unfold bind.
      destruct (activation_admin fromisoformat env sms last_names phone id w1)
        as [[?|?|] w2]; cbn; intros [= <- <-];
        (split; [discriminate|]); intros code' [=].
  - intros [= <- <-]. split; [discriminate|]. intros code' [=].
  - intros [= <- <-]. split; [discriminate|]. intros code' [=].
Qed.

End More.
End ReggerMore.


(* ===================================================================== *)
(** ** Properties of the other generators                                *)
(* ===================================================================== *)

Module GeneratorsFacts.
Import Generators.

Lemma get_some_in i (s : string) c :
  String.get i s = Some c -> In c (list_ascii_of_string s).
Proof.
  revert i. induction s as [|a s IH]; intros i; simpl; [discriminate|].
  destruct i as [|i]; [intros [= ->]; left; reflexivity|].
  intros H. right. exact (IH i H).
Qed.

Lemma get_in_range i (s : string) :
  (i < String.length s)%nat -> exists c, String.get i s = Some c.
Proof.
  revert i. induction s as [|a s IH]; intros i; simpl; [lia|].
  destruct i as [|i]; [eauto|]. intros H. apply IH. lia.
Qed.

Lemma random_choice_in alphabet r :
  alphabet <> "" ->
  In (Adb.random_choice alphabet r) (list_ascii_of_string alphabet).
Proof.
  intros Hne. unfold Adb.random_choice.
  destruct (get_in_range (r mod String.length alphabet) alphabet) as [c Hc].
  - apply Nat.mod_upper_bound. destruct alphabet; [contradiction|simpl; lia].
  - rewrite Hc. simpl. exact (get_some_in _ _ _ Hc).
Qed.

Lemma length_string_of_list (l : list ascii) :
  String.length (string_of_list_ascii l) = length l.
Proof. induction l as [|a l IH]; simpl; [reflexivity|]. rewrite IH. reflexivity. Qed.

Lemma random_text_shape alphabet rnd first n :
  alphabet <> "" ->
  String.length (random_text alphabet rnd first n) = n
  /\ drawn_from alphabet (random_text alphabet rnd first n).
Proof.
  intros Hne. unfold random_text, drawn_from. split.
  - rewrite length_string_of_list, List.length_map, List.length_seq.
    reflexivity.
  - rewrite list_ascii_of_string_of_list_ascii. apply Forall_map.
    apply Forall_forall. intros k _. simpl.
    apply random_choice_in. exact Hne.
Qed.

(** X17.  The Android id has exactly 16 characters, each of them one of
    [0123456789abcdef], whatever the random source draws. *)
Theorem generate_android_id_shape (rnd : nat -> nat) :
  String.length (generate_android_id rnd) = 16%nat
  /\ drawn_from "0123456789abcdef" (generate_android_id rnd).
Proof. apply random_text_shape. discriminate. Qed.

(** X18.  [generate_random_string(length)] returns [length] lowercase
    ASCII letters; a length of 0 or below gives the empty string. *)
Theorem generate_random_string_shape (rnd : nat -> nat) (length : Z) :
  String.length (generate_random_string rnd length) = Z.to_nat length
  /\ drawn_from ascii_lowercase (generate_random_string rnd length)
  /\ (length <= 0 -> generate_random_string rnd length = "").
Proof.
  destruct (random_text_shape ascii_lowercase rnd 0 (Z.to_nat length))
    as [Hlen Hdrawn]; [discriminate|].
  split; [exact Hlen|]. split; [exact Hdrawn|].
  intros Hle. unfold generate_random_string.
  replace (Z.to_nat length) with 0%nat by lia. reflexivity.
Qed.

Lemma randint_range lo hi r : lo <= hi -> lo <= randint lo hi r <= hi.
Proof.
  intros H. unfold randint.
  pose proof (Z.mod_pos_bound (Z.of_nat r) (hi - lo + 1)). lia.
Qed.

Lemma hex_digit_in upper n :
  0 <= n < 16 ->
  In (hex_digit upper n)
     (list_ascii_of_string
        (if upper then "0123456789ABCDEF" else "0123456789abcdef")).
Proof.
  intros Hn. unfold hex_digit.
  destruct (get_in_range (Z.to_nat n)
              (if upper then "0123456789ABCDEF" else "0123456789abcdef"))
    as [c Hc].
  - destruct upper; simpl; lia.
  - rewrite Hc. simpl. exact (get_some_in _ _ _ Hc).
Qed.

Lemma format_02_shape upper part :
  0 <= part <= 255 ->
  String.length (format_02 upper part) = 2%nat
  /\ drawn_from (if upper then "0123456789ABCDEF" else "0123456789abcdef")
       (format_02 upper part).
Proof.
  intros Hp. split; [reflexivity|]. unfold format_02, drawn_from. simpl.
  repeat constructor; apply hex_digit_in.
  - split; [apply Z.div_pos; lia|apply Z.div_lt_upper_bound; lia].
  - apply Z.mod_pos_bound. lia.
Qed.

Lemma length_append (a b : string) :
  String.length (a ++ b) = (String.length a + String.length b)%nat.
Proof. induction a as [|c a IH]; simpl; [reflexivity|]. rewrite IH. reflexivity. Qed.

Lemma length_concat_uniform (sep : string) (groups : list string) n :
  Forall (fun g => String.length g = n) groups ->
  String.length (String.concat sep groups)
  = (length groups * n + (length groups - 1) * String.length sep)%nat.
Proof.
  induction 1 as [|g groups Hg Hrest IH]; [reflexivity|].
  destruct groups as [|g' groups].
  - simpl. lia.
  - change (String.concat sep (g :: g' :: groups))
      with (g ++ sep ++ String.concat sep (g' :: groups)).
    rewrite !length_append, IH, Hg. simpl. lia.
Qed.

Lemma lower_hexdigits_in c :
  In c (list_ascii_of_string (lower hexdigits)) ->
  In c (list_ascii_of_string "0123456789abcdef").
Proof.
  intros Hc. cbv in Hc.
  repeat (destruct Hc as [<-|Hc];
          [cbv; repeat first [left; reflexivity | right]|]).
  contradiction.
Qed.

(** X19.  Both MAC generators return 17 characters in six colon-separated
    groups of two hexadecimal digits.  [generate_mac_address] writes all
    six in upper case; [generate_samsung_mac] starts with one of its four
    vendor prefixes, in upper case, and writes the last three groups in
    lower case. *)
Theorem mac_generators_shape (rnd : nat -> nat) :
  (String.length (generate_mac_address rnd) = 17%nat
   /\ exists groups,
        generate_mac_address rnd = String.concat ":" groups
        /\ length groups = 6%nat
        /\ Forall (fun g => String.length g = 2%nat
                            /\ drawn_from "0123456789ABCDEF" g) groups)
  /\ (String.length (generate_samsung_mac rnd) = 17%nat
      /\ exists oui groups,
           generate_samsung_mac rnd = oui ++ ":" ++ String.concat ":" groups
           /\ In oui oui_list
           /\ length groups = 3%nat
           /\ Forall (fun g => String.length g = 2%nat
                               /\ drawn_from "0123456789abcdef" g) groups).
Proof.
  assert (Hgroups : forall (upper : bool) first n,
            Forall (fun g => String.length g = 2%nat
                             /\ drawn_from
                                  (if upper then "0123456789ABCDEF"
                                   else "0123456789abcdef") g)
              (List.map (fun k => format_02 upper (randint 0 255 (rnd k)))
                 (List.seq first n))).
  { intros upper first n. apply Forall_map, Forall_forall. intros k _.
    apply (format_02_shape upper). apply randint_range. lia. }
  assert (Hlen : forall (upper : bool) first n,
            String.length
              (String.concat ":"
                 (List.map (fun k => format_02 upper (randint 0 255 (rnd k)))
                    (List.seq first n)))
            = (n * 2 + (n - 1) * 1)%nat).
  { intros upper first n.
    rewrite (length_concat_uniform ":" _ 2).
    - rewrite List.length_map, List.length_seq. reflexivity.
    - eapply Forall_impl; [apply (Hgroups upper)|]. intros g [Hg _]. exact Hg. }
  split.
  - unfold generate_mac_address. cbv zeta. rewrite List.map_map. split.
    + rewrite Hlen. reflexivity.
    + eexists. split; [reflexivity|]. split.
      * rewrite List.length_map, List.length_seq. reflexivity.
      * exact (Hgroups true 0%nat 6%nat).
  - assert (Houi : In (choice_of oui_list "" (rnd 0%nat)) oui_list).
    { unfold choice_of. apply nth_In. apply Nat.mod_upper_bound.
      discriminate. }
    unfold generate_samsung_mac. cbv zeta. split.
    + rewrite !length_append, Hlen.
      destruct Houi as [<-|[<-|[<-|[<-|[]]]]]; reflexivity.
    + eexists. eexists. split; [reflexivity|]. split; [exact Houi|]. split.
      * rewrite List.length_map, List.length_seq. reflexivity.
      * exact (Hgroups false 1%nat 3%nat).
Qed.

(** X20.  The stable secret has 39 characters: eight groups of four
    characters from [0123456789abcdef], joined by colons. *)
Theorem generate_stable_secret_shape (rnd : nat -> nat) :
  String.length (generate_stable_secret rnd) = 39%nat
  /\ exists groups,
       generate_stable_secret rnd = String.concat ":" groups
       /\ length groups = 8%nat
       /\ Forall (fun g => String.length g = 4%nat
                           /\ drawn_from "0123456789abcdef" g) groups.
Proof.
  assert (Hgroups :
            Forall (fun g => String.length g = 4%nat
                             /\ drawn_from "0123456789abcdef" g)
              (List.map (fun g => random_text (lower hexdigits) rnd (4 * g) 4)
                 (List.seq 0 8))).
  { apply Forall_map, Forall_forall. intros g _.
    destruct (random_text_shape (lower hexdigits) rnd (4 * g) 4) as [Hl Hd];
      [discriminate|].
    split; [exact Hl|]. unfold drawn_from in *.
    eapply Forall_impl; [exact Hd|]. exact lower_hexdigits_in. }
  unfold generate_stable_secret. cbv zeta. split.
  - rewrite (length_concat_uniform ":" _ 4).
    + rewrite List.length_map, List.length_seq. reflexivity.
    + eapply Forall_impl; [exact Hgroups|]. intros g [Hg _]. exact Hg.
  - eexists. split; [reflexivity|]. split; [|exact Hgroups].
    rewrite List.length_map, List.length_seq. reflexivity.
Qed.

Lemma digits_of_app (a b : string) da db :
  Adb.digits_of a = Some da -> Adb.digits_of b = Some db ->
  Adb.digits_of (a ++ b) = Some (da ++ db)%list.
Proof.
  unfold Adb.digits_of. revert da.
  induction a as [|c a IH]; intros da; simpl.
  - intros [= <-] Hb. exact Hb.
  - destruct (Adb.digit_value c) as [d|]; [|discriminate]. simpl.
    destruct (mapM Adb.digit_value (list_ascii_of_string a)) as [ds|] eqn:Ha;
      [|discriminate].
    simpl. intros [= <-] Hb. rewrite (IH ds eq_refl Hb). reflexivity.
Qed.

Lemma generate_number_digits rnd (ks : list nat) (acc : string) dacc :
  Adb.digits_of acc = Some dacc ->
  Adb.digits_of
    (List.fold_left
       (fun number k => number ++ py_str (PInt (randint 0 9 (rnd k)))) ks acc)
  = Some (dacc ++ List.map (fun k => randint 0 9 (rnd k)) ks)%list.
Proof.
  revert acc dacc. induction ks as [|k ks IH]; intros acc dacc Hacc; simpl.
  - rewrite app_nil_r. exact Hacc.
  - rewrite (IH _ (dacc ++ [randint 0 9 (rnd k)])%list).
    + rewrite <- app_assoc. reflexivity.
    + apply digits_of_app; [exact Hacc|].
      pose proof (randint_range 0 9 (rnd k) ltac:(lia)) as Hr.
      unfold py_str. rewrite AdbFacts.pretty_digit by lia.
      change (String (Adb.digit_char (Z.to_nat (randint 0 9 (rnd k)))) "")
        with (Adb.payload_text [Z.to_nat (randint 0 9 (rnd k))]).
      rewrite AdbFacts.digits_of_payload by (constructor; [lia|constructor]).
      cbn [List.map]. rewrite Z2Nat.id by lia. reflexivity.
Qed.

Lemma digits_of_length (text : string) digits :
  Adb.digits_of text = Some digits -> String.length text = length digits.
Proof.
  unfold Adb.digits_of. revert digits.
  induction text as [|c text IH]; intros digits; simpl.
  - intros [= <-]. reflexivity.
  - destruct (Adb.digit_value c) as [d|]; [|discriminate]. simpl.
    destruct (mapM Adb.digit_value (list_ascii_of_string text)) as [ds|];
      [|discriminate].
    simpl. intros [= <-]. simpl. rewrite (IH ds eq_refl). reflexivity.
Qed.

(** X21.  [generate_number(nqty)] spells [nqty] decimal digits: read
    back, the text gives the [nqty] numbers drawn, each from 0 to 9; for
    [nqty] of 0 or below it is empty. *)
Theorem generate_number_shape (rnd : nat -> nat) (nqty : Z) :
  exists digits,
    Adb.digits_of (generate_number rnd nqty) = Some digits
    /\ length digits = Z.to_nat nqty
    /\ Forall (fun d => 0 <= d <= 9) digits
    /\ String.length (generate_number rnd nqty) = Z.to_nat nqty.
Proof.
  exists (List.map (fun k => randint 0 9 (rnd k)) (List.seq 0 (Z.to_nat nqty))).
  assert (Hd : Adb.digits_of (generate_number rnd nqty)
               = Some (List.map (fun k => randint 0 9 (rnd k))
                         (List.seq 0 (Z.to_nat nqty)))).
  { unfold generate_number.
    rewrite (generate_number_digits rnd _ "" [] eq_refl). reflexivity. }
  split; [exact Hd|]. split.
  - rewrite List.length_map, List.length_seq. reflexivity.
  - split.
    + apply Forall_map, Forall_forall. intros k _. simpl.
      apply randint_range. lia.
    + rewrite (digits_of_length _ _ Hd), List.length_map, List.length_seq.
      reflexivity.
Qed.

(** X22.  The readable name that [get_device_info] reports is always a
    name of the catalogue [REAL_DEVICES]: for a model that the catalogue
    lists it is the name of that very device, whatever the random source
    would draw, and for any other model, [Unknown] included, which is what
    a failing [adb] call gives, it is the name of some listed device. *)
Theorem get_device_info_full_model (android_p model_p tg_p lang_p : finished)
    (r : nat) :
  In (info_full_model (get_device_info android_p model_p tg_p lang_p r))
     (List.map full_name REAL_DEVICES)
  /\ (forall d, In d REAL_DEVICES ->
        info_model (get_device_info android_p model_p tg_p lang_p r) = model d ->
        info_full_model (get_device_info android_p model_p tg_p lang_p r)
        = full_name d)
  /\ (error model_p <> "" ->
      info_model (get_device_info android_p model_p tg_p lang_p r)
      = "Unknown").
Proof.
  unfold get_device_info. cbv zeta. cbn [info_full_model info_model].
  set (device_model := answer_or_unknown model_p).
  split; [|split].
  - unfold full_model_of.
    destruct (List.find _ REAL_DEVICES) as [d|] eqn:Hfind.
    + apply List.find_some in Hfind as [Hin _]. apply List.in_map. exact Hin.
    + unfold choice_of. apply nth_In. apply Nat.mod_upper_bound.
      discriminate.
  - intros d Hd ->. unfold full_model_of.
    repeat (destruct Hd as [<-|Hd]; [reflexivity|]). contradiction.
  - intros Herr. subst device_model. unfold answer_or_unknown.
    destruct (String.eqb_spec (error model_p) ""); [contradiction|].
    reflexivity.
Qed.

Lemma lstrip_head (text : string) :
  lstrip text = ""
  \/ exists c rest, lstrip text = String c rest /\ is_space c = false.
Proof.
  induction text as [|c text IH]; [left; reflexivity|]. simpl.
  destruct (is_space c) eqn:Hc; [exact IH|]. right. eauto.
Qed.

Lemma rstrip_idempotent (text : string) : rstrip (rstrip text) = rstrip text.
Proof.
  induction text as [|c text IH]; [reflexivity|]. simpl.
  destruct (rstrip text) as [|k kept] eqn:Hr.
  - destruct (is_space c) eqn:Hc; [reflexivity|]. simpl. rewrite Hc.
    reflexivity.
  - change (rstrip (String c (String k kept)))
      with (match rstrip (String k kept) with
            | EmptyString =>
                if is_space c then EmptyString else String c EmptyString
            | other => String c other
            end).
    rewrite IH. reflexivity.
Qed.

Lemma rstrip_keeps_head c rest :
  is_space c = false -> exists kept, rstrip (String c rest) = String c kept.
Proof.
  intros Hc. simpl. destruct (rstrip rest); [rewrite Hc|]; eauto.
Qed.

Lemma strip_idempotent (text : string) : strip (strip text) = strip text.
Proof.
  unfold strip.
  destruct (lstrip_head text) as [->|(c & rest & -> & Hc)]; [reflexivity|].
  destruct (rstrip_keeps_head c rest Hc) as [kept Hk].
  rewrite Hk. simpl lstrip. rewrite Hc, <- Hk. apply rstrip_idempotent.
Qed.

(** X23.  Every name that [load_names] returns is non-empty and carries
    no white space at either end, so that a loaded list never offers an
    empty name; the names come in the order of the file and there are no
    more of them than lines. *)
Theorem load_names_clean (lines : list string) :
  Forall (fun line => is_ascii line = true) lines ->
  Forall (fun name => name <> "" /\ strip name = name) (load_names lines)
  /\ (length (load_names lines) <= length lines)%nat
  /\ load_names (load_names lines) = load_names lines.
Proof.
  intros _. unfold load_names.
  assert (Hclean : Forall (fun name => name <> "" /\ strip name = name)
                     (List.map strip
                        (List.filter
                           (fun line => negb (String.eqb (strip line) ""))
                           lines))).
  { apply Forall_map, Forall_forall. intros line Hin. simpl.
    rewrite list_elem_of_In in Hin.
    apply List.filter_In in Hin as [_ Hne].
    apply negb_true_iff, String.eqb_neq in Hne.
    split; [exact Hne|apply strip_idempotent]. }
  split; [exact Hclean|]. split.
  - rewrite List.length_map. apply List.filter_length_le.
  - induction Hclean as [|name names [Hne Hstrip] _ IH]; [reflexivity|].
    simpl. rewrite Hstrip.
    destruct (String.eqb_spec name ""); [contradiction|]. simpl.
    rewrite Hstrip, IH. reflexivity.
Qed.

End GeneratorsFacts.

(* ===================================================================== *)
(** ** Properties of the device configurations                           *)
(* ===================================================================== *)

Module ConfigFacts.
Import Config.

Lemma checked_port_returns py_int port message p :
  checked_port py_int port message = Returns p ->
  py_int port = Returns p /\ 1024 <= p <= 65535.
Proof.
  unfold checked_port. destruct (py_int port) as [z|e].
  - destruct ((z <? 1024) || (65535 <? z)) eqn:E; [discriminate|].
    intros [= <-]. apply orb_false_elim in E. destruct E as [E1 E2].
    apply Z.ltb_ge in E1. apply Z.ltb_ge in E2. split; [reflexivity|lia].
  - destruct e; discriminate.
Qed.

Lemma checked_port_throws py_int port message e :
  (forall e', py_int port = Throws e' -> exists msg, e' = ValueError msg) ->
  checked_port py_int port message = Throws e ->
  e = ValueError message
  /\ match py_int port with
     | Returns p => p < 1024 \/ 65535 < p
     | Throws _ => True
     end.
Proof.
  intros Hint. unfold checked_port. destruct (py_int port) as [z|e'].
  - destruct ((z <? 1024) || (65535 <? z)) eqn:E; [|discriminate].
    intros [= <-]. split; [reflexivity|].
    apply orb_true_elim in E. destruct E as [E|E].
    + left. apply Z.ltb_lt. exact E.
    + right. apply Z.ltb_lt. exact E.
  - destruct (Hint e' eq_refl) as [msg ->]. intros [= <-]. split; reflexivity || exact I.
Qed.

Lemma built_well_formed (physical udid app_path app_name : pyval) (port : Z) :
  1024 <= port <= 65535 ->
  well_formed
    (<["is_physical" := physical]>
     (<["udid" := udid]>
     (<["appium_port" := PInt port]>
     (<["app_path" := app_path]>
     (<["app_name" := app_name]> (∅ : pydict)))))).
Proof.
  intros Hport. split.
  - rewrite !dom_insert_L, dom_empty_L. set_solver.
  - exists port. split; [|exact Hport].
    rewrite lookup_insert_ne by discriminate.
    rewrite lookup_insert_ne by discriminate.
    apply lookup_insert_eq.
Qed.

Lemma emulator_devices_returns py_int typed py_repr path name count :
  forall first devices out,
    emulator_devices py_int typed py_repr path name first count devices
    = Returns out ->
    exists new,
      out = (devices ++ new)%list
      /\ length new = count
      /\ Forall (fun device =>
                   well_formed device
                   /\ device !! "is_physical" = Some (PBool false)
                   /\ device !! "udid" = Some PNone
                   /\ device !! "app_path" = Some (PStr path)
                   /\ device !! "app_name" = Some (PStr name)) new.
Proof.
  induction count as [|count IH]; intros first devices out; simpl.
  - intros [= <-]. exists []. rewrite app_nil_r. repeat split. constructor.
  - destruct (checked_port _ _ _) as [port|e] eqn:Eport; [|discriminate].
    intros Hrest. apply checked_port_returns in Eport as [_ Hport].
    destruct (IH _ _ _ Hrest) as (new & -> & Hlen & Hall).
    eexists (_ :: new). split; [rewrite <- app_assoc; reflexivity|].
    split; [simpl; congruence|].
    constructor; [|exact Hall].
    split; [apply built_well_formed; exact Hport|].
    repeat split; repeat first [apply lookup_insert_eq
                               | rewrite lookup_insert_ne by discriminate].
Qed.

Lemma emulator_devices_throws py_int typed py_repr path name count :
  (forall text e', py_int (PStr text) = Throws e' ->
                   exists msg, e' = ValueError msg) ->
  forall first devices e,
    emulator_devices py_int typed py_repr path name first count devices
    = Throws e ->
    exists i,
      (first <= i < first + count)%nat
      /\ e = ValueError
               ("Invalid port number for emulator "
                ++ pretty (Z.of_nat i + 1) ++ ": "
                ++ py_repr (typed_or typed (2 + i) "4723"))
      /\ match py_int (PStr (typed_or typed (2 + i) "4723")) with
         | Returns p => p < 1024 \/ 65535 < p
         | Throws _ => True
         end
      /\ forall j, (first <= j < i)%nat ->
           exists p, py_int (PStr (typed_or typed (2 + j) "4723")) = Returns p
                     /\ 1024 <= p <= 65535.
Proof.
  intros Hint. induction count as [|count IH]; intros first devices e; simpl.
  - discriminate.
  - destruct (checked_port _ _ _) as [port|e'] eqn:Eport.
    + intros Hrest. apply checked_port_returns in Eport as [Hp Hport].
      destruct (IH _ _ _ Hrest) as (i & Hi & He & Hbad & Hgood).
      exists i. split; [lia|]. split; [exact He|]. split; [exact Hbad|].
      intros j Hj. destruct (Nat.eq_dec j first) as [->|Hne].
      * exists port. split; assumption.
      * apply Hgood. lia.
    + intros [= <-].
      apply checked_port_throws in Eport as [-> Hbad]; [|apply Hint].
      exists first. split; [lia|]. split; [reflexivity|].
      split; [exact Hbad|]. intros j Hj. lia.
Qed.

(** X24.  Every configuration that [get_device_config] returns is well
    formed: it has the five keys [is_physical], [udid], [appium_port],
    [app_path], [app_name] and no other, its port is an integer from 1024
    to 65535, and [is_physical] is the flag that was asked for.  A
    physical device gives one configuration, carrying the truthy UDID of
    the settings; emulators give [num_threads] of them (none for a count
    of 0 or below), without UDID. *)
Theorem get_device_config_well_formed (py_int : pyval -> reply Z)
    (typed : nat -> string) (py_repr : string -> string) (adb : pydict)
    (num_threads : Z) (is_physical : bool) (devices : list pydict) :
  get_device_config py_int typed py_repr adb num_threads is_physical
  = Returns devices ->
  length devices = (if is_physical then 1%nat else Z.to_nat num_threads)
  /\ Forall (fun device =>
               well_formed device
               /\ device !! "is_physical" = Some (PBool is_physical)
               /\ device !! "udid"
                  = Some (if is_physical then dict_get adb "device_udid"
                          else PNone)) devices
  /\ (is_physical = true -> truthy (dict_get adb "device_udid") = true).
Proof.
  unfold get_device_config. destruct is_physical.
  - unfold dict_get.
    destruct (adb !! "device_udid") as [udid|]; [|discriminate]. simpl.
    destruct (truthy udid) eqn:Eudid; [|discriminate]. simpl.
    destruct (adb !! "appium_port") as [port|]; [|discriminate].
    destruct (checked_port _ _ _) as [p|e] eqn:Eport; [|discriminate].
    intros [= <-]. apply checked_port_returns in Eport as [_ Hport].
    split; [reflexivity|]. split; [|reflexivity].
    constructor; [|constructor].
    split; [apply built_well_formed; exact Hport|].
    split; repeat first [apply lookup_insert_eq
                        | rewrite lookup_insert_ne by discriminate].
  - intros Hrun. apply emulator_devices_returns in Hrun
      as (new & -> & Hlen & Hall).
    split; [exact Hlen|]. split; [|discriminate].
    simpl. eapply Forall_impl; [exact Hall|].
    intros device (Hwf & Hphys & Hudid & _).
    split; [exact Hwf|]. split; assumption.
Qed.

(** X25.  With emulators the only failure of [get_device_config] is the
    [ValueError] that names the first emulator, counted from 1, whose
    port line is no number from 1024 to 65535 (an empty line standing for
    4723): every line before it was accepted.  ([int] raises nothing but
    [ValueError] on a text.) *)
Theorem emulator_config_failure (py_int : pyval -> reply Z)
    (typed : nat -> string) (py_repr : string -> string) (adb : pydict)
    (num_threads : Z) (e : exn) :
  (forall text e', py_int (PStr text) = Throws e' ->
                   exists msg, e' = ValueError msg) ->
  get_device_config py_int typed py_repr adb num_threads false = Throws e ->
  exists i,
    (i < Z.to_nat num_threads)%nat
    /\ e = ValueError
             ("Invalid port number for emulator "
              ++ pretty (Z.of_nat i + 1) ++ ": "
              ++ py_repr (typed_or typed (2 + i) "4723"))
    /\ match py_int (PStr (typed_or typed (2 + i) "4723")) with
       | Returns p => p < 1024 \/ 65535 < p
       | Throws _ => True
       end
    /\ forall j, (j < i)%nat ->
         exists p, py_int (PStr (typed_or typed (2 + j) "4723")) = Returns p
                   /\ 1024 <= p <= 65535.
Proof.
  intros Hint Hrun. unfold get_device_config in Hrun.
  apply emulator_devices_throws in Hrun as (i & Hi & He & Hbad & Hgood);
    [|exact Hint].
  exists i. split; [lia|]. split; [exact He|]. split; [exact Hbad|].
  intros j Hj. apply Hgood. lia.
Qed.

Lemma get_device_config_all_well_formed py_int typed py_repr adb num_threads
    is_physical devices :
  get_device_config py_int typed py_repr adb num_threads is_physical
  = Returns devices ->
  Forall well_formed devices.
Proof.
  unfold get_device_config. destruct is_physical.
  - destruct (adb !! "device_udid") as [udid|]; [|discriminate].
    destruct (negb (truthy udid)); [discriminate|].
    destruct (adb !! "appium_port") as [port|]; [|discriminate].
    destruct (checked_port _ _ _) as [p|e] eqn:Eport; [|discriminate].
    intros [= <-]. apply checked_port_returns in Eport as [_ Hport].
    constructor; [|constructor]. apply built_well_formed. exact Hport.
  - intros Hrun. apply emulator_devices_returns in Hrun
      as (new & -> & _ & Hall).
    simpl. eapply Forall_impl; [exact Hall|].
    intros device (Hwf & _). exact Hwf.
Qed.

(** No configuration of [get_device_config] has an [emulator_path]. *)
Lemma well_formed_no_emulator_path (device : pydict) :
  well_formed device -> device !! "emulator_path" = None.
Proof.
  intros [Hdom _]. apply not_elem_of_dom. rewrite Hdom.
  set_unfold. intuition discriminate.
Qed.

End ConfigFacts.

(* ===================================================================== *)
(** ** Properties of the provider object                                 *)
(* ===================================================================== *)

Module ProviderFacts.

(** X26.  An [SmsApi] object is made only from a key file that holds
    more than white space, and only for the services [sms-activate] and
    [grizzly-sms], written in any case and with white space around.  For
    the first, [phone_number_send] passes [MAX_PRICE] on to the provider;
    for the second it never does. *)
Theorem SmsApi_init_price_cap (service api_key_path : string)
    (key_file : option string) (MAX_PRICE : pyval) (sms : SmsApi) :
  Provider.SmsApi_init service api_key_path key_file = Returns sms ->
  (exists text, key_file = Some text /\ strip text <> "")
  /\ service_name sms = strip (Generators.lower service)
  /\ ((service_name sms = "sms-activate"
       /\ Regger.max_price_for MAX_PRICE sms = Some MAX_PRICE)
      \/ (service_name sms = "grizzly-sms"
          /\ Regger.max_price_for MAX_PRICE sms = None)).
Proof.
  unfold Provider.SmsApi_init. destruct key_file as [text|]; [|discriminate].
  destruct (String.eqb (strip text) "") eqn:Ekey; [discriminate|].
  apply String.eqb_neq in Ekey.
  destruct (String.eqb (strip (Generators.lower service)) "sms-activate")
    eqn:E1.
  - intros [= <-]. apply String.eqb_eq in E1.
    split; [exists text; split; [reflexivity|exact Ekey]|].
    split; [reflexivity|]. left. split; [exact E1|reflexivity].
  - destruct (String.eqb (strip (Generators.lower service)) "grizzly-sms")
      eqn:E2; [|discriminate].
    intros [= <-]. apply String.eqb_eq in E2.
    split; [exists text; split; [reflexivity|exact Ekey]|].
    split; [reflexivity|]. right. split; [exact E2|reflexivity].
Qed.

End ProviderFacts.

(* ===================================================================== *)
(** ** Properties of a registration                                      *)
(* ===================================================================== *)

Module RegisterFacts.
Import Register.

Lemma post_ret {A} (Q : A -> Stage -> Prop) (a : A) :
  (forall st, Q a st) -> post Q (rret a).
Proof. intros H st a' st' [= <- <-]. apply H. Qed.

Lemma post_raise {A} (Q : A -> Stage -> Prop) (e : exn) : post Q (rraise e).
Proof. intros st a st' H. discriminate H. Qed.

Lemma post_out_of_fuel {A} (Q : A -> Stage -> Prop) : post Q rout_of_fuel.
Proof. intros st a st' H. discriminate H. Qed.

Lemma post_bind {A B} (Q : B -> Stage -> Prop) (m : R A) (k : A -> R B) :
  (forall a, post Q (k a)) -> post Q (rbind m k).
Proof.
  intros H st b st'. unfold rbind.
  destruct (m st) as [[a|e|] st1]; try discriminate. apply H.
Qed.

Lemma post_bind_raise {A B} (Q : B -> Stage -> Prop) (e : exn)
    (k : A -> R B) :
  post Q (rbind (rraise e) k).
Proof. intros st b st' H. discriminate H. Qed.

Lemma post_try {A} (Q : A -> Stage -> Prop) (m : R A) (handler : exn -> R A) :
  post Q m -> (forall e, post Q (handler e)) -> post Q (rtry m handler).
Proof.
  intros Hm Hh st a st'. unfold rtry.
  destruct (m st) as [[a1|e|] st1] eqn:E; try discriminate.
  - intros [= <- <-]. exact (Hm _ _ _ E).
  - apply Hh.
Qed.

Lemma post_finally_value {A} (Q : A -> Prop) (m : R A) (cleanup : R unit) :
  post (fun a _ => Q a) m -> post (fun a _ => Q a) (rfinally m cleanup).
Proof.
  intros Hm st a st'. unfold rfinally.
  destruct (m st) as [[a1|e|] st1] eqn:E; try discriminate;
    destruct (cleanup st1) as [[[]|e'|] st2]; try discriminate.
  intros [= <- <-]. exact (Hm _ _ _ E).
Qed.

Lemma post_finally_stage {A} (Q : Stage -> Prop) (m : R A)
    (cleanup : R unit) :
  post (fun _ st => Q st) cleanup -> post (fun _ st => Q st) (rfinally m cleanup).
Proof.
  intros Hc st a st'. unfold rfinally.
  destruct (m st) as [[a1|e|] st1] eqn:E; try discriminate;
    destruct (cleanup st1) as [[[]|e'|] st2] eqn:Ec; try discriminate.
  intros [= <- <-]. exact (Hc _ _ _ Ec).
Qed.

Ltac post_step :=
  lazymatch goal with
  | |- post _ (rbind (rraise _) _) => apply post_bind_raise
  | |- post _ (rbind _ _) => apply post_bind; intros
  | |- post _ (rret _) => apply post_ret; intros; reflexivity
  | |- post _ (rraise _) => apply post_raise
  | |- post _ (rtry _ _) => apply post_try; [|intros]
  | |- post _ (if ?b then _ else _) => destruct b
  | |- post _ (match ?x with _ => _ end) => destruct x
  end.

Section Facts.

Variable isoformat : datetime -> string.
Variable fromisoformat : string -> option iso_datetime.
Variable env : Env.
Variable desk : Desk.
Variable COUNTRY : string.
Variable MAX_PRICE : pyval.

Local Abbreviation registration :=
  (registration isoformat fromisoformat env desk COUNTRY MAX_PRICE).
Local Abbreviation register_telegram_account :=
  (register_telegram_account isoformat fromisoformat env desk COUNTRY
     MAX_PRICE).
Local Abbreviation register_accounts :=
  (register_accounts isoformat fromisoformat env desk COUNTRY MAX_PRICE).

(** The [try] block never reaches its [return True]. *)
Lemma registration_false fuel sms_obj device_info first_names last_names :
  post (fun b _ => b = false)
       (registration fuel sms_obj device_info first_names last_names).
Proof.
  unfold Register.registration. unfold asyncio_run.
  repeat post_step.
Qed.

Lemma register_false fuel device_config sms_srvice sms_api_key_path
    first_names last_names attempt :
  post (fun b _ => b = false)
       (register_telegram_account fuel device_config sms_srvice
          sms_api_key_path first_names last_names attempt).
Proof.
  unfold Register.register_telegram_account.
  repeat (apply post_bind; intros).
  apply (post_finally_value (fun b => b = false)).
  apply post_try; [apply registration_false|].
  intros e. apply post_ret. reflexivity.
Qed.

(** X28.  [register_telegram_account] never returns [True]: the name
    [asyncio], which the step after the TData folder looks up, is not
    defined in the module, the [NameError] is taken by the handler of the
    function, and every other way out of the [try] block is a
    [return False] or an exception. *)
Theorem register_telegram_account_never_true (fuel : nat)
    (device_config : pydict) (sms_srvice sms_api_key_path : string)
    (first_names last_names : list string) (attempt : Z) (st : Stage) :
  fst (register_telegram_account fuel device_config sms_srvice
         sms_api_key_path first_names last_names attempt st) <> Ok true.
Proof.
  destruct (register_telegram_account _ _ _ _ _ _ _ st) as [r st'] eqn:E.
  simpl. intros ->. apply register_false in E. discriminate E.
Qed.

Lemma register_without_emulator_path fuel device_config sms_srvice
    sms_api_key_path first_names last_names attempt st :
  device_config !! "emulator_path" = None ->
  register_telegram_account fuel device_config sms_srvice sms_api_key_path
    first_names last_names attempt st
  = (Raise (KeyError "'emulator_path'"), st).
Proof.
  intros H. unfold Register.register_telegram_account, subscript.
  rewrite H. reflexivity.
Qed.

(** X27.  No configuration that [get_device_config] returns can be
    registered on: [register_telegram_account] reads
    [device_config['emulator_path']], a key that these configurations do
    not have, and raises [KeyError] before it has done anything; the loop
    of [main], when an account is asked for, ends with that exception in
    its first pass. *)
Theorem configured_device_is_refused (py_int : pyval -> reply Z)
    (typed : nat -> string) (py_repr : string -> string) (adb : pydict)
    (num_threads : Z) (is_physical : bool) (devices : list pydict)
    (device : pydict) (rounds fuel : nat)
    (sms_service sms_api_key_path : string)
    (first_names last_names : list string)
    (num_accounts registered_accounts attempt : Z) (st : Stage) :
  Config.get_device_config py_int typed py_repr adb num_threads is_physical
  = Returns devices ->
  In device devices ->
  register_telegram_account fuel device sms_service sms_api_key_path
    first_names last_names attempt st
  = (Raise (KeyError "'emulator_path'"), st)
  /\ (registered_accounts < num_accounts ->
      register_accounts (S rounds) fuel device sms_service sms_api_key_path
        first_names last_names num_accounts registered_accounts attempt st
      = (Raise (KeyError "'emulator_path'"), st)).
Proof.
  intros Hconfig Hin.
  apply ConfigFacts.get_device_config_all_well_formed in Hconfig.
  rewrite Forall_forall in Hconfig.
  assert (Hkey : device !! "emulator_path" = None).
  { apply ConfigFacts.well_formed_no_emulator_path. apply Hconfig.
    apply list_elem_of_In. exact Hin. }
  split.
  - apply register_without_emulator_path. exact Hkey.
  - intros Hless. simpl.
    apply Z.ltb_lt in Hless. rewrite Hless. simpl.
    unfold rbind. rewrite register_without_emulator_path by exact Hkey.
    reflexivity.
Qed.

Lemma early_refl st : early st st.
Proof. exists []. repeat split. constructor. Qed.

Lemma early_trans st1 st2 st3 : early st1 st2 -> early st2 st3 -> early st1 st3.
Proof.
  intros (n1 & H1 & F1 & C1 & L1) (n2 & H2 & F2 & C2 & L2).
  exists (n2 ++ n1)%list. split; [rewrite H2, H1, app_assoc; reflexivity|].
  split; [apply Forall_app; split; assumption|].
  split; congruence.
Qed.

Lemma perform_early {A} (a : action)
    (result : Desk -> list action -> reply A) st r st' :
  before_try a -> perform desk a result st = (r, st') -> early st st'.
Proof.
  intros Ha. unfold perform.
  destruct (result desk (a :: acts st)); intros [= <- <-];
    (exists [a]; repeat split; constructor; [exact Ha|constructor]).
Qed.

Lemma subscript_early d key st r st' :
  subscript d key st = (r, st') -> early st st'.
Proof.
  unfold subscript. destruct (d !! key); intros [= <- <-]; apply early_refl.
Qed.

Lemma exits_bind {A B} (m : R A) (k : A -> R B) :
  (forall st r st1, m st = (r, st1) -> early st st1) ->
  (forall a, exits desk (k a)) -> exits desk (rbind m k).
Proof.
  intros Hm Hk st r st'. unfold rbind.
  destruct (m st) as [[a|e|] st1] eqn:E.
  - intros Hrun. specialize (Hk a st1 r st' Hrun).
    destruct r as [b|e|]; [exact Hk| |exact I].
    destruct Hk as [Hk|Hk]; [left|right; exact Hk].
    eapply early_trans; [exact (Hm _ _ _ E)|exact Hk].
  - intros [= <- <-]. left. exact (Hm _ _ _ E).
  - intros [= <- <-]. exact I.
Qed.

Lemma exits_guarded (body : R bool) :
  exits desk (rfinally (rtry body (fun _ => rret false)) (close_all desk)).
Proof.
  intros st r st'. unfold rfinally, rtry.
  destruct (body st) as [[b|e|] st1].
  - unfold close_all, rbind, act, perform. simpl.
    destruct (answer desk (ATelegramClose :: acts st1)) eqn:E1; simpl.
    + destruct (answer desk (AOnionClose :: ATelegramClose :: acts st1))
        eqn:E2; simpl; intros [= <- <-]; simpl.
      * eexists. reflexivity.
      * right. eexists _, _. simpl. split; [reflexivity|].
        split; [right; reflexivity|exact E2].
    + intros [= <- <-]. right. eexists _, _. simpl. split; [reflexivity|].
      split; [left; reflexivity|exact E1].
  - unfold rret, close_all, rbind, act, perform. simpl.
    destruct (answer desk (ATelegramClose :: acts st1)) eqn:E1; simpl.
    + destruct (answer desk (AOnionClose :: ATelegramClose :: acts st1))
        eqn:E2; simpl; intros [= <- <-]; simpl.
      * eexists. reflexivity.
      * right. eexists _, _. simpl. split; [reflexivity|].
        split; [right; reflexivity|exact E2].
    + intros [= <- <-]. right. eexists _, _. simpl. split; [reflexivity|].
      split; [left; reflexivity|exact E1].
  - intros [= <- <-]. exact I.
Qed.

(** X29.  Nothing that happens inside the [try] block leaves
    [register_telegram_account] as an exception, and the clean-up comes
    last: when the function returns, [telegram.close()] and then
    [onion.close()] are the last things it did; when it raises, either one
    of the two [close()] calls raised that exception last, or the
    exception comes from before the [try] block (a missing key of the
    configuration, the key file, [Onion()], [get_device_info] or
    [Telegram(...)]), and then the provider and the ledger have not been
    touched and nothing has been closed. *)
Theorem register_telegram_account_exits (fuel : nat)
    (device_config : pydict) (sms_srvice sms_api_key_path : string)
    (first_names last_names : list string) (attempt : Z)
    (st : Stage) (r : res bool) (st' : Stage) :
  register_telegram_account fuel device_config sms_srvice sms_api_key_path
    first_names last_names attempt st = (r, st') ->
  match r with
  | Ok _ => exists rest, acts st' = AOnionClose :: ATelegramClose :: rest
  | Raise e =>
      (exists new,
         acts st' = (new ++ acts st)%list
         /\ Forall before_try new
         /\ calls (world st') = calls (world st)
         /\ activations (world st') = activations (world st))
      \/ (exists a h,
            acts st' = a :: h
            /\ (a = ATelegramClose \/ a = AOnionClose)
            /\ answer desk (a :: h) = Throws e)
  | OutOfFuel => True
  end.
Proof.
  revert st r st'.
  change (exits desk
            (register_telegram_account fuel device_config sms_srvice
               sms_api_key_path first_names last_names attempt)).
  unfold Register.register_telegram_account.
  repeat first
    [ apply exits_guarded
    | apply exits_bind;
      [ intros st r st1;
        first [ apply subscript_early
              | apply perform_early; exact I ]
      | intros ] ].
Qed.

Lemma post_bind_with {A B} (Q1 : A -> Stage -> Prop) (Q : B -> Stage -> Prop)
    (m : R A) (k : A -> R B) :
  post Q1 m -> (forall a, (exists st, Q1 a st) -> post Q (k a)) ->
  post Q (rbind m k).
Proof.
  intros Hm Hk st b st'. unfold rbind.
  destruct (m st) as [[a|e|] st1] eqn:E; try discriminate.
  apply Hk. exists st1. exact (Hm _ _ _ E).
Qed.

Lemma register_accounts_post rounds fuel device_config sms_service
    sms_api_key_path first_names last_names num_accounts registered_accounts :
  forall attempt,
    post (fun n _ => n = registered_accounts
                     /\ num_accounts <= registered_accounts)
         (register_accounts rounds fuel device_config sms_service
            sms_api_key_path first_names last_names num_accounts
            registered_accounts attempt).
Proof.
  induction rounds as [|rounds IH]; intros attempt;
    simpl; destruct (registered_accounts <? num_accounts) eqn:E; simpl.
  - apply post_out_of_fuel.
  - apply post_ret. intros _. apply Z.ltb_ge in E. split; [reflexivity|lia].
  - eapply post_bind_with; [apply register_false|].
    intros success [_ ->]. apply IH.
  - apply post_ret. intros _. apply Z.ltb_ge in E. split; [reflexivity|lia].
Qed.

(** X30.  The loop of [main] never counts an account: when there is an
    account left to register it cannot end by reaching the number asked
    for, however many passes it makes; it goes on until an exception ends
    it.  ([register_telegram_account] never answers [True].) *)
Theorem no_account_is_counted (rounds fuel : nat) (device_config : pydict)
    (sms_service sms_api_key_path : string)
    (first_names last_names : list string)
    (num_accounts registered_accounts attempt : Z) (st : Stage) (n : Z) :
  registered_accounts < num_accounts ->
  fst (register_accounts rounds fuel device_config sms_service
         sms_api_key_path first_names last_names num_accounts
         registered_accounts attempt st) <> Ok n.
Proof.
  intros Hless.
  destruct (register_accounts _ _ _ _ _ _ _ _ _ _ st) as [r st'] eqn:E.
  simpl. intros ->. apply register_accounts_post in E. lia.
Qed.

End Facts.
End RegisterFacts.

(* ===================================================================== *)
(** ** Sample runs of the further properties                             *)
(* ===================================================================== *)

Module RunsMore.

Lemma save_keeps_verdicts_witness :
  Ledger.can_set_status_8 Sample.fromisoformat 300000000 (PStr "42")
    Ledger.default_min_age_seconds
    (Ledger.save_activation_to_json Sample.isoformat 300000000 (PStr "42")
       (PStr "+15551234567") (activations Sample.tracked_42))
  = Ledger.Verdict true.
Proof.
  rewrite (LedgerMore.save_keeps_verdicts Sample.isoformat
             Sample.fromisoformat 300000000 300000000 (PStr "42")
             (PStr "+15551234567") (PStr "42") Ledger.default_min_age_seconds
             (activations Sample.tracked_42) (or_introl eq_refl)).
  reflexivity.
Defined.

Lemma remove_keeps_verdicts_witness :
  Ledger.can_set_status_8 Sample.fromisoformat 300000000 (PStr "42")
    Ledger.default_min_age_seconds
    (Ledger.remove_activation_from_json (PStr "7")
       (activations Sample.tracked_42))
  = Ledger.Verdict true.
Proof.
  rewrite (LedgerMore.remove_keeps_verdicts Sample.fromisoformat 300000000
             (PStr "7") (PStr "42") Ledger.default_min_age_seconds
             (activations Sample.tracked_42) ltac:(discriminate)).
  reflexivity.
Defined.

Lemma check_verif_status_settles_once_witness :
  status_changes
    (calls (snd (Regger.check_verif_status SampleMore.texting 10 (PStr "43")
                   300 5 Sample.fresh)))
  = [(PStr "43", 6)].
Proof.
  assert (E : Regger.check_verif_status SampleMore.texting 10 (PStr "43")
                300 5 Sample.fresh
              = (Ok (PStr "123456"),
                 snd (Regger.check_verif_status SampleMore.texting 10
                        (PStr "43") 300 5 Sample.fresh)))
    by (vm_compute; reflexivity).
  destruct (PollingMore.check_verif_status_settles_once SampleMore.texting
              10 (PStr "43") 300 5 Sample.fresh _ _ ltac:(lia) E)
    as [_ [[_ H]|[H _]]].
  - exact H.
  - discriminate H.
Defined.

Lemma check_verif_status_raises_only_on_retry_witness :
  status_changes
    (calls (snd (Regger.check_verif_status SampleMore.fussy 10 (PStr "43")
                   300 5 Sample.fresh)))
  = [].
Proof.
  assert (E : Regger.check_verif_status SampleMore.fussy 10 (PStr "43")
                300 5 Sample.fresh
              = (Raise (TypeError "getStatusV2() got an unexpected argument"),
                 snd (Regger.check_verif_status SampleMore.fussy 10
                        (PStr "43") 300 5 Sample.fresh)))
    by (vm_compute; reflexivity).
  destruct (PollingMore.check_verif_status_raises_only_on_retry
              SampleMore.fussy 10 (PStr "43") 300 5 Sample.fresh _ _
              ltac:(lia) E) as [H _].
  exact H.
Defined.

Lemma check_verif_status_terminates_witness :
  0 < 5 /\ 300 <= Z.of_nat 60 * 5
  /\ fst (Regger.check_verif_status Sample.silent 61 (PStr "42") 300 5
            Sample.fresh) <> OutOfFuel.
Proof.
  split; [lia|]. split; [lia|].
  apply (PollingMore.check_verif_status_terminates Sample.silent 60
           (PStr "42") 300 5 Sample.fresh); lia.
Defined.

Lemma phone_number_send_success_witness :
  Ledger.recorded (PStr "42")
    (activations
       (snd (Regger.phone_number_send Sample.isoformat Sample.fromisoformat
               Sample.always_british "Germany" Sample.MAX_PRICE 1 Sample.sms
               Sample.fresh)))
  = true.
Proof.
  assert (E : Regger.phone_number_send Sample.isoformat Sample.fromisoformat
                Sample.always_british "Germany" Sample.MAX_PRICE 1 Sample.sms
                Sample.fresh
              = (Ok (Sent (PStr "42") (PStr "+447911123456") (PFloat "0.1")),
                 snd (Regger.phone_number_send Sample.isoformat
                        Sample.fromisoformat Sample.always_british "Germany"
                        Sample.MAX_PRICE 1 Sample.sms Sample.fresh)))
    by (vm_compute; reflexivity).
  destruct (ReggerMore.phone_number_send_success Sample.isoformat
              Sample.fromisoformat Sample.always_british "Germany"
              Sample.MAX_PRICE 1 Sample.sms Sample.fresh _ _ _ _ E)
    as (_ & _ & w1 & _ & _ & _ & H).
  exact H.
Defined.

Lemma lookup_failure_is_bounded_witness :
  exists w',
    Regger.phone_number_send Sample.isoformat Sample.fromisoformat
      SampleMore.nowhere "USA" Sample.MAX_PRICE 1 Sample.sms Sample.fresh
    = (Ok SentFalse, w')
    /\ calls w' = (List.repeat (EGetCountryId "USA") 5 ++ [])%list
    /\ activations w' = None.
Proof.
  exact (ReggerMore.lookup_failure_is_bounded Sample.isoformat
           Sample.fromisoformat SampleMore.nowhere "USA" Sample.MAX_PRICE
           (fun h => eq_refl) 0%nat Sample.sms Sample.fresh).
Defined.

Lemma activation_admin_spares_other_ids_witness :
  Ledger.recorded (PStr "42")
    (activations
       (snd (Regger.activation_admin Sample.fromisoformat Sample.silent
               Sample.sms [] (PStr "+15550000000") (PStr "7")
               Sample.tracked_42)))
  = true.
Proof.
  destruct (ReggerMore.activation_admin_spares_other_ids Sample.fromisoformat
              Sample.silent Sample.sms [] (PStr "+15550000000") (PStr "7")
              Sample.tracked_42 _ _ (surjective_pairing _)) as [_ H].
  rewrite (H (PStr "42") ltac:(discriminate)). reflexivity.
Defined.

Lemma activation_admin_bookkeeping_witness :
  fst (Regger.activation_admin Sample.fromisoformat Sample.silent Sample.sms
         [] (PStr "+15551234567") (PStr "42") Sample.tracked_42)
  = Ok CECH_PATH.
Proof.
  destruct (ReggerMore.activation_admin_bookkeeping Sample.fromisoformat
              Sample.silent Sample.sms [] (PStr "+15551234567") (PStr "42")
              Sample.tracked_42 _ _ ltac:(discriminate)
              (surjective_pairing _)) as [H _].
  exact H.
Defined.

Lemma wait_for_code_outcome_witness :
  status_changes
    (calls (snd (Regger.wait_for_code Sample.fromisoformat SampleMore.texting
                   10 Sample.sms [] (PStr "+15551234567") (PStr "43")
                   Sample.fresh)))
  = [(PStr "43", 6)].
Proof.
  assert (E : Regger.wait_for_code Sample.fromisoformat SampleMore.texting
                10 Sample.sms [] (PStr "+15551234567") (PStr "43")
                Sample.fresh
              = (Ok (CodeReceived (PStr "123456")),
                 snd (Regger.wait_for_code Sample.fromisoformat
                        SampleMore.texting 10 Sample.sms []
                        (PStr "+15551234567") (PStr "43") Sample.fresh)))
    by (vm_compute; reflexivity).
  destruct (ReggerMore.wait_for_code_outcome Sample.fromisoformat
              SampleMore.texting 10 Sample.sms [] (PStr "+15551234567")
              (PStr "43") Sample.fresh _ _ E) as [_ H].
  destruct (H (PStr "123456") eq_refl) as (_ & _ & _ & Hst).
  exact Hst.
Defined.

Lemma load_names_clean_witness :
  Generators.load_names
    (Generators.load_names ["  Anna "; ""; "Bob"; "   "])
  = Generators.load_names ["  Anna "; ""; "Bob"; "   "].
Proof.
  destruct (GeneratorsFacts.load_names_clean ["  Anna "; ""; "Bob"; "   "])
    as (_ & _ & H).
  - repeat (constructor; [reflexivity|]). constructor.
  - exact H.
Defined.

End RunsMore.

Module RunsConfig.

Lemma sample_int_text (text : string) (e : exn) :
  Config.sample_int (PStr text) = Throws e -> exists msg, e = ValueError msg.
Proof.
  unfold Config.sample_int.
  destruct (String.eqb text "4723"); [discriminate|].
  destruct (String.eqb text "80"); [discriminate|].
  intros [= <-]. eexists. reflexivity.
Qed.

Lemma default_emulators :
  Config.get_device_config Config.sample_int Config.nothing_typed
    Config.sample_repr ∅ 2 false
  = Returns [Config.default_emulator; Config.default_emulator].
Proof. vm_compute. reflexivity. Qed.

Lemma get_device_config_well_formed_witness :
  Forall (fun device =>
            Config.well_formed device
            /\ device !! "is_physical" = Some (PBool false)
            /\ device !! "udid" = Some PNone)
         [Config.default_emulator; Config.default_emulator].
Proof.
  destruct (ConfigFacts.get_device_config_well_formed Config.sample_int
              Config.nothing_typed Config.sample_repr ∅ 2 false _
              default_emulators) as (_ & H & _).
  exact H.
Defined.

Lemma emulator_config_failure_witness :
  exists i,
    (i < 2)%nat
    /\ ValueError "Invalid port number for emulator 2: '80'"
       = ValueError
           ("Invalid port number for emulator "
            ++ pretty (Z.of_nat i + 1) ++ ": "
            ++ Config.sample_repr
                 (Config.typed_or Config.low_port_typed (2 + i) "4723")).
Proof.
  destruct (ConfigFacts.emulator_config_failure Config.sample_int
              Config.low_port_typed Config.sample_repr ∅ 2
              (ValueError "Invalid port number for emulator 2: '80'")
              sample_int_text ltac:(vm_compute; reflexivity))
    as (i & Hi & He & _).
  exists i. split; [exact Hi|exact He].
Defined.

Lemma SmsApi_init_price_cap_witness :
  Regger.max_price_for Sample.MAX_PRICE
    (mkSmsApi "grizzly-sms"
       "https://api.grizzlysms.com/stubs/handler_api.php")
  = None.
Proof.
  destruct (ProviderFacts.SmsApi_init_price_cap " Grizzly-SMS" "key.txt"
              (Some "0123abcd ") Sample.MAX_PRICE
              (mkSmsApi "grizzly-sms"
                 "https://api.grizzlysms.com/stubs/handler_api.php")
              eq_refl) as (_ & _ & [[H _]|[_ H]]).
  - discriminate H.
  - exact H.
Defined.

Lemma configured_device_is_refused_witness :
  Register.register_telegram_account Sample.isoformat Sample.fromisoformat
    Sample.silent Register.obliging "USA" Sample.MAX_PRICE 61
    Config.default_emulator "sms-activate" "sms_activate_api.txt" [] [] 1
    Register.idle
  = (Raise (KeyError "'emulator_path'"), Register.idle).
Proof.
  destruct (RegisterFacts.configured_device_is_refused Sample.isoformat
              Sample.fromisoformat Sample.silent Register.obliging "USA"
              Sample.MAX_PRICE Config.sample_int Config.nothing_typed
              Config.sample_repr ∅ 2 false _ Config.default_emulator 0 61
              "sms-activate" "sms_activate_api.txt" [] [] 1 0 1
              Register.idle default_emulators (or_introl eq_refl))
    as [H _].
  exact H.
Defined.

Lemma legacy_run :
  Register.register_telegram_account Sample.isoformat Sample.fromisoformat
    Sample.silent Register.obliging "USA" Sample.MAX_PRICE 61
    Register.legacy_config "sms-activate" "sms_activate_api.txt" [] [] 1
    Register.idle
  = (Ok false,
     snd (Register.register_telegram_account Sample.isoformat
            Sample.fromisoformat Sample.silent Register.obliging "USA"
            Sample.MAX_PRICE 61 Register.legacy_config "sms-activate"
            "sms_activate_api.txt" [] [] 1 Register.idle)).
Proof. vm_compute. reflexivity. Qed.

Lemma register_telegram_account_exits_witness :
  exists rest,
    Register.acts
      (snd (Register.register_telegram_account Sample.isoformat
              Sample.fromisoformat Sample.silent Register.obliging "USA"
              Sample.MAX_PRICE 61 Register.legacy_config "sms-activate"
              "sms_activate_api.txt" [] [] 1 Register.idle))
    = Register.AOnionClose :: Register.ATelegramClose :: rest.
Proof.
  exact (RegisterFacts.register_telegram_account_exits Sample.isoformat
           Sample.fromisoformat Sample.silent Register.obliging "USA"
           Sample.MAX_PRICE 61 Register.legacy_config "sms-activate"
           "sms_activate_api.txt" [] [] 1 Register.idle _ _ legacy_run).
Defined.

Lemma no_account_is_counted_witness :
  0 < 1
  /\ fst (Register.register_accounts Sample.isoformat Sample.fromisoformat
            Sample.silent Register.obliging "USA" Sample.MAX_PRICE 2 61
            Register.legacy_config "sms-activate" "sms_activate_api.txt"
            [] [] 1 0 0 Register.idle)
     <> Ok 1.
Proof.
  split; [lia|].
  apply (RegisterFacts.no_account_is_counted Sample.isoformat
           Sample.fromisoformat Sample.silent Register.obliging "USA"
           Sample.MAX_PRICE 2 61 Register.legacy_config "sms-activate"
           "sms_activate_api.txt" [] [] 1 0 0 Register.idle 1).
  lia.
Defined.

End RunsConfig.
